(** * ValutaTrade Hub: the rate cache and update pipeline

    A shallow embedding of
      - [parser_service/api_clients.py]  (the two quote providers),
      - [parser_service/storage.py]      (snapshot and history stores),
      - [parser_service/updater.py]      (the rate merger, [RatesUpdater]),
      - [core/usecases.py]               ([_get_conversion_rate],
                                          [_check_data_freshness],
                                          [update_rates], [get_rate], [buy],
                                          [sell], [deposit], [register],
                                          [login] and the loading and saving
                                          of portfolios),
      - [core/models.py]                 ([Wallet], [Portfolio] and the
                                          checks of [User]),
      - [core/currencies.py]             ([get_currency]),
    followed by the properties of the specification that concern them and
    by further properties of the code.

    Conventions of the embedding.
      - A Python [float] is an IEEE-754 binary64 number: Rocq's primitive
        [float].  A JSON number is taken as the value [float()] gives it,
        or as an integer too large for a float, on which [float()]
        raises.
      - A Python [str] is a [string]; comparison is lexicographic on the
        bytes of its UTF-8 encoding, which orders strings as Python orders
        them by code point.
      - A raised exception is a value of [exn]; a computation that may raise
        returns a [result].
      - The snapshot's [pairs] dictionary is a [gmap string PairEntry]; a
        provider batch, whose iteration order drives the history log, is an
        association list in insertion order.
      - Files are the only shared state.  Writes to the file system are taken
        to succeed; the wall clock is read through a tick counter.
      - A snapshot document that parses is an object of the persistence
        format: [pairs] is absent or a dictionary of entries whose [rate] is
        a number and whose [updated_at] and [source] are strings, and
        [last_refresh] is a string or [null].
      - [str.strip], [str.lower], [str.upper] and [str.isalpha] are
        modelled on ASCII: they are Python's on the strings of [is_ascii].
        [len] counts the code points of the UTF-8 text.  The standard
        library's [float(str)], [strftime],
        [isoformat], [fromisoformat], SHA-256 and number formatting are
        parameters of the sections that use them; what [os.urandom] draws is
        an argument.
      - The portfolios file, when it parses, is a list of portfolio
        dictionaries of the format [Portfolio.to_dict] writes: [user_id] is
        there, [base_currency] and [wallets] may be absent, and each wallet
        has a [currency_code] string and a [balance] float.  The users file,
        when it parses, is a list of the dictionaries [register] writes.
      - The use cases raise two exceptions of [core/exceptions.py] besides
        those of Python: their exceptions are values of [usecase_exn], their
        results of [outcome].  What they log is left out. *)

From Stdlib Require Import Floats ZArith String Ascii List Bool Lia.
From Stdlib Require OrderedTypeEx DecimalString.
From stdpp Require Import gmap strings list fin_maps.
Import ListNotations.

#[local] Open Scope string_scope.
#[local] Open Scope list_scope.

(* ===================================================================== *)
(** * Python values, exceptions and results                               *)
(* ===================================================================== *)

(** The exceptions the modelled code can raise.  [ApiRequestError] is the
    repository's own (core/exceptions.py); the others are built-ins. *)
Inductive exn : Type :=
| ApiRequestError (reason : string)
| ZeroDivisionError
| TypeError (msg : string)
| ValueError (msg : string)
| AttributeError (msg : string)
| FileNotFoundError
| JSONDecodeError (msg : string)
| OverflowError (msg : string).

(** [str(e)]: ApiRequestError.__init__ prefixes the reason. *)
Definition exn_str (e : exn) : string :=
  match e with
  | ApiRequestError reason => "Ошибка при обращении к API: " +:+ reason
  | ZeroDivisionError => "float division by zero"
  | TypeError msg | ValueError msg | AttributeError msg => msg
  | FileNotFoundError => "No such file or directory"
  | JSONDecodeError msg | OverflowError msg => msg
  end.

Inductive result (A : Type) : Type :=
| Ok (a : A)
| Raise (e : exn).
Arguments Ok {A} a.
Arguments Raise {A} e.

Definition rbind {A B} (m : result A) (k : A -> result B) : result B :=
  match m with
  | Ok a => k a
  | Raise e => Raise e
  end.

Notation "'try!' x <- m ; k" := (rbind m (fun x => k))
  (at level 60, x name, m at next level, right associativity).

(** [for item in items: acc = body(acc, item)], where the body may raise. *)
Fixpoint for_each {A S : Type} (body : S -> A -> result S) (items : list A)
    (acc : S) : result S :=
  match items with
  | [] => Ok acc
  | item :: items' =>
      try! acc' <- body acc item;
      for_each body items' acc'
  end.

(** A parsed JSON value ([json.load], [resp.json()]).  A number is [JNum]
    of the value [float()] gives it, or [JBigInt]: an integer beyond the
    range of a float, for which [float()] raises [OverflowError]. *)
#[local] Set Warnings "-register-all".
Inductive json : Type :=
| JNull
| JBool (b : bool)
| JNum (f : float)
| JBigInt
| JStr (s : string)
| JArr (items : list json)
| JObj (fields : list (string * json)).

(* ===================================================================== *)
(** * Floats                                                              *)
(* ===================================================================== *)

(** [bool(x)] of a float: false exactly for [0.0] and [-0.0]. *)
Definition float_truthy (x : float) : bool := negb (PrimFloat.eqb x 0%float).

(** [x > 0] *)
Definition float_pos (x : float) : bool := PrimFloat.ltb 0%float x.

(** [a / b] on Python floats: a zero divisor raises. *)
Definition py_div (a b : float) : result float :=
  if PrimFloat.eqb b 0%float then Raise ZeroDivisionError
  else Ok (PrimFloat.div a b).

(* ===================================================================== *)
(** * Strings                                                             *)
(* ===================================================================== *)

(** [str.lower()] on ASCII letters. *)
Definition lower_ascii (c : ascii) : ascii :=
  let n := nat_of_ascii c in
  if (65 <=? n)%nat && (n <=? 90)%nat then ascii_of_nat (n + 32) else c.

Fixpoint py_lower (s : string) : string :=
  match s with
  | EmptyString => EmptyString
  | String c s' => String (lower_ascii c) (py_lower s')
  end.

(** The ASCII characters [str.strip()] removes. *)
Definition is_space (c : ascii) : bool :=
  let n := nat_of_ascii c in
  (n =? 32)%nat || ((9 <=? n)%nat && (n <=? 13)%nat)
  || ((28 <=? n)%nat && (n <=? 31)%nat).

Fixpoint lstrip (s : string) : string :=
  match s with
  | EmptyString => EmptyString
  | String c s' => if is_space c then lstrip s' else s
  end.

(** Drops trailing white space: a character is kept when something that is
    kept follows it, or when it is not white space itself. *)
Fixpoint rstrip (s : string) : string :=
  match s with
  | EmptyString => EmptyString
  | String c s' =>
      match rstrip s' with
      | EmptyString => if is_space c then EmptyString else String c EmptyString
      | r => String c r
      end
  end.

Definition py_strip (s : string) : string := rstrip (lstrip s).

(** The strings of ASCII characters. *)
Fixpoint is_ascii (s : string) : bool :=
  match s with
  | EmptyString => true
  | String c s' => (nat_of_ascii c <? 128)%nat && is_ascii s'
  end.

(** [len(s)]: the number of code points, which are the bytes of the UTF-8
    text that begin a character (all but the continuation bytes
    [10xxxxxx]). *)
Definition begins_char (c : ascii) : bool :=
  let n := nat_of_ascii c in (n <? 128)%nat || (192 <=? n)%nat.

Fixpoint py_len (s : string) : nat :=
  match s with
  | EmptyString => 0
  | String c s' => (if begins_char c then 1 else 0) + py_len s'
  end.

(** [s.split("_", 1)]: the text before the first underscore and the text
    after it, or [None] when [s] has no underscore (the list then has one
    element). *)
Fixpoint split_underscore (s : string) : option (string * string) :=
  match s with
  | EmptyString => None
  | String c s' =>
      if Ascii.eqb c "_"%char then Some (EmptyString, s')
      else match split_underscore s' with
           | Some (a, b) => Some (String c a, b)
           | None => None
           end
  end.

(** [s.replace("Z", "+00:00")] *)
Fixpoint replace_Z (s : string) : string :=
  match s with
  | EmptyString => EmptyString
  | String c s' =>
      if Ascii.eqb c "Z"%char then "+00:00" +:+ replace_Z s'
      else String c (replace_Z s')
  end.

(* ===================================================================== *)
(** * Dictionaries in insertion order                                     *)
(* ===================================================================== *)

Section Dict.
Context {V : Type}.

(** [d.get(k)] *)
Fixpoint dict_get (k : string) (d : list (string * V)) : option V :=
  match d with
  | [] => None
  | (k', v) :: d' => if String.eqb k k' then Some v else dict_get k d'
  end.

(** [d[k] = v]: an existing key keeps its place, a new one goes last. *)
Fixpoint dict_set (k : string) (v : V) (d : list (string * V))
  : list (string * V) :=
  match d with
  | [] => [(k, v)]
  | (k', v') :: d' =>
      if String.eqb k k' then (k, v) :: d' else (k', v') :: dict_set k v d'
  end.

Definition dict_keys (d : list (string * V)) : list string := map fst d.
End Dict.

(** [x.get(k, dflt)] on a parsed JSON value: only objects have [get].
    Python's [None] is [JNull]. *)
Definition json_get_default (k : string) (dflt : json) (x : json)
  : result json :=
  match x with
  | JObj fields =>
      Ok (match dict_get k fields with Some v => v | None => dflt end)
  | _ => Raise (AttributeError "object has no attribute 'get'")
  end.

(** [x.get(k)] *)
Definition json_get (k : string) (x : json) : result json :=
  json_get_default k JNull x.

Definition is_None (x : json) : bool :=
  match x with JNull => true | _ => false end.

(** [bool(x)] of a parsed JSON value. *)
Definition json_truthy (x : json) : bool :=
  match x with
  | JNull => false
  | JBool b => b
  | JNum f => float_truthy f
  | JBigInt => true
  | JStr s => negb (String.eqb s EmptyString)
  | JArr items => match items with [] => false | _ => true end
  | JObj fields => match fields with [] => false | _ => true end
  end.

(* ===================================================================== *)
(** * parser_service/config.py                                            *)
(* ===================================================================== *)

Record ParserConfig := {
  BASE_FIAT_CURRENCY : string;
  FIAT_CURRENCIES : list string;
  CRYPTO_ID_MAP : list (string * string);
}.

(** [ParserConfig()]: the base is pinned to USD, the fiat codes are
    [SUPPORTED_FIAT] of core/constants.py. *)
Definition default_config : ParserConfig := {|
  BASE_FIAT_CURRENCY := "USD";
  FIAT_CURRENCIES := ["EUR"; "GBP"; "RUB"];
  CRYPTO_ID_MAP := [("BTC", "bitcoin"); ("ETH", "ethereum"); ("SOL", "solana")];
|}.

(* ===================================================================== *)
(** * parser_service/api_clients.py                                       *)
(* ===================================================================== *)

(** The ["meta"] bag a provider attaches to a quote. *)
Record ProviderMeta := {
  raw_id : option string;
  status_code : Z;
}.

(** One quote of a batch: the dictionary
    [{"rate": .., "source": .., "updated_at": .., "meta": ..}].
    The merger reads every key with [.get], so each may be absent. *)
Record Quote := {
  q_rate : option float;
  q_source : option string;
  q_updated_at : option string;
  q_meta : option ProviderMeta;
}.

Abbreviation Batch := (list (string * Quote)).

(** What [requests.get(..)], [raise_for_status()] and [resp.json()] did. *)
Inductive HttpOutcome : Type :=
| HttpRequestException (msg : string) (* transport failure, time-out, non-2xx *)
| HttpBadJson (msg : string)          (* [resp.json()]: the body is not JSON *)
| HttpOtherException (msg : string)   (* anything else raised in the [try] *)
| HttpResponse (status : Z) (data : json).

Section Providers.
(** [float(s)] on a string: the number it denotes, if any. *)
Variable float_of_str : string -> option float.
(** [datetime.now(timezone.utc).strftime("%Y-%m-%dT%H:%M:%SZ")] at the
    n-th reading of the clock. *)
Variable strftime_now : nat -> string.

(** [float(x)] on a parsed JSON value. *)
Definition py_float (x : json) : result float :=
  match x with
  | JNum f => Ok f
  | JBigInt => Raise (OverflowError "int too large to convert to float")
  | JBool b => Ok (if b then 1%float else 0%float)
  | JStr s =>
      match float_of_str s with
      | Some f => Ok f
      | None => Raise (ValueError "could not convert string to float")
      end
  | JNull | JArr _ | JObj _ =>
      Raise (TypeError "float() argument must be a string or a real number")
  end.

(** [1.0 / r if r != 0 else 0.0] *)
Definition inverse_rate (r : float) : result float :=
  if negb (PrimFloat.eqb r 0%float) then py_div 1%float r else Ok 0%float.

Definition make_quote (rate : float) (source ts : string) (m : ProviderMeta)
  : Quote :=
  {| q_rate := Some rate; q_source := Some source;
     q_updated_at := Some ts; q_meta := Some m |}.

(** ** CoinGeckoClient.fetch_rates *)

(** The body of the loop over [CRYPTO_ID_MAP.items()]. *)
Definition coingecko_step (cfg : ParserConfig) (ts : string) (status : Z)
    (data : json) (res : Batch) (item : string * string) : result Batch :=
  let '(code, id) := item in
  let base_currency := BASE_FIAT_CURRENCY cfg in
  try! raw <- json_get_default id (JObj []) data;
  try! rate <- json_get (py_lower base_currency) raw;
  if is_None rate then Ok res
  else
    let m := {| raw_id := Some id; status_code := status |} in
    try! r <- py_float rate;
    let res := dict_set (code +:+ "_" +:+ base_currency)
                        (make_quote r "CoinGecko" ts m) res in
    try! inv_rate <- inverse_rate r;
    Ok (dict_set (base_currency +:+ "_" +:+ code)
                 (make_quote inv_rate "CoinGecko" ts m) res).

(** The clock is read once, after the request. *)
Definition coingecko_fetch_rates (cfg : ParserConfig) (http : HttpOutcome)
    (tick : nat) : result Batch :=
  match http with
  | HttpRequestException msg =>
      Raise (ApiRequestError ("Ошибка запроса CoinGecko: " +:+ msg))
  | HttpBadJson msg =>
      (* raised as ApiRequestError inside the [try], caught again by
         [except Exception] and wrapped a second time *)
      Raise (ApiRequestError
               ("Неожиданная ошибка CoinGecko: "
                +:+ exn_str (ApiRequestError
                              ("Некорректный JSON от CoinGecko: " +:+ msg))))
  | HttpOtherException msg =>
      Raise (ApiRequestError ("Неожиданная ошибка CoinGecko: " +:+ msg))
  | HttpResponse status data =>
      for_each (coingecko_step cfg (strftime_now tick) status data)
               (CRYPTO_ID_MAP cfg) []
  end.

(** ** ExchangeRateApiClient.fetch_rates *)

(** The body of the loop over [FIAT_CURRENCIES]. *)
Definition exchangerate_step (cfg : ParserConfig) (ts : string) (status : Z)
    (rates : json) (res : Batch) (code : string) : result Batch :=
  let base := BASE_FIAT_CURRENCY cfg in
  if String.eqb code base then Ok res
  else
    try! raw <- json_get code rates;
    match py_float raw with
    | Raise (TypeError _) | Raise (ValueError _) => Ok res
    | Raise e => Raise e
    | Ok rate_from_base =>
        let m := {| raw_id := None; status_code := status |} in
        let res := dict_set (base +:+ "_" +:+ code)
                            (make_quote rate_from_base "ExchangeRate-API" ts m)
                            res in
        try! inv_rate <- inverse_rate rate_from_base;
        Ok (dict_set (code +:+ "_" +:+ base)
                     (make_quote inv_rate "ExchangeRate-API" ts m) res)
    end.

(** The clock is read once, before the request. *)
Definition exchangerate_fetch_rates (cfg : ParserConfig) (http : HttpOutcome)
    (tick : nat) : result Batch :=
  match http with
  | HttpRequestException msg | HttpBadJson msg =>
      (* requests' JSONDecodeError is a RequestException *)
      Raise (ApiRequestError ("Ошибка запроса ExchangeRate API: " +:+ msg))
  | HttpOtherException msg =>
      Raise (ApiRequestError ("Неожиданная ошибка ExchangeRate API: " +:+ msg))
  | HttpResponse status data =>
      let ts := strftime_now tick in
      try! rates0 <- json_get "rates" data;
      try! rates <- (if json_truthy rates0 then Ok rates0
                     else json_get "conversion_rates" data);
      if negb (json_truthy rates)
      then Raise (ApiRequestError
        "Некорректный ответ ExchangeRate API — отсутствует 'rates'.")
      else for_each (exchangerate_step cfg ts status rates)
                    (FIAT_CURRENCIES cfg) []
  end.
End Providers.

(* ===================================================================== *)
(** * parser_service/storage.py                                           *)
(* ===================================================================== *)

(** One entry of the snapshot's [pairs]. *)
Record PairEntry := {
  rate : option float;
  updated_at : option string;
  source : option string;
}.

(** The snapshot document [{"pairs": {..}, "last_refresh": ..}].  A key that
    is absent, and [last_refresh] when it is [null], read as [None]. *)
Record Snapshot := {
  pairs : option (gmap string PairEntry);
  last_refresh : option string;
}.

(** One element of the history array. *)
Record HistoryRecord := {
  h_id : string;
  from_currency : string;
  to_currency : string;
  h_rate : option float;
  timestamp : string;
  h_source : option string;
  h_meta : option ProviderMeta;      (* [None] is the empty bag [{}] *)
}.

(** What is at a path: nothing, bytes that [json.load] rejects, or a
    document. *)
Inductive File (A : Type) : Type :=
| Missing
| Unparseable
| Stored (doc : A).
Arguments Missing {A}.
Arguments Unparseable {A}.
Arguments Stored {A} doc.

(** The files of the data directory and the number of clock readings made
    so far. *)
Record World := {
  snapshot_file : File Snapshot;
  history_file : File (list HistoryRecord);
  ticks : nat;
}.

(** [with open(path) as f: json.load(f)] *)
Definition open_and_load {A} (f : File A) : result A :=
  match f with
  | Missing => Raise FileNotFoundError
  | Unparseable => Raise (JSONDecodeError "Expecting value")
  | Stored doc => Ok doc
  end.

Definition empty_snapshot : Snapshot :=
  {| pairs := Some ∅; last_refresh := None |}.

(** [RatesSnapshotStorage.read_snapshot]: [except Exception] answers every
    failure with the empty snapshot. *)
Definition read_snapshot (w : World) : result Snapshot :=
  match open_and_load (snapshot_file w) with
  | Ok doc => Ok doc
  | Raise _ => Ok empty_snapshot
  end.

Section Storage.
Variable strftime_now : nat -> string.

(** [RatesSnapshotStorage.write_snapshot]: reads the clock, then replaces
    the file. *)
Definition write_snapshot (p : gmap string PairEntry) (w : World) : World :=
  {| snapshot_file :=
       Stored {| pairs := Some p;
                 last_refresh := Some (strftime_now (ticks w)) |};
     history_file := history_file w;
     ticks := S (ticks w) |}.

(** [ExchangeHistoryStorage.append_record]: a log that cannot be read
    starts again from [[]]. *)
Definition append_record (record : HistoryRecord) (w : World) : World :=
  let data := match open_and_load (history_file w) with
              | Ok data => data
              | Raise _ => []
              end in
  {| snapshot_file := snapshot_file w;
     history_file := Stored (data ++ [record]);
     ticks := ticks w |}.

(** The two storage constructors: a file that does not exist is created
    with its empty document. *)
Definition init_storage (w : World) : World :=
  {| snapshot_file := match snapshot_file w with
                      | Missing => Stored {| pairs := Some ∅;
                                             last_refresh := None |}
                      | f => f
                      end;
     history_file := match history_file w with
                     | Missing => Stored []
                     | f => f
                     end;
     ticks := ticks w |}.
End Storage.

(* ===================================================================== *)
(** * parser_service/updater.py                                           *)
(* ===================================================================== *)

(** A client of [RatesUpdater.clients], with what its request will meet.
    [CustomClient] is any other subclass of [BaseApiClient]; its
    [fetch_rates] is given by its outcome. *)
Inductive ApiClient : Type :=
| CoinGeckoClient (http : HttpOutcome)
| ExchangeRateApiClient (http : HttpOutcome)
| CustomClient (outcome : result Batch).

Record RatesUpdater := {
  cfg : ParserConfig;
  clients : list ApiClient;
}.

(** What [run_update] returns ([_build_result]). *)
Record RefreshResult := {
  total : nat;
  fetched : nat;
  errors : list string;
  r_last_refresh : string;
}.

Definition tick (w : World) : World :=
  {| snapshot_file := snapshot_file w;
     history_file := history_file w;
     ticks := S (ticks w) |}.

(** [RatesUpdater._update_combined_pairs]: the quote replaces the entry of
    its key when there is none or when the entry's [updated_at] is strictly
    smaller than the quote's. *)
Definition _update_combined_pairs (combined_pairs : gmap string PairEntry)
    (pair_key : string) (meta : Quote) : gmap string PairEntry :=
  let existing := combined_pairs !! pair_key in
  let new_updated_at := default EmptyString (q_updated_at meta) in
  let replace :=
    match existing with
    | None => true
    | Some e => String.ltb (default EmptyString (updated_at e)) new_updated_at
    end in
  if replace
  then <[pair_key := {| rate := q_rate meta;
                        updated_at := Some new_updated_at;
                        source := q_source meta |}]> combined_pairs
  else combined_pairs.

Section Updater.
Variable float_of_str : string -> option float.
(** [datetime.now(timezone.utc).strftime("%Y-%m-%dT%H:%M:%SZ")] and
    [datetime.now(timezone.utc).isoformat().replace("+00:00", "Z")] at the
    n-th reading of the clock. *)
Variable strftime_now : nat -> string.
Variable isoformat_now : nat -> string.

(** [client.fetch_rates()].  CoinGecko reads the clock after a request
    that succeeded, ExchangeRate before the request. *)
Definition fetch_rates (c : ParserConfig) (client : ApiClient) (w : World)
  : result Batch * World :=
  match client with
  | CoinGeckoClient http =>
      (coingecko_fetch_rates float_of_str strftime_now c http (ticks w),
       match http with HttpResponse _ _ => tick w | _ => w end)
  | ExchangeRateApiClient http =>
      (exchangerate_fetch_rates float_of_str strftime_now c http (ticks w),
       tick w)
  | CustomClient outcome => (outcome, w)
  end.

(** [RatesUpdater._get_timestamp]: the default of [meta.get] is evaluated
    first, so the clock is read in either case. *)
Definition _get_timestamp (meta : Quote) (w : World) : string * World :=
  (default (strftime_now (ticks w)) (q_updated_at meta), tick w).

(** [RatesUpdater._process_client_data].  [combined_pairs] is mutated in
    place, so it is returned also when the loop raises. *)
Fixpoint _process_client_data (batch : Batch)
    (combined_pairs : gmap string PairEntry) (w : World)
  : result unit * gmap string PairEntry * World :=
  match batch with
  | [] => (Ok tt, combined_pairs, w)
  | (pair_key, meta) :: rest =>
      match split_underscore pair_key with
      | None =>
          (Raise (ValueError "not enough values to unpack (expected 2, got 1)"),
           combined_pairs, w)
      | Some (from_code, to_code) =>
          let '(ts, w1) := _get_timestamp meta w in
          let record :=
            {| h_id := from_code +:+ "_" +:+ to_code +:+ "_" +:+ ts;
               from_currency := from_code;
               to_currency := to_code;
               h_rate := q_rate meta;
               timestamp := ts;
               h_source := q_source meta;
               h_meta := q_meta meta |} in
          let w2 := append_record record w1 in
          _process_client_data rest
            (_update_combined_pairs combined_pairs pair_key meta) w2
      end
  end.

Definition _get_exchangerate_aliases : list string :=
  ["exchangerate"; "exchange_rate"; "exchange-rate"; "exchangerate-api"].

Definition string_in (s : string) (l : list string) : bool :=
  existsb (String.eqb s) l.

(** [RatesUpdater._select_clients_by_source] *)
Definition _select_clients_by_source (u : RatesUpdater)
    (src : option string) : list ApiClient :=
  match src with
  | None => clients u
  | Some src =>
      if String.eqb src EmptyString then clients u
      else
        let source_lower := py_lower (py_strip src) in
        List.filter (fun client =>
                  match client with
                  | CoinGeckoClient _ => String.eqb source_lower "coingecko"
                  | ExchangeRateApiClient _ =>
                      string_in source_lower _get_exchangerate_aliases
                  | CustomClient _ => false
                  end)
               (clients u)
  end.

(** The loop of [run_update] over the selected clients. *)
Fixpoint run_clients (c : ParserConfig) (target_clients : list ApiClient)
    (combined_pairs : gmap string PairEntry) (errs : list string)
    (total_fetched : nat) (w : World)
  : result (gmap string PairEntry * list string * nat) * World :=
  match target_clients with
  | [] => (Ok (combined_pairs, errs, total_fetched), w)
  | client :: rest =>
      let '(fetched_pairs, w1) := fetch_rates c client w in
      match fetched_pairs with
      | Ok batch =>
          let total_fetched := total_fetched + length batch in
          match _process_client_data batch combined_pairs w1 with
          | (Ok _, combined_pairs, w2) =>
              run_clients c rest combined_pairs errs total_fetched w2
          | (Raise (ApiRequestError reason), combined_pairs, w2) =>
              run_clients c rest combined_pairs
                (errs ++ [exn_str (ApiRequestError reason)]) total_fetched w2
          | (Raise e, _, w2) => (Raise e, w2)
          end
      | Raise (ApiRequestError reason) =>
          run_clients c rest combined_pairs
            (errs ++ [exn_str (ApiRequestError reason)]) total_fetched w1
      | Raise e => (Raise e, w1)
      end
  end.

(** [RatesUpdater._build_result] *)
Definition _build_result (combined_pairs : gmap string PairEntry)
    (total_fetched : nat) (errs : list string) (w : World)
  : RefreshResult * World :=
  ({| total := size combined_pairs;
      fetched := total_fetched;
      errors := errs;
      r_last_refresh := isoformat_now (ticks w) |}, tick w).

(** [RatesUpdater.run_update], from the statement after the snapshot was
    read: select the clients, run them over a copy of the existing pairs,
    write the snapshot when the combined mapping is not empty, build the
    result. *)
Definition run_update_from (u : RatesUpdater) (src : option string)
    (existing_pairs : gmap string PairEntry) (w : World)
  : result RefreshResult * World :=
  let target_clients := _select_clients_by_source u src in
  match run_clients (cfg u) target_clients existing_pairs [] 0 w with
  | (Raise e, w1) => (Raise e, w1)
  | (Ok (combined_pairs, errs, total_fetched), w1) =>
      let w2 := match size combined_pairs with
                | O => w1
                | S _ => write_snapshot strftime_now combined_pairs w1
                end in
      let '(res, w3) :=
        _build_result combined_pairs total_fetched errs w2 in
      (Ok res, w3)
  end.

(** [RatesUpdater.run_update] *)
Definition run_update (u : RatesUpdater) (src : option string) (w : World)
  : result RefreshResult * World :=
  match read_snapshot w with
  | Raise e => (Raise e, w)
  | Ok existing_snapshot =>
      run_update_from u src (default ∅ (pairs existing_snapshot)) w
  end.
End Updater.

(* ===================================================================== *)
(** * core/utils.py and core/usecases.py                                  *)
(* ===================================================================== *)

(** [load_json] on the rates file: a missing file, or one whose text
    [json.load] rejects with [JSONDecodeError], reads as the empty object
    [{}].  [load_json] catches that exception only: for it [Unparseable]
    is text that is no JSON document. *)
Definition load_json (f : File Snapshot) : Snapshot :=
  match f with
  | Stored doc => doc
  | Missing | Unparseable => {| pairs := None; last_refresh := None |}
  end.

(** The test both the direct and the reverse look-up make:
    [key in exchange_pairs], then [rate and rate > 0] on the entry's rate. *)
Definition usable_rate (exchange_pairs : gmap string PairEntry)
    (key : string) : option float :=
  match exchange_pairs !! key with
  | Some rate_data =>
      match rate rate_data with
      | Some r => if float_truthy r && float_pos r then Some r else None
      | None => None
      end
  | None => None
  end.

(** [x and x > 0] on an [Optional[float]] *)
Definition truthy_pos (x : option float) : bool :=
  match x with
  | Some r => float_truthy r && float_pos r
  | None => false
  end.

(** [_get_conversion_rate].  The function calls itself, so the model takes
    the number of nested calls it may make; the outer [None] says that this
    number was not enough.  The rates file is read again by every call. *)
Fixpoint _get_conversion_rate (fuel : nat) (rates_file : File Snapshot)
    (from_currency to_currency : string) : option (option float) :=
  match fuel with
  | O => None
  | S fuel' =>
      if String.eqb from_currency to_currency then Some (Some 1%float)
      else
        let rates := load_json rates_file in
        let exchange_pairs := default ∅ (pairs rates) in
        let direct_key := from_currency +:+ "_" +:+ to_currency in
        match usable_rate exchange_pairs direct_key with
        | Some r => Some (Some r)
        | None =>
            let reverse_key := to_currency +:+ "_" +:+ from_currency in
            match usable_rate exchange_pairs reverse_key with
            | Some reverse_rate => Some (Some (PrimFloat.div 1 reverse_rate))
            | None =>
                if negb (String.eqb from_currency "USD")
                   && negb (String.eqb to_currency "USD")
                then
                  match _get_conversion_rate fuel' rates_file
                                             from_currency "USD" with
                  | None => None
                  | Some usd_to_from =>
                      match _get_conversion_rate fuel' rates_file
                                                 "USD" to_currency with
                      | None => None
                      | Some usd_to_to =>
                          if truthy_pos usd_to_from && truthy_pos usd_to_to
                          then
                            match usd_to_from, usd_to_to with
                            | Some a, Some b => Some (Some (PrimFloat.mul a b))
                            | _, _ => Some None
                            end
                          else Some None
                      end
                  end
                else Some None
            end
        end
  end.

(** A [datetime]: microseconds since the epoch, and whether it carries a
    time zone. *)
Record datetime := {
  instant : Z;
  aware : bool;
}.

(** [a - b] on datetimes, in microseconds. *)
Definition datetime_sub (a b : datetime) : result Z :=
  if Bool.eqb (aware a) (aware b) then Ok (instant a - instant b)%Z
  else Raise (TypeError "can't subtract offset-naive and offset-aware datetimes").

(** The seconds a [timedelta] can hold: up to 999999999 days either way. *)
Definition timedelta_min_seconds : Z := (-999999999 * 86400)%Z.
Definition timedelta_max_seconds : Z := (999999999 * 86400 + 86399)%Z.

(** [SettingsLoader.get_ttl]: [timedelta(seconds=rates_ttl)] for the integer
    the settings hold, in microseconds. *)
Definition get_ttl (rates_ttl : Z) : result Z :=
  if ((timedelta_min_seconds <=? rates_ttl)
      && (rates_ttl <=? timedelta_max_seconds))%Z
  then Ok (rates_ttl * 1000000)%Z
  else Raise (OverflowError "days; must have magnitude <= 999999999").

Definition nl : string := String (ascii_of_nat 10) EmptyString.

Definition no_timestamp_message : string :=
  "Данные курсов не имеют временной метки.".

Section Freshness.
(** [datetime.fromisoformat]: the datetime, or the message of the
    [ValueError] it raises. *)
Variable fromisoformat : string -> string + datetime.
(** [f"{ttl.total_seconds() / 60:.1f}"] of a [timedelta] of so many
    microseconds. *)
Variable format_minutes : Z -> string.

Definition stale_message (lr : string) (ttl : Z) : string :=
  "⚠️ Данные курсов устарели (последнее обновление: " +:+ lr +:+ ")." +:+ nl
  +:+ "⚠️ TTL: " +:+ format_minutes ttl +:+ " минут." +:+ nl
  +:+ "⚠️ Выполните 'update-rates' для обновления данных.".

Definition check_error_message (e : string) : string :=
  "⚠️ Ошибка проверки свежести данных: " +:+ e.

(** [_check_data_freshness], given the instant [datetime.now()] reads and
    the [rates_ttl] of the settings. *)
Definition _check_data_freshness (rates_data : Snapshot) (now rates_ttl : Z)
  : result (option string) :=
  match last_refresh rates_data with
  | None => Ok (Some no_timestamp_message)
  | Some lr =>
      if String.eqb lr EmptyString then Ok (Some no_timestamp_message)
      else
        let body : result (option string) :=
          try! last_update <-
            match fromisoformat (replace_Z lr) with
            | inr d => Ok d
            | inl msg => Raise (ValueError msg)
            end;
          let now_dt := {| instant := now; aware := true |} in
          try! ttl <- get_ttl rates_ttl;
          try! age <- datetime_sub now_dt last_update;
          if (ttl <? age)%Z then Ok (Some (stale_message lr ttl))
          else Ok None in
        match body with
        | Raise (ValueError e) | Raise (TypeError e) =>
            Ok (Some (check_error_message e))
        | r => r
        end
  end.
End Freshness.

(** [str(n)] of a non-negative [int]. *)
Definition str_of_nat (n : nat) : string :=
  DecimalString.NilZero.string_of_uint (Nat.to_uint n).

(** The name [update_rates] prints for its source: it knows the two exact
    spellings only. *)
Definition source_name (source : option string) : string :=
  match source with
  | Some s =>
      if String.eqb s "coingecko" then "CoinGecko"
      else if String.eqb s "exchangerate" then "ExchangeRate API"
      else "все источники"
  | None => "все источники"
  end.

(** The two messages of [update_rates]. *)
Definition updated_message (source : option string) (fetched : nat)
    (formatted_time : string) : string :=
  "✅ Курсы успешно обновлены с " +:+ source_name source +:+ "!" +:+ nl
  +:+ " Обновлено пар: " +:+ str_of_nat fetched +:+ nl
  +:+ " Время: " +:+ formatted_time.

Definition updated_with_errors_message (source : option string)
    (fetched n_errors : nat) (formatted_time : string) : string :=
  "⚠️ Обновление с " +:+ source_name source +:+ " завершено с ошибками." +:+ nl
  +:+ "✅ Успешно обновлено: " +:+ str_of_nat fetched +:+ " пар" +:+ nl
  +:+ "❌ Ошибок: " +:+ str_of_nat n_errors +:+ nl
  +:+ " Время: " +:+ formatted_time.

Section UpdateRates.
Variable float_of_str : string -> option float.
Variable strftime_now : nat -> string.
Variable isoformat_now : nat -> string.

(** The updater [RatesUpdater(cfg=ParserConfig())] builds: the two shipped
    clients, CoinGecko first, each with what its request will meet. *)
Definition default_updater (coingecko exchangerate : HttpOutcome)
  : RatesUpdater :=
  {| cfg := default_config;
     clients := [CoinGeckoClient coingecko;
                 ExchangeRateApiClient exchangerate] |}.

(** [update_rates]: the constructor of the updater creates the two files
    when they are missing; whatever [run_update] raises is raised again as
    an [ApiRequestError]. *)
Definition update_rates (coingecko exchangerate : HttpOutcome)
    (source : option string) (w : World) : result string * World :=
  let updater := default_updater coingecko exchangerate in
  match run_update float_of_str strftime_now isoformat_now updater source
                   (init_storage w) with
  | (Raise e, w1) => (Raise (ApiRequestError (exn_str e)), w1)
  | (Ok res, w1) =>
      let raw_time := r_last_refresh res in
      let formatted_time :=
        if String.eqb raw_time EmptyString then "неизвестно" else raw_time in
      (Ok (match errors res with
           | [] => updated_message source (fetched res) formatted_time
           | _ :: _ =>
               updated_with_errors_message source (fetched res)
                 (length (errors res)) formatted_time
           end), w1)
  end.
End UpdateRates.

(* ===================================================================== *)
(** * core/models.py                                                      *)
(* ===================================================================== *)

(** [str.upper()] and [str.isalpha()] on ASCII strings. *)
Definition upper_ascii (c : ascii) : ascii :=
  let n := nat_of_ascii c in
  if (97 <=? n)%nat && (n <=? 122)%nat then ascii_of_nat (n - 32) else c.

Fixpoint py_upper (s : string) : string :=
  match s with
  | EmptyString => EmptyString
  | String c s' => String (upper_ascii c) (py_upper s')
  end.

Definition is_alpha (c : ascii) : bool :=
  let n := nat_of_ascii c in
  ((65 <=? n)%nat && (n <=? 90)%nat) || ((97 <=? n)%nat && (n <=? 122)%nat).

Fixpoint all_alpha (s : string) : bool :=
  match s with
  | EmptyString => true
  | String c s' => is_alpha c && all_alpha s'
  end.

(** The empty string is not alphabetic. *)
Definition py_isalpha (s : string) : bool :=
  negb (String.eqb s EmptyString) && all_alpha s.

(** [x != 0] on a float. *)
Definition float_nonzero (x : float) : bool := negb (PrimFloat.eqb x 0%float).

Record Wallet := {
  currency_code : string;
  balance : float;
}.

(** [Wallet.__init__] *)
Definition Wallet_init (code : string) (initial : float) : result Wallet :=
  if negb (py_isalpha code) then Raise (ValueError "Некорректный код валюты.")
  else Ok {| currency_code := py_upper code; balance := initial |}.

(** [Wallet.deposit] *)
Definition Wallet_deposit (amount : float) (wallet : Wallet) : result Wallet :=
  if PrimFloat.leb amount 0%float
  then Raise (ValueError "Сумма должна быть > 0.")
  else Ok {| currency_code := currency_code wallet;
             balance := PrimFloat.add (balance wallet) amount |}.

(** [Wallet.withdraw] *)
Definition Wallet_withdraw (amount : float) (wallet : Wallet)
  : result Wallet :=
  if PrimFloat.leb amount 0%float
  then Raise (ValueError "Сумма должна быть > 0.")
  else if PrimFloat.ltb (balance wallet) amount
  then Raise (ValueError "Недостаточно средств.")
  else Ok {| currency_code := currency_code wallet;
             balance := PrimFloat.sub (balance wallet) amount |}.

(** A [Portfolio]: [_wallets] is a dictionary in insertion order. *)
Record Portfolio := {
  user_id : Z;
  base_currency : string;
  wallets : list (string * Wallet);
}.

(** [Portfolio.add_currency]: a wallet that is there is left alone. *)
Definition add_currency (code : string) (p : Portfolio) : result Portfolio :=
  let code := py_upper code in
  match dict_get code (wallets p) with
  | Some _ => Ok p
  | None =>
      try! wallet <- Wallet_init code 0%float;
      Ok {| user_id := user_id p;
            base_currency := base_currency p;
            wallets := dict_set code wallet (wallets p) |}
  end.

(** [Portfolio.__init__]: the wallet of the base currency is created with
    the portfolio. *)
Definition Portfolio_init (uid : Z) (base : string) : result Portfolio :=
  add_currency (py_upper base)
    {| user_id := uid; base_currency := py_upper base; wallets := [] |}.

(** [Portfolio.get_wallet] *)
Definition get_wallet (code : string) (p : Portfolio) : result Wallet :=
  let code := py_upper code in
  match dict_get code (wallets p) with
  | None => Raise (ValueError ("Кошелёк " +:+ code +:+ " не найден."))
  | Some wallet => Ok wallet
  end.

(** [Portfolio.get_base_wallet] *)
Definition get_base_wallet (p : Portfolio) : result Wallet :=
  get_wallet (base_currency p) p.

(** [Portfolio.get_total_value]: a wallet is valued by the direct rate to
    the base currency, else by the reverse rate, else not at all. *)
Definition get_total_value (p : Portfolio) (rates_data : Snapshot)
    (base : string) : float :=
  let base := py_upper base in
  let exchange_pairs := default ∅ (pairs rates_data) in
  fold_left
    (fun total_value item =>
       let '(code, wallet) := item in
       if String.eqb code base
       then PrimFloat.add total_value (balance wallet)
       else
         match usable_rate exchange_pairs (code +:+ "_" +:+ base) with
         | Some r =>
             PrimFloat.add total_value (PrimFloat.mul (balance wallet) r)
         | None =>
             match usable_rate exchange_pairs (base +:+ "_" +:+ code) with
             | Some reverse_rate =>
                 PrimFloat.add total_value
                   (PrimFloat.div (balance wallet) reverse_rate)
             | None => total_value
             end
         end)
    (wallets p) 0%float.

(** The dictionary [to_dict] builds and [from_dict] reads: one element of
    the portfolios file.  A key that is absent reads as [None]. *)
Record WalletData := {
  wd_currency_code : string;
  wd_balance : float;
}.

Record PortfolioData := {
  pd_user_id : Z;
  pd_base_currency : option string;
  pd_wallets : option (list (string * WalletData));
}.

(** [Portfolio.to_dict]: wallets with a balance of zero are left out. *)
Definition to_dict (p : Portfolio) : PortfolioData :=
  {| pd_user_id := user_id p;
     pd_base_currency := Some (base_currency p);
     pd_wallets :=
       Some (map (fun item =>
                    (fst item,
                     {| wd_currency_code := currency_code (snd item);
                        wd_balance := balance (snd item) |}))
                 (List.filter (fun item => float_nonzero (balance (snd item)))
                              (wallets p))) |}.

(** The body of the loop of [from_dict] over the values of [wallets]: the
    wallet is stored under its own code, not under the key of the data. *)
Definition from_dict_step (p : Portfolio) (wallet_data : WalletData)
  : result Portfolio :=
  try! wallet <- Wallet_init (wd_currency_code wallet_data)
                             (wd_balance wallet_data);
  Ok {| user_id := user_id p;
        base_currency := base_currency p;
        wallets := dict_set (currency_code wallet) wallet (wallets p) |}.

(** [Portfolio.from_dict] *)
Definition from_dict (data : PortfolioData) : result Portfolio :=
  try! portfolio <- Portfolio_init (pd_user_id data)
                      (default "USD" (pd_base_currency data));
  for_each from_dict_step (map snd (default [] (pd_wallets data))) portfolio.

(* ===================================================================== *)
(** * core/currencies.py and the trading use cases of core/usecases.py    *)
(* ===================================================================== *)

(** The exceptions of the use cases: those of Python, and the two of
    [core/exceptions.py] that are raised here. *)
Inductive usecase_exn : Type :=
| Builtin (e : exn)
| InsufficientFundsError (available required : float) (code : string)
| CurrencyNotFoundError (code : string).

Inductive outcome (A : Type) : Type :=
| Returns (a : A)
| Raises (e : usecase_exn).
Arguments Returns {A} a.
Arguments Raises {A} e.

(** The codes of [CURRENCY_REGISTRY]. *)
Definition CURRENCY_REGISTRY : list string :=
  ["USD"; "EUR"; "RUB"; "BTC"; "ETH"; "SOL"].

(** [get_currency]: the entry of the registry, by its code. *)
Definition get_currency (code : string) : outcome string :=
  let code := py_upper code in
  if string_in code CURRENCY_REGISTRY then Returns code
  else Raises (CurrencyNotFoundError code).

(** [_validate_currency_code]: the error names the code as it was given. *)
Definition _validate_currency_code (code : string) : outcome unit :=
  match get_currency code with
  | Returns _ => Returns tt
  | Raises (CurrencyNotFoundError _) => Raises (CurrencyNotFoundError code)
  | Raises e => Raises e
  end.

(** The user who is logged in, as far as the use cases read it. *)
Record User := {
  u_user_id : Z;
  u_username : string;
}.

(** What the trading use cases work on: the user logged in, the portfolios
    file and the rates file. *)
Record Session := {
  current_user : option User;
  portfolios_file : File (list PortfolioData);
  rates_file : File Snapshot;
}.

Definition with_portfolios (f : File (list PortfolioData)) (s : Session)
  : Session :=
  {| current_user := current_user s;
     portfolios_file := f;
     rates_file := rates_file s |}.

(** [load_json] on the portfolios file: a missing file, or one whose text
    is no JSON document, reads as the empty list. *)
Definition load_portfolios (f : File (list PortfolioData))
  : list PortfolioData :=
  match f with
  | Stored data => data
  | Missing | Unparseable => []
  end.

(** [_save_user_portfolio]: the entries of the user are dropped and the
    portfolio is appended. *)
Definition _save_user_portfolio (portfolio : Portfolio)
    (f : File (list PortfolioData)) : File (list PortfolioData) :=
  Stored (List.filter (fun d => negb (pd_user_id d =? user_id portfolio)%Z)
                      (load_portfolios f)
          ++ [to_dict portfolio]).

(** [_validate_user_logged_in] *)
Definition _validate_user_logged_in (s : Session) : result User :=
  match current_user s with
  | Some user => Ok user
  | None => Raise (ValueError "Сначала выполните login.")
  end.

(** [_validate_positive_amount] *)
Definition _validate_positive_amount (amount : float) : result unit :=
  if PrimFloat.leb amount 0%float
  then Raise (ValueError "'amount' должен быть положительным числом.")
  else Ok tt.

(** [not rate or rate <= 0] on what [_get_conversion_rate] returns. *)
Definition rate_unavailable (r : option float) : bool :=
  match r with
  | None => true
  | Some r => negb (float_truthy r) || PrimFloat.leb r 0%float
  end.

(** [_get_conversion_rate] as the use cases call it: two nested calls are
    all it ever makes. *)
Definition conversion_rate (rates : File Snapshot) (from_code to_code : string)
  : option float :=
  match _get_conversion_rate 2 rates from_code to_code with
  | Some r => r
  | None => None
  end.

(** The wallet stored under a code after one of its methods has changed
    it in place. *)
Definition store_wallet (code : string) (wallet : Wallet) (p : Portfolio)
  : Portfolio :=
  {| user_id := user_id p;
     base_currency := base_currency p;
     wallets := dict_set code wallet (wallets p) |}.

Inductive Action : Type := Buy | Sell.

Section Usecases.
(** [settings.get_base_currency()] *)
Variable settings_base_currency : string.
(** [f"{x:.4f}"] and [f"{x:.6f}"] *)
Variables fmt4 fmt6 : float -> string.

(** [_load_user_portfolio]: a user without an entry gets a new portfolio,
    which is saved at once. *)
Definition _load_user_portfolio (uid : Z) (f : File (list PortfolioData))
  : result Portfolio * File (list PortfolioData) :=
  match List.find (fun d => (pd_user_id d =? uid)%Z) (load_portfolios f) with
  | None =>
      match Portfolio_init uid settings_base_currency with
      | Ok portfolio => (Ok portfolio, _save_user_portfolio portfolio f)
      | Raise e => (Raise e, f)
      end
  | Some portfolio_data => (from_dict portfolio_data, f)
  end.

(** [_format_operation_result] *)
Definition _format_operation_result (action : Action) (currency : string)
    (amount converted_amount r old_balance new_balance : float)
    (base : string) (old_base_balance new_base_balance : float) : string :=
  let action_verb := match action with Buy => "Покупка" | Sell => "Продажа" end in
  let amount_type := match action with Buy => "Стоимость" | Sell => "Выручка" end in
  let rate_pair := match action with
                   | Buy => base +:+ "/" +:+ currency
                   | Sell => currency +:+ "/" +:+ base
                   end in
  "✅ " +:+ action_verb +:+ " выполнена: " +:+ fmt4 amount +:+ " " +:+ currency
  +:+ nl
  +:+ " " +:+ amount_type +:+ ": " +:+ fmt4 converted_amount +:+ " " +:+ base
  +:+ " (курс: " +:+ fmt6 r +:+ " " +:+ rate_pair +:+ ")" +:+ nl
  +:+ " Изменения в портфеле:" +:+ nl
  +:+ "- " +:+ base +:+ ": было " +:+ fmt4 old_base_balance +:+ " → стало "
  +:+ fmt4 new_base_balance +:+ nl
  +:+ "- " +:+ currency +:+ ": было " +:+ fmt4 old_balance +:+ " → стало "
  +:+ fmt4 new_balance.

(** [_get_rates_unavailable_message] *)
Definition _get_rates_unavailable_message (base code : string) : string :=
  "❌ Курс " +:+ base +:+ "→" +:+ code
  +:+ " недоступен. Выполните 'update-rates'.".

(** The statements of the three use cases before the portfolio is loaded:
    the user, the amount and, for [buy] and [sell], the code. *)
Definition validate_trade (currency : option string) (amount : float)
    (s : Session) : outcome User :=
  match _validate_user_logged_in s with
  | Raise e => Raises (Builtin e)
  | Ok user =>
      match _validate_positive_amount amount with
      | Raise e => Raises (Builtin e)
      | Ok _ =>
          match currency with
          | None => Returns user
          | Some currency =>
              match _validate_currency_code (py_upper currency) with
              | Raises e => Raises e
              | Returns _ => Returns user
              end
          end
      end
  end.

(** [buy] from the portfolio that was loaded: the message, and the
    portfolio to save when the purchase went through. *)
Definition buy_loaded (code : string) (amount : float) (portfolio : Portfolio)
    (rates : File Snapshot) : outcome (string * option Portfolio) :=
  let base := base_currency portfolio in
  if String.eqb code base
  then Returns ("❌ Нельзя покупать базовую валюту (" +:+ base +:+ ").", None)
  else
    match conversion_rate rates base code with
    | None => Returns (_get_rates_unavailable_message base code, None)
    | Some r =>
        if rate_unavailable (Some r)
        then Returns (_get_rates_unavailable_message base code, None)
        else
          let cost_in_base := PrimFloat.div amount r in
          match get_base_wallet portfolio with
          | Raise e => Raises (Builtin e)
          | Ok base_wallet =>
              if PrimFloat.ltb (balance base_wallet) cost_in_base
              then Raises (InsufficientFundsError (balance base_wallet)
                                                  cost_in_base base)
              else
                let old_base_balance := balance base_wallet in
                match Wallet_withdraw cost_in_base base_wallet with
                | Raise e => Raises (Builtin e)
                | Ok base_wallet' =>
                    let portfolio :=
                      store_wallet (py_upper base) base_wallet' portfolio in
                    match (match dict_get code (wallets portfolio) with
                           | None => add_currency code portfolio
                           | Some _ => Ok portfolio
                           end) with
                    | Raise e => Raises (Builtin e)
                    | Ok portfolio =>
                        match get_wallet code portfolio with
                        | Raise e => Raises (Builtin e)
                        | Ok target_wallet =>
                            let old_target_balance := balance target_wallet in
                            match Wallet_deposit amount target_wallet with
                            | Raise e => Raises (Builtin e)
                            | Ok target_wallet' =>
                                let portfolio :=
                                  store_wallet (py_upper code) target_wallet'
                                               portfolio in
                                Returns
                                  (_format_operation_result Buy code amount
                                     cost_in_base r old_target_balance
                                     (balance target_wallet') base
                                     old_base_balance (balance base_wallet'),
                                   Some portfolio)
                            end
                        end
                    end
                end
          end
    end.

(** [sell] from the portfolio that was loaded. *)
Definition sell_loaded (code : string) (amount : float) (portfolio : Portfolio)
    (rates : File Snapshot) : outcome (string * option Portfolio) :=
  let base := base_currency portfolio in
  if String.eqb code base
  then Returns ("❌ Продажа базовой валюты (" +:+ base +:+ ") запрещена.", None)
  else
    match dict_get code (wallets portfolio) with
    | None =>
        Returns ("❌ У вас нет валюты '" +:+ code +:+ "' для продажи.", None)
    | Some _ =>
        match get_wallet code portfolio with
        | Raise e => Raises (Builtin e)
        | Ok target_wallet =>
            if PrimFloat.ltb (balance target_wallet) amount
            then Raises (InsufficientFundsError (balance target_wallet)
                                                amount code)
            else
              match conversion_rate rates code base with
              | None => Returns (_get_rates_unavailable_message code base, None)
              | Some r =>
                  if rate_unavailable (Some r)
                  then Returns (_get_rates_unavailable_message code base, None)
                  else
                    let revenue_in_base := PrimFloat.mul amount r in
                    let old_target_balance := balance target_wallet in
                    match Wallet_withdraw amount target_wallet with
                    | Raise e => Raises (Builtin e)
                    | Ok target_wallet' =>
                        let portfolio :=
                          store_wallet (py_upper code) target_wallet'
                                       portfolio in
                        match get_base_wallet portfolio with
                        | Raise e => Raises (Builtin e)
                        | Ok base_wallet =>
                            let old_base_balance := balance base_wallet in
                            match Wallet_deposit revenue_in_base
                                                 base_wallet with
                            | Raise e => Raises (Builtin e)
                            | Ok base_wallet' =>
                                let portfolio :=
                                  store_wallet (py_upper base) base_wallet'
                                               portfolio in
                                Returns
                                  (_format_operation_result Sell code amount
                                     revenue_in_base r old_target_balance
                                     (balance target_wallet') base
                                     old_base_balance (balance base_wallet'),
                                   Some portfolio)
                            end
                        end
                    end
              end
        end
    end.

(** [deposit] from the portfolio that was loaded. *)
Definition deposit_loaded (amount : float) (portfolio : Portfolio)
  : outcome (string * option Portfolio) :=
  let base := base_currency portfolio in
  match get_base_wallet portfolio with
  | Raise e => Raises (Builtin e)
  | Ok base_wallet =>
      let old_balance := balance base_wallet in
      match Wallet_deposit amount base_wallet with
      | Raise e => Raises (Builtin e)
      | Ok base_wallet' =>
          Returns
            ("✅ Базовая валюта пополнена: +" +:+ fmt4 amount +:+ " " +:+ base
             +:+ nl
             +:+ " Баланс " +:+ base +:+ ": было " +:+ fmt4 old_balance
             +:+ " → стало " +:+ fmt4 (balance base_wallet'),
             Some (store_wallet (py_upper base) base_wallet' portfolio))
      end
  end.

(** A use case from its validation to the saving of the portfolio: the
    portfolio is loaded, which creates it when the user has none, and it
    is saved when the operation went through. *)
Definition run_trade (currency : option string) (amount : float)
    (loaded : Portfolio -> outcome (string * option Portfolio))
    (s : Session) : outcome string * Session :=
  match validate_trade currency amount s with
  | Raises e => (Raises e, s)
  | Returns user =>
      match _load_user_portfolio (u_user_id user) (portfolios_file s) with
      | (Raise e, f) => (Raises (Builtin e), with_portfolios f s)
      | (Ok portfolio, f) =>
          match loaded portfolio with
          | Raises e => (Raises e, with_portfolios f s)
          | Returns (message, None) => (Returns message, with_portfolios f s)
          | Returns (message, Some portfolio) =>
              (Returns message,
               with_portfolios (_save_user_portfolio portfolio f) s)
          end
      end
  end.

(** [buy], [sell] and [deposit] *)
Definition buy (currency : string) (amount : float) (s : Session)
  : outcome string * Session :=
  run_trade (Some currency) amount
    (fun portfolio =>
       buy_loaded (py_upper currency) amount portfolio (rates_file s)) s.

Definition sell (currency : string) (amount : float) (s : Session)
  : outcome string * Session :=
  run_trade (Some currency) amount
    (fun portfolio =>
       sell_loaded (py_upper currency) amount portfolio (rates_file s)) s.

Definition deposit (amount : float) (s : Session) : outcome string * Session :=
  run_trade None amount (deposit_loaded amount) s.
End Usecases.

(** ** get_rate *)

Definition empty_cache_message : string :=
  "Локальный кеш курсов пуст. Выполните 'update-rates'.".

(** [f"{x:.6f}"] of [None] *)
Definition format_None : exn :=
  TypeError "unsupported format string passed to NoneType.__format__".

(** [1 / rate if rate and rate != 0 else None] on the ["rate"] of an
    entry. *)
Definition reciprocal_or_None (r : option float) : option float :=
  match r with
  | Some x =>
      if float_truthy x && float_nonzero x then Some (PrimFloat.div 1 x)
      else None
  | None => None
  end.

Section GetRate.
Variable fromisoformat : string -> string + datetime.
Variable format_minutes : Z -> string.
(** [f"{x:.6f}"] *)
Variable fmt6 : float -> string.

(** The two formatted fields: the first that is [None] raises. *)
Definition format_two (a b : option float) (k : string -> string -> string)
  : outcome string :=
  match a, b with
  | Some x, Some y => Returns (k (fmt6 x) (fmt6 y))
  | _, _ => Raises (Builtin format_None)
  end.

(** [get_rate], given the instant [datetime.now()] reads and the
    [rates_ttl] of the settings.  A [rate] of [None] is [null]; an
    [updated_at] of [None] is an absent key, for which the [last_refresh]
    of the snapshot is printed. *)
Definition get_rate (from_code to_code : string) (rates_file : File Snapshot)
    (now rates_ttl : Z) : outcome string :=
  let from_code := py_upper from_code in
  let to_code := py_upper to_code in
  match _validate_currency_code from_code with
  | Raises e => Raises e
  | Returns _ =>
  match _validate_currency_code to_code with
  | Raises e => Raises e
  | Returns _ =>
      let rates := load_json rates_file in
      match pairs rates with
      | None => Returns empty_cache_message
      | Some exchange_pairs =>
          match size exchange_pairs with
          | O => Returns empty_cache_message
          | S _ =>
              match _check_data_freshness fromisoformat format_minutes rates
                                          now rates_ttl with
              | Raise e => Raises (Builtin e)
              | Ok freshness_error =>
                  if negb (String.eqb (default EmptyString freshness_error)
                                      EmptyString)
                  then Returns (default EmptyString freshness_error)
                  else
                    let key := from_code +:+ "_" +:+ to_code in
                    let reverse_key := to_code +:+ "_" +:+ from_code in
                    match exchange_pairs !! key,
                          exchange_pairs !! reverse_key with
                    | Some pair_entry, _ =>
                        let updated :=
                          default (default "None" (last_refresh rates))
                                  (updated_at pair_entry) in
                        format_two (rate pair_entry)
                          (reciprocal_or_None (rate pair_entry))
                          (fun r reverse_rate =>
                             "Курс " +:+ from_code +:+ "→" +:+ to_code +:+ ": "
                             +:+ r +:+ " (обновлено: " +:+ updated +:+ ")"
                             +:+ nl +:+ "Обратный курс " +:+ to_code +:+ "→"
                             +:+ from_code +:+ ": " +:+ reverse_rate)
                    | None, Some reverse =>
                        let updated :=
                          default (default "None" (last_refresh rates))
                                  (updated_at reverse) in
                        format_two (reciprocal_or_None (rate reverse))
                          (rate reverse)
                          (fun direct_rate r =>
                             "Курс " +:+ from_code +:+ "→" +:+ to_code +:+ ": "
                             +:+ direct_rate +:+ " (обновлено: " +:+ updated
                             +:+ ")" +:+ nl +:+ "Обратный курс " +:+ to_code
                             +:+ "→" +:+ from_code +:+ ": " +:+ r)
                    | None, None =>
                        Returns ("Курс " +:+ from_code +:+ "→" +:+ to_code
                                 +:+ " недоступен. Повторите попытку позже.")
                    end
              end
          end
      end
  end
  end.
End GetRate.

(** ** register and login *)

(** One element of the users file. *)
Record UserData := {
  ud_user_id : Z;
  ud_username : string;
  ud_hashed_password : string;
  ud_salt : string;
  ud_registration_date : string;
}.

(** The session together with the users file. *)
Record App := {
  session : Session;
  users_file : File (list UserData);
}.

(** [load_json] on the users file: a missing file, or one whose text is no
    JSON document, reads as the empty list. *)
Definition load_users (f : File (list UserData)) : list UserData :=
  match f with
  | Stored data => data
  | Missing | Unparseable => []
  end.

(** [ensure_data_dir]: each of the three files that does not exist is
    created, the users and the portfolios as [[]], the rates as [{}]. *)
Definition ensure_data_dir (a : App) : App :=
  {| session :=
       {| current_user := current_user (session a);
          portfolios_file := match portfolios_file (session a) with
                             | Missing => Stored []
                             | f => f
                             end;
          rates_file := match rates_file (session a) with
                        | Missing => Stored {| pairs := None;
                                               last_refresh := None |}
                        | f => f
                        end |};
     users_file := match users_file a with
                   | Missing => Stored []
                   | f => f
                   end |}.

(** The checks of [User.__init__]. *)
Definition User_init (username password : string) : result unit :=
  if String.eqb username EmptyString
  then Raise (ValueError "Имя пользователя не может быть пустым.")
  else if (py_len password <? 4)%nat
  then Raise (ValueError "Пароль должен быть не короче 4 символов.")
  else Ok tt.

Section Accounts.
(** [settings.get_base_currency()] and [settings.get_min_password_length()] *)
Variable settings_base_currency : string.
Variable min_password_length : nat.
(** [hashlib.sha256(s.encode()).hexdigest()] *)
Variable sha256_hexdigest : string -> string.
Variable fromisoformat : string -> string + datetime.

(** [register], given the salt [os.urandom(4).hex()] draws and the
    [isoformat()] of the time of registration. *)
Definition register (username password : string) (salt now_iso : string)
    (a : App) : outcome string * App :=
  let a := ensure_data_dir a in
  let users := load_users (users_file a) in
  if existsb (fun u => String.eqb (ud_username u) username) users
  then (Returns ("Имя пользователя '" +:+ username +:+ "' уже занято."), a)
  else if (py_len password <? min_password_length)%nat
  then (Returns ("Пароль должен быть не короче "
                 +:+ str_of_nat min_password_length +:+ " символов."), a)
  else
    let uid := length users + 1 in
    match User_init username password with
    | Raise e => (Raises (Builtin e), a)
    | Ok _ =>
        let users :=
          users ++ [{| ud_user_id := Z.of_nat uid;
                       ud_username := username;
                       ud_hashed_password :=
                         sha256_hexdigest (password +:+ salt);
                       ud_salt := salt;
                       ud_registration_date := now_iso |}] in
        let a := {| session := session a; users_file := Stored users |} in
        match Portfolio_init (Z.of_nat uid) settings_base_currency with
        | Raise e => (Raises (Builtin e), a)
        | Ok portfolio =>
            (Returns ("Пользователь '" +:+ username
                      +:+ "' зарегистрирован (id=" +:+ str_of_nat uid +:+ "). "
                      +:+ "Войдите: login --username " +:+ username
                      +:+ " --password ****"),
             {| session :=
                  with_portfolios
                    (_save_user_portfolio portfolio
                       (portfolios_file (session a)))
                    (session a);
                users_file := users_file a |})
        end
    end.

(** [login]: the first user of that name is the one found. *)
Definition login (username password : string) (a : App)
  : outcome string * App :=
  let users := load_users (users_file a) in
  match List.find (fun u => String.eqb (ud_username u) username) users with
  | None => (Returns ("Пользователь '" +:+ username +:+ "' не найден."), a)
  | Some found =>
      let hashed := sha256_hexdigest (password +:+ ud_salt found) in
      if negb (String.eqb hashed (ud_hashed_password found))
      then (Returns "Неверный пароль.", a)
      else
        match fromisoformat (ud_registration_date found) with
        | inl msg => (Raises (Builtin (ValueError msg)), a)
        | inr _ =>
            match User_init (ud_username found) password with
            | Raise e => (Raises (Builtin e), a)
            | Ok _ =>
                (Returns ("Вы вошли как '" +:+ username +:+ "'."),
                 {| session :=
                      {| current_user :=
                           Some {| u_user_id := ud_user_id found;
                                   u_username := ud_username found |};
                         portfolios_file := portfolios_file (session a);
                         rates_file := rates_file (session a) |};
                    users_file := users_file a |})
            end
        end
  end.
End Accounts.

(* ===================================================================== *)
(** * Notions the properties are stated with *)
(* ===================================================================== *)

(** The pairs a reader of the rates file sees. *)
Definition file_pairs (f : File Snapshot) : gmap string PairEntry :=
  default ∅ (pairs (load_json f)).

(** The entry [_update_combined_pairs] builds from a quote. *)
Definition entry_of_quote (meta : Quote) : PairEntry :=
  {| rate := q_rate meta;
     updated_at := Some (default EmptyString (q_updated_at meta));
     source := q_source meta |}.

(** The rate a provider stores under the inverse key. *)
Definition inverse_of (r : float) : float :=
  if PrimFloat.eqb r 0%float then 0%float else PrimFloat.div 1 r.

(** The keys of a loop that stores each of its items under a direct and an
    inverse key. *)
Section PairedKeys.
Context {Item : Type}.
Variables (direct inverse : Item -> string) (mk : Item -> float -> Quote).
Variable all_items : list Item.

Definition item_keys (items : list Item) : list string :=
  flat_map (fun item => [direct item; inverse item]) items.

(** Both directions of an item are in the batch, the inverse key with the
    inverse of the direct key's rate. *)
Definition both_directions (res : Batch) (item : Item) : Prop :=
  ∃ r, dict_get (direct item) res = Some (mk item r)
       ∧ dict_get (inverse item) res = Some (mk item (inverse_of r)).

(** Every key of the batch is one direction of an item that is there in
    both. *)
Definition paired (res : Batch) : Prop :=
  ∀ key, In key (dict_keys res) →
    ∃ item, In item all_items
            ∧ (key = direct item ∨ key = inverse item)
            ∧ both_directions res item.

End PairedKeys.

(** The keys the clients write for a configuration, direct key first. *)
Definition coingecko_direct (c : ParserConfig) (item : string * string)
  : string := fst item +:+ "_" +:+ BASE_FIAT_CURRENCY c.

Definition coingecko_inverse (c : ParserConfig) (item : string * string)
  : string := BASE_FIAT_CURRENCY c +:+ "_" +:+ fst item.

Definition exchangerate_direct (c : ParserConfig) (code : string) : string :=
  BASE_FIAT_CURRENCY c +:+ "_" +:+ code.

Definition exchangerate_inverse (c : ParserConfig) (code : string) : string :=
  code +:+ "_" +:+ BASE_FIAT_CURRENCY c.

Definition coingecko_keys (c : ParserConfig) : list string :=
  item_keys (coingecko_direct c) (coingecko_inverse c) (CRYPTO_ID_MAP c).

Definition exchangerate_keys (c : ParserConfig) : list string :=
  item_keys (exchangerate_direct c) (exchangerate_inverse c)
            (FIAT_CURRENCIES c).

(** What a batch does to the combined pairs when every quote of it is
    processed: [_update_combined_pairs], key after key. *)
Definition merge_batch (combined_pairs : gmap string PairEntry)
    (batch : Batch) : gmap string PairEntry :=
  fold_left (fun acc kq => _update_combined_pairs acc (fst kq) (snd kq))
            batch combined_pairs.

(** The keys of a batch are pair keys: each has an underscore to split at. *)
Definition pair_keys (batch : Batch) : Prop :=
  Forall (fun kq => is_Some (split_underscore (fst kq))) batch.

Section Outcomes.
Variable float_of_str : string -> option float.
Variable strftime_now : nat -> string.

(** A key is absent from every batch the clients can fetch. *)
Definition in_no_batch (c : ParserConfig) (target : list ApiClient)
    (k : string) : Prop :=
  ∀ client w0 batch,
    In client target →
    fst (fetch_rates float_of_str strftime_now c client w0) = Ok batch →
    ¬ In k (dict_keys batch).

(** A client whose fetch ends in an [ApiRequestError], whenever it runs. *)
Definition always_fails (c : ParserConfig) (client : ApiClient) : Prop :=
  ∀ w0, ∃ reason,
    fst (fetch_rates float_of_str strftime_now c client w0)
    = Raise (ApiRequestError reason).

(** A client whose fetch ends in the [ApiRequestError] of one reason,
    whenever it runs. *)
Definition fails_with (c : ParserConfig) (client : ApiClient)
    (reason : string) : Prop :=
  ∀ w0, fst (fetch_rates float_of_str strftime_now c client w0)
        = Raise (ApiRequestError reason).

End Outcomes.

(** The [updated_at] the merger compares: an absent one reads as the empty
    string. *)
Definition stamp (e : PairEntry) : string :=
  default EmptyString (updated_at e).

(** Every key of [m] is a key of [m'], under a time stamp that is not
    smaller. *)
Definition not_older (m m' : gmap string PairEntry) : Prop :=
  ∀ k e, m !! k = Some e →
         ∃ e', m' !! k = Some e' ∧ String.leb (stamp e) (stamp e') = true.

(** The records [append_record] reads from the log: none when the log is
    missing or cannot be parsed. *)
Definition history_records (w : World) : list HistoryRecord :=
  match open_and_load (history_file w) with
  | Ok data => data
  | Raise _ => []
  end.

(** The history record [_process_client_data] writes for a quote: the two
    halves of the key, the quote's rate, source and meta, and as time stamp
    the quote's [updated_at] when it has one. *)
Definition logs_quote (record : HistoryRecord) (kq : string * Quote) : Prop :=
  ∃ from_code to_code,
    split_underscore (fst kq) = Some (from_code, to_code)
    ∧ from_currency record = from_code
    ∧ to_currency record = to_code
    ∧ h_rate record = q_rate (snd kq)
    ∧ h_source record = q_source (snd kq)
    ∧ h_meta record = q_meta (snd kq)
    ∧ h_id record
      = from_code +:+ "_" +:+ to_code +:+ "_" +:+ timestamp record
    ∧ (∀ ts, q_updated_at (snd kq) = Some ts → timestamp record = ts).

(** Every character of a string is one [str.strip] removes. *)
Fixpoint all_space (s : string) : bool :=
  match s with
  | EmptyString => true
  | String c s' => is_space c && all_space s'
  end.

(** The clients of the two classes [_select_clients_by_source] knows by
    name. *)
Definition named_client (client : ApiClient) : Prop :=
  match client with
  | CoinGeckoClient _ | ExchangeRateApiClient _ => True
  | CustomClient _ => False
  end.

(** What the loop of [CoinGeckoClient.fetch_rates] reads for one item of
    [CRYPTO_ID_MAP]: the price the response holds for it, or nothing when
    the response has none. *)
Definition coingecko_price (float_of_str : string -> option float)
    (c : ParserConfig) (data : json) (item : string * string)
  : result (option float) :=
  try! raw <- json_get_default (snd item) (JObj []) data;
  try! rate <- json_get (py_lower (BASE_FIAT_CURRENCY c)) raw;
  if is_None rate then Ok None
  else try! r <- py_float float_of_str rate; Ok (Some r).

(** What the loop of [ExchangeRateApiClient.fetch_rates] reads for one code
    of [FIAT_CURRENCIES]: nothing for the base currency and for a rate
    [float] rejects. *)
Definition exchangerate_price (float_of_str : string -> option float)
    (c : ParserConfig) (rates : json) (code : string)
  : result (option float) :=
  if String.eqb code (BASE_FIAT_CURRENCY c) then Ok None
  else
    try! raw <- json_get code rates;
    match py_float float_of_str raw with
    | Raise (TypeError _) | Raise (ValueError _) => Ok None
    | Raise e => Raise e
    | Ok r => Ok (Some r)
    end.

(** The text [run_update] puts on its error list for a fetch that failed
    with an [ApiRequestError]; nothing for any other outcome. *)
Definition reported_failure {A} (r : result A) : option string :=
  match r with
  | Raise (ApiRequestError reason) => Some (exn_str (ApiRequestError reason))
  | _ => None
  end.

(** A currency code as a wallet carries it: alphabetic and in upper
    case. *)
Definition code_ok (code : string) : Prop :=
  py_isalpha code = true ∧ py_upper code = code.

(** The shape every portfolio has that the class builds: the base currency
    is a currency code, its wallet is the first one, and each wallet is
    stored once, under its own code. *)
Definition well_formed (p : Portfolio) : Prop :=
  code_ok (base_currency p)
  ∧ (∃ wallet rest, wallets p = (base_currency p, wallet) :: rest)
  ∧ NoDup (dict_keys (wallets p))
  ∧ Forall (fun item => code_ok (fst item)
                        ∧ currency_code (snd item) = fst item)
           (wallets p).

(** The currency codes [from_dict] passes to [Wallet]: the base currency
    and the code of each wallet. *)
Definition data_codes (data : PortfolioData) : list string :=
  default "USD" (pd_base_currency data)
  :: map (fun item => wd_currency_code (snd item))
         (default [] (pd_wallets data)).

(** The wallets [to_dict] keeps: those with a balance that is not zero. *)
Definition active (item : string * Wallet) : bool :=
  float_nonzero (balance (snd item)).

(** The exceptions a trading use case can raise: nobody is logged in, the
    amount is not positive, the currency is unknown, a stored code is not
    alphabetic, the funds do not suffice, or the amount to move between
    the wallets is not positive. *)
Definition trade_error (e : usecase_exn) : Prop :=
  e = Builtin (ValueError "Сначала выполните login.")
  ∨ e = Builtin (ValueError "'amount' должен быть положительным числом.")
  ∨ (∃ code, e = CurrencyNotFoundError code)
  ∨ e = Builtin (ValueError "Некорректный код валюты.")
  ∨ (∃ available required code,
       e = InsufficientFundsError available required code)
  ∨ e = Builtin (ValueError "Сумма должна быть > 0.").

(** The entries of the portfolios file that belong to other users. *)
Definition entries_of_others (uid : Z) (f : File (list PortfolioData))
  : list PortfolioData :=
  List.filter (fun d => negb (pd_user_id d =? uid)%Z) (load_portfolios f).

(** A wallet [get_total_value] has a price for: it is in the base currency,
    or the rates hold a usable direct or reverse rate to the base
    currency. *)
Definition priced (exchange_pairs : gmap string PairEntry) (base : string)
    (item : string * Wallet) : bool :=
  String.eqb (fst item) base
  || bool_decide (is_Some (usable_rate exchange_pairs
                             (fst item +:+ "_" +:+ base)))
  || bool_decide (is_Some (usable_rate exchange_pairs
                             (base +:+ "_" +:+ fst item))).

(** The users file as [register] keeps it: the ids count up from 1 in the
    order of registration, and no two users have the same name. *)
Definition users_ok (users : list UserData) : Prop :=
  map ud_user_id users = map Z.of_nat (seq 1 (length users))
  ∧ NoDup (map ud_username users).

(* ===================================================================== *)
(** * Sample data *)
(* ===================================================================== *)

(** A clock that stands at noon of 2024-06-01, in the two formats the
    updater prints it in. *)
Definition noon (n : nat) : string := "2024-06-01T12:00:00Z".

Definition noon_iso (n : nat) : string := "2024-06-01T12:00:00.000000Z".

(** A [float()] that takes no string for a number. *)
Definition no_float (s : string) : option float := None.

(** A [fromisoformat] that knows one timestamp, midnight of 2024-01-01 UTC,
    with and without its offset, and a [format_minutes] for a TTL of one
    hour. *)
Definition fromisoformat_sample (s : string) : string + datetime :=
  if String.eqb s "2024-01-01T00:00:00+00:00"
  then inr {| instant := 1704067200000000; aware := true |}
  else if String.eqb s "2024-01-01T00:00:00"
  then inr {| instant := 1704067200000000; aware := false |}
  else inl ("Invalid isoformat string: '" +:+ s +:+ "'").

Definition format_minutes_sample (ttl : Z) : string := "60.0".

(** The entry of the specification's scenario, and quotes for its key. *)
Definition btc_entry_jan1 : PairEntry :=
  {| rate := Some 50000%float;
     updated_at := Some "2024-01-01T00:00:00Z";
     source := Some "X" |}.

Definition btc_quote (r : float) (ts : string) : Quote :=
  {| q_rate := Some r; q_source := Some "CoinGecko";
     q_updated_at := Some ts;
     q_meta := Some {| raw_id := Some "bitcoin"; status_code := 200 |} |}.

(** The snapshot of the scenario, with a given [last_refresh]. *)
Definition snapshot_refreshed (lr : option string) : Snapshot :=
  {| pairs := Some {[ "BTC_USD" := btc_entry_jan1 ]}; last_refresh := lr |}.

(** A rates file holding only BTC_USD. *)
Definition btc_usd_file : File Snapshot :=
  Stored {| pairs := Some {[ "BTC_USD" := {| rate := Some 50000%float;
                                             updated_at := Some "2024-01-01T00:00:00Z";
                                             source := Some "CoinGecko" |} ]};
            last_refresh := Some "2024-01-01T00:00:00Z" |}.

(** A rates file holding only USD_EUR and USD_JPY. *)
Definition usd_eur_jpy_file : File Snapshot :=
  Stored {| pairs := Some (<["USD_EUR" := {| rate := Some 0.5%float;
                                             updated_at := Some "2024-01-01T00:00:00Z";
                                             source := Some "ExchangeRate-API" |}]>
                           (<["USD_JPY" := {| rate := Some 128%float;
                                              updated_at := Some "2024-01-01T00:00:00Z";
                                              source := Some "ExchangeRate-API" |}]> ∅));
            last_refresh := Some "2024-01-01T00:00:00Z" |}.

(** A rates file whose two USD/EUR entries do not agree. *)
Definition eur_usd_file : File Snapshot :=
  Stored {| pairs := Some (<["EUR_USD" := {| rate := Some 2%float;
                                             updated_at := Some "2024-01-01T00:00:00Z";
                                             source := Some "ExchangeRate-API" |}]>
                           {[ "USD_EUR" := {| rate := Some 3%float;
                                              updated_at := Some "2024-01-02T00:00:00Z";
                                              source := Some "ExchangeRate-API" |} ]});
            last_refresh := Some "2024-01-02T00:00:00Z" |}.

(** A data directory with no files, and one whose snapshot cannot be
    parsed. *)
Definition fresh_world : World :=
  {| snapshot_file := Missing; history_file := Missing; ticks := 0 |}.

Definition corrupt_world : World :=
  {| snapshot_file := Unparseable; history_file := Stored []; ticks := 0 |}.

(** The store of the specification's scenario: BTC_USD at 50000, refreshed
    on 2024-01-01. *)
Definition world_jan1 : World :=
  {| snapshot_file := Stored (snapshot_refreshed (Some "2024-01-01T00:00:00Z"));
     history_file := Stored [];
     ticks := 0 |}.

(** An updater without providers. *)
Definition no_clients : RatesUpdater :=
  {| cfg := default_config; clients := [] |}.

(** The two configured providers: CoinGecko answers with a price for
    ethereum only, the request of ExchangeRate times out. *)
Definition eth_only_updater : RatesUpdater :=
  {| cfg := default_config;
     clients :=
       [ CoinGeckoClient
           (HttpResponse 200 (JObj [("ethereum", JObj [("usd", JNum 3000)])]));
         ExchangeRateApiClient (HttpRequestException "Read timed out.") ] |}.

(** The two configured providers, both unreachable. *)
Definition failing_updater : RatesUpdater :=
  {| cfg := default_config;
     clients :=
       [ CoinGeckoClient (HttpRequestException "Connection refused");
         ExchangeRateApiClient (HttpRequestException "Read timed out.") ] |}.

(** What CoinGecko's client makes of the ethereum-only response. *)
Definition eth_batch : Batch :=
  let m := {| raw_id := Some "ethereum"; status_code := 200 |} in
  [ ("ETH_USD", make_quote 3000 "CoinGecko" "2024-06-01T12:00:00Z" m);
    ("USD_ETH", make_quote (PrimFloat.div 1 3000) "CoinGecko"
                           "2024-06-01T12:00:00Z" m) ].

(** One body that serves both clients: a bitcoin price, a solana price of
    zero, and fiat rates of which one is not a number. *)
Definition sample_response : HttpOutcome :=
  HttpResponse 200
    (JObj [ ("bitcoin", JObj [("usd", JNum 50000)]);
            ("solana", JObj [("usd", JNum 0)]);
            ("rates", JObj [("EUR", JNum 0.5); ("GBP", JStr "n/a")]) ]).

Definition sample_coingecko_batch : Batch :=
  Eval vm_compute in
    match coingecko_fetch_rates no_float noon default_config
                                sample_response 0 with
    | Ok batch => batch
    | Raise _ => []
    end.

Definition sample_exchangerate_batch : Batch :=
  Eval vm_compute in
    match exchangerate_fetch_rates no_float noon default_config
                                   sample_response 0 with
    | Ok batch => batch
    | Raise _ => []
    end.

(** CoinGecko answers with a price that is no number, ExchangeRate with a
    rate for EUR. *)
Definition bad_price_updater : RatesUpdater :=
  {| cfg := default_config;
     clients :=
       [ CoinGeckoClient
           (HttpResponse 200 (JObj [("bitcoin", JObj [("usd", JStr "n/a")])]));
         ExchangeRateApiClient
           (HttpResponse 200 (JObj [("rates", JObj [("EUR", JNum 0.5)])])) ] |}.

(** The same malformed value on the other side: CoinGecko answers with a
    price for ethereum, ExchangeRate with a rate for EUR that is no number
    and a rate for GBP. *)
Definition bad_rate_updater : RatesUpdater :=
  {| cfg := default_config;
     clients :=
       [ CoinGeckoClient
           (HttpResponse 200 (JObj [("ethereum", JObj [("usd", JNum 3000)])]));
         ExchangeRateApiClient
           (HttpResponse 200
              (JObj [("rates", JObj [("EUR", JStr "n/a");
                                     ("GBP", JNum 0.5)])])) ] |}.

(** What the run of [eth_only_updater] over [world_jan1] returns. *)
Definition eth_run_result : RefreshResult :=
  {| total := 3;
     fetched := 2;
     errors := ["Ошибка при обращении к API: Ошибка запроса ExchangeRate API: Read timed out."];
     r_last_refresh := "2024-06-01T12:00:00.000000Z" |}.

(** A clock that stands at midnight of 2024-01-01 UTC. *)
Definition jan1 (n : nat) : string := "2024-01-01T00:00:00Z".

(** A portfolio in US dollars with an empty wallet for euros and half a
    bitcoin. *)
Definition alice_portfolio : Portfolio :=
  {| user_id := 1;
     base_currency := "USD";
     wallets := [ ("USD", {| currency_code := "USD"; balance := 100 |});
                  ("EUR", {| currency_code := "EUR"; balance := 0 |});
                  ("BTC", {| currency_code := "BTC"; balance := 0.5 |}) ] |}.

(** Alice is logged in; the portfolios file holds her portfolio, the rates
    file BTC_USD at 50000. *)
Definition alice_session : Session :=
  {| current_user := Some {| u_user_id := 1; u_username := "alice" |};
     portfolios_file := Stored [to_dict alice_portfolio];
     rates_file := btc_usd_file |}.

(** Formats that print nothing of the number. *)
Definition fmt_sample (x : float) : string := "#".

(** An application directory with no files and nobody logged in, and a
    digest that hashes nothing. *)
Definition empty_app : App :=
  {| session := {| current_user := None;
                   portfolios_file := Missing;
                   rates_file := Missing |};
     users_file := Missing |}.

Definition digest_sample (s : string) : string := s.

(* ===================================================================== *)
(** * Floats and strings *)
(* ===================================================================== *)

Section FloatFacts.
Implicit Types (x y r : float).

(** A float that is [> 0] is truthy. *)
Lemma float_pos_truthy r : float_pos r = true → float_truthy r = true.
Proof.
  unfold float_pos, float_truthy.
  rewrite FloatAxioms.ltb_spec, FloatAxioms.eqb_spec.
  change (Prim2SF 0%float) with (S754_zero false).
  destruct (Prim2SF r) as [sg | sg | | sg m e]; cbn;
    try discriminate; try reflexivity;
    destruct sg; cbn; try discriminate; reflexivity.
Qed.

(** Two floats that [==] tells apart are different. *)
Lemma float_eqb_false_neq x y :
  PrimFloat.eqb x y = false → PrimFloat.eqb y y = true → x ≠ y.
Proof. intros Hxy Hyy ->. congruence. Qed.

Lemma usable_rate_pos (m : gmap string PairEntry) key e r :
  m !! key = Some e → rate e = Some r → float_pos r = true →
  usable_rate m key = Some r.
Proof.
  intros Hm He Hr. unfold usable_rate. rewrite Hm, He.
  by rewrite (float_pos_truthy r Hr), Hr.
Qed.

Lemma usable_rate_absent (m : gmap string PairEntry) key :
  m !! key = None → usable_rate m key = None.
Proof. intros Hm. unfold usable_rate. by rewrite Hm. Qed.

Lemma truthy_pos_Some r : float_pos r = true → truthy_pos (Some r) = true.
Proof.
  intros Hr. unfold truthy_pos. by rewrite (float_pos_truthy r Hr), Hr.
Qed.

End FloatFacts.

(** [a < b] fails exactly when [b <= a]. *)
Lemma string_ltb_leb (s1 s2 : string) :
  String.ltb s1 s2 = negb (String.leb s2 s1).
Proof.
  unfold String.ltb, String.leb. rewrite (String.compare_antisym s2 s1).
  by destruct (String.compare s1 s2).
Qed.

(* ===================================================================== *)
(** * The conversion resolver *)
(* ===================================================================== *)

Section Conversion.
Implicit Types (f : File Snapshot) (a b : string) (n : nat).

(** A look-up with "USD" on either side never reaches the bridging branch:
    one call answers, whatever may remain to be spent on nested calls. *)
Lemma usd_lookup_no_recursion f a b n :
  a = "USD" ∨ b = "USD" →
  _get_conversion_rate (S n) f a b = _get_conversion_rate 1 f a b
  ∧ is_Some (_get_conversion_rate 1 f a b).
Proof.
  intros Husd.
  assert (Hguard : negb (String.eqb a "USD") && negb (String.eqb b "USD")
                   = false).
  { destruct Husd as [-> | ->]; cbn.
    - reflexivity.
    - apply andb_false_r. }
  cbn [_get_conversion_rate].
  destruct (String.eqb a b); [split; [reflexivity | eexists; reflexivity]|].
  destruct (usable_rate _ (a +:+ "_" +:+ b));
    [split; [reflexivity | eexists; reflexivity]|].
  destruct (usable_rate _ (b +:+ "_" +:+ a));
    [split; [reflexivity | eexists; reflexivity]|].
  rewrite Hguard. split; [reflexivity | eexists; reflexivity].
Qed.

(** With room for one nested call the function answers, and more room does
    not change the answer. *)
Lemma two_calls_suffice f a b n :
  _get_conversion_rate (S (S n)) f a b = _get_conversion_rate 2 f a b
  ∧ is_Some (_get_conversion_rate 2 f a b).
Proof.
  destruct (usd_lookup_no_recursion f a "USD" n (or_intror eq_refl))
    as [Ha [ra Hra]].
  destruct (usd_lookup_no_recursion f "USD" b n (or_introl eq_refl))
    as [Hb [rb Hrb]].
  change 2 with (S 1).
  remember (S n) as m eqn:Hm. remember 1 as one eqn:Hone.
  cbn [_get_conversion_rate].
  destruct (String.eqb a b); [split; [reflexivity | eexists; reflexivity]|].
  destruct (usable_rate _ (a +:+ "_" +:+ b));
    [split; [reflexivity | eexists; reflexivity]|].
  destruct (usable_rate _ (b +:+ "_" +:+ a));
    [split; [reflexivity | eexists; reflexivity]|].
  destruct (negb (String.eqb a "USD") && negb (String.eqb b "USD"));
    [|split; [reflexivity | eexists; reflexivity]].
  subst m one. rewrite Ha, Hb, Hra, Hrb.
  split; [reflexivity|].
  destruct (truthy_pos ra && truthy_pos rb); [|eexists; reflexivity].
  destruct ra, rb; eexists; reflexivity.
Qed.

End Conversion.

(* ===================================================================== *)
(** * The providers *)
(* ===================================================================== *)

Section DictFacts.
Context {V : Type}.
Implicit Types (d : list (string * V)) (k : string) (v : V).

Lemma dict_get_set_eq d k v : dict_get k (dict_set k v d) = Some v.
Proof.
  induction d as [|[k0 v0] d IH]; cbn.
  - by rewrite String.eqb_refl.
  - destruct (String.eqb_spec k k0) as [-> | Hne]; cbn.
    + by rewrite String.eqb_refl.
    + destruct (String.eqb_spec k k0); [contradiction | exact IH].
Qed.

Lemma dict_get_set_ne d k k' v :
  k ≠ k' → dict_get k' (dict_set k v d) = dict_get k' d.
Proof.
  intros Hne. induction d as [|[k0 v0] d IH]; cbn.
  - destruct (String.eqb_spec k' k); [congruence | reflexivity].
  - destruct (String.eqb_spec k k0) as [-> | Hk]; cbn.
    + destruct (String.eqb_spec k' k0); [congruence | reflexivity].
    + destruct (String.eqb_spec k' k0); [reflexivity | exact IH].
Qed.

Lemma dict_keys_set d k v k' :
  In k' (dict_keys (dict_set k v d)) ↔ k' = k ∨ In k' (dict_keys d).
Proof.
  induction d as [|[k0 v0] d IH]; cbn.
  - intuition congruence.
  - destruct (String.eqb_spec k k0) as [-> | Hk]; cbn.
    + intuition congruence.
    + rewrite IH. intuition congruence.
Qed.

Lemma dict_get_in_keys d k v : dict_get k d = Some v → In k (dict_keys d).
Proof.
  induction d as [|[k0 v0] d IH]; cbn; [discriminate|].
  destruct (String.eqb_spec k k0) as [-> | Hk]; [by left|].
  intros H. right. by apply IH.
Qed.

End DictFacts.

(** Computing the inverse returns for every rate: a zero is answered with
    [0.0] and never reaches the division. *)
Lemma inverse_rate_total (r : float) : inverse_rate r = Ok (inverse_of r).
Proof.
  unfold inverse_rate, inverse_of, py_div.
  by destruct (PrimFloat.eqb r 0%float).
Qed.

(** A loop whose body either skips its item or stores a rate under the
    item's direct key and the inverse of that rate under its inverse key. *)
Section PairedLoop.
Context {Item : Type}.
Variables (direct inverse : Item -> string) (mk : Item -> float -> Quote).
Variable body : Batch -> Item -> result Batch.
Variable all_items : list Item.

Hypothesis body_cases : ∀ res item,
  body res item = Ok res
  ∨ (∃ r, body res item
          = Ok (dict_set (inverse item) (mk item (inverse_of r))
                  (dict_set (direct item) (mk item r) res)))
  ∨ (∃ e, body res item = Raise e ∧ e ≠ ZeroDivisionError).

Lemma for_each_never_divides_by_zero (items : list Item) (res : Batch) :
  for_each body items res ≠ Raise ZeroDivisionError.
Proof.
  revert res. induction items as [|item items IH]; intros res; [discriminate|].
  cbn [for_each].
  destruct (body_cases res item) as [-> | [[r ->] | [e [-> He]]]]; cbn.
  - apply IH.
  - apply IH.
  - congruence.
Qed.

(** Whatever holds of every direct and inverse key, and of the keys the
    loop starts with, holds of the keys it ends with. *)
Lemma for_each_keys (P : string → Prop) (items : list Item)
    (res batch : Batch) :
  (∀ item, P (direct item) ∧ P (inverse item)) →
  (∀ k, In k (dict_keys res) → P k) →
  for_each body items res = Ok batch →
  ∀ k, In k (dict_keys batch) → P k.
Proof.
  intros Hitem. revert res.
  induction items as [|item items IH]; intros res Hres Hrun.
  - cbn in Hrun. by injection Hrun as <-.
  - cbn [for_each] in Hrun.
    destruct (body_cases res item) as [Hb | [[r Hb] | [e [Hb _]]]];
      rewrite Hb in Hrun; cbn in Hrun.
    + by apply (IH res).
    + eapply IH; [|exact Hrun].
      intros k Hk. apply dict_keys_set in Hk as [-> | Hk]; [apply Hitem|].
      apply dict_keys_set in Hk as [-> | Hk]; [apply Hitem | by apply Hres].
    + discriminate Hrun.
Qed.

Lemma for_each_paired (items : list Item) (res batch : Batch) :
  incl items all_items →
  NoDup (item_keys direct inverse items) →
  (∀ key, In key (item_keys direct inverse items) → ¬ In key (dict_keys res)) →
  paired direct inverse mk all_items res →
  for_each body items res = Ok batch →
  paired direct inverse mk all_items batch.
Proof.
  revert res. induction items as [|item items IH];
    intros res Hincl Hnodup Hfresh Hpaired Hrun.
  - cbn in Hrun. by injection Hrun as <-.
  - cbn [for_each] in Hrun.
    assert (Hincl' : incl items all_items).
    { intros i Hi. apply Hincl. by right. }
    cbn [item_keys flat_map app] in Hnodup, Hfresh.
    apply NoDup_cons in Hnodup as [Hd Hnodup].
    apply NoDup_cons in Hnodup as [Hi Hnodup].
    rewrite list_elem_of_In in Hd, Hi.
    fold (item_keys direct inverse items) in Hd, Hi, Hnodup, Hfresh.
    destruct (body_cases res item) as [Hb | [[r Hb] | [e [Hb _]]]];
      rewrite Hb in Hrun; cbn in Hrun.
    + apply (IH res); try assumption.
      intros key Hkey. apply Hfresh. right. by right.
    + assert (Hne : direct item ≠ inverse item).
      { intros Heq. apply Hd. rewrite Heq. by left. }
      eapply IH; [exact Hincl' | exact Hnodup | | | exact Hrun].
      * intros key Hkey Hin.
        apply dict_keys_set in Hin as [-> | Hin]; [contradiction|].
        apply dict_keys_set in Hin as [-> | Hin].
        -- apply Hd. by right.
        -- apply (Hfresh key); [right; by right | exact Hin].
      * intros key Hin.
        apply dict_keys_set in Hin.
        rewrite dict_keys_set in Hin.
        destruct Hin as [-> | [-> | Hin]].
        -- exists item. split; [apply Hincl; by left|]. split; [by right|].
           exists r. rewrite dict_get_set_eq.
           by rewrite dict_get_set_ne, dict_get_set_eq.
        -- exists item. split; [apply Hincl; by left|]. split; [by left|].
           exists r. rewrite dict_get_set_eq.
           by rewrite dict_get_set_ne, dict_get_set_eq.
        -- destruct (Hpaired key Hin) as (item' & Hall & Hkey & r' & Hgd & Hgi).
           exists item'. split; [exact Hall|]. split; [exact Hkey|].
           exists r'.
           assert (Hfd : ∀ k v, dict_get k res = Some v →
                                k ≠ direct item ∧ k ≠ inverse item).
           { intros k v Hk. apply dict_get_in_keys in Hk.
             split; intros ->.
             - apply (Hfresh (direct item)); [by left | exact Hk].
             - apply (Hfresh (inverse item)); [right; by left | exact Hk]. }
           destruct (Hfd _ _ Hgd) as [? ?]. destruct (Hfd _ _ Hgi) as [? ?].
           rewrite !dict_get_set_ne by congruence. by split.
    + discriminate Hrun.
Qed.

End PairedLoop.

Section ProviderFacts.
Variable float_of_str : string -> option float.
Implicit Types (c : ParserConfig) (res : Batch) (e : exn).

Lemma json_get_default_raises k dflt x e :
  json_get_default k dflt x = Raise e → e ≠ ZeroDivisionError.
Proof. destruct x; cbn; intros [= <-]; discriminate. Qed.

Lemma py_float_raises x e :
  py_float float_of_str x = Raise e →
  (∃ msg, e = TypeError msg) ∨ (∃ msg, e = ValueError msg)
  ∨ (∃ msg, e = OverflowError msg).
Proof.
  destruct x as [| b | f | | s | items | fields]; cbn;
    try (intros [= <-]; left; by eexists); try discriminate.
  - intros [= <-]. right; right. by eexists.
  - destruct (float_of_str s); [discriminate|].
    intros [= <-]. right; left. by eexists.
Qed.

Lemma coingecko_step_cases c ts status data res item :
  coingecko_step float_of_str c ts status data res item = Ok res
  ∨ (∃ r, coingecko_step float_of_str c ts status data res item
          = Ok (dict_set (coingecko_inverse c item)
                  (make_quote (inverse_of r) "CoinGecko" ts
                     {| raw_id := Some (snd item); status_code := status |})
                  (dict_set (coingecko_direct c item)
                     (make_quote r "CoinGecko" ts
                        {| raw_id := Some (snd item);
                           status_code := status |}) res)))
  ∨ (∃ e, coingecko_step float_of_str c ts status data res item = Raise e
          ∧ e ≠ ZeroDivisionError).
Proof.
  destruct item as [code id]. unfold coingecko_step.
  destruct (json_get_default id (JObj []) data) as [raw | e] eqn:Hraw; cbn.
  2: { right; right. exists e. split; [reflexivity|].
       by apply (json_get_default_raises _ _ _ _ Hraw). }
  unfold json_get.
  destruct (json_get_default (py_lower (BASE_FIAT_CURRENCY c)) JNull raw)
    as [rate | e] eqn:Hrate; cbn.
  2: { right; right. exists e. split; [reflexivity|].
       by apply (json_get_default_raises _ _ _ _ Hrate). }
  destruct (is_None rate); [by left|].
  destruct (py_float float_of_str rate) as [r | e] eqn:Hfloat; cbn.
  - right; left. exists r. by rewrite inverse_rate_total.
  - right; right. exists e. split; [reflexivity|].
    destruct (py_float_raises _ _ Hfloat) as [[msg ->] | [[msg ->] | [msg ->]]];
      discriminate.
Qed.

Lemma exchangerate_step_cases c ts status rates res code :
  exchangerate_step float_of_str c ts status rates res code = Ok res
  ∨ (∃ r, exchangerate_step float_of_str c ts status rates res code
          = Ok (dict_set (exchangerate_inverse c code)
                  (make_quote (inverse_of r) "ExchangeRate-API" ts
                     {| raw_id := None; status_code := status |})
                  (dict_set (exchangerate_direct c code)
                     (make_quote r "ExchangeRate-API" ts
                        {| raw_id := None; status_code := status |}) res)))
  ∨ (∃ e, exchangerate_step float_of_str c ts status rates res code = Raise e
          ∧ e ≠ ZeroDivisionError).
Proof.
  unfold exchangerate_step.
  destruct (String.eqb code (BASE_FIAT_CURRENCY c)); [by left|].
  unfold json_get.
  destruct (json_get_default code JNull rates) as [raw | e] eqn:Hraw; cbn.
  2: { right; right. exists e. split; [reflexivity|].
       by apply (json_get_default_raises _ _ _ _ Hraw). }
  destruct (py_float float_of_str raw) as [r | e] eqn:Hfloat.
  - right; left. exists r. by rewrite inverse_rate_total.
  - destruct (py_float_raises _ _ Hfloat) as [[msg ->] | [[msg ->] | [msg ->]]];
      [by left | by left |].
    right; right. eexists. split; [reflexivity | discriminate].
Qed.

(** A key with an underscore can be split. *)
Lemma split_underscore_joined (a b : string) :
  is_Some (split_underscore (a +:+ "_" +:+ b)).
Proof.
  induction a as [|ch a IH]; [by eexists|].
  change (split_underscore (String ch a +:+ "_" +:+ b))
    with (if Ascii.eqb ch "_"%char
          then Some (EmptyString, a +:+ "_" +:+ b)
          else match split_underscore (a +:+ "_" +:+ b) with
               | Some (x, y) => Some (String ch x, y)
               | None => None
               end).
  destruct (Ascii.eqb ch "_"%char); [by eexists|].
  destruct IH as [[x y] ->]. by eexists.
Qed.

(** The two clients of the repository return batches of pair keys, whatever
    the configuration and the response. *)
Lemma shipped_clients_return_pair_keys (strftime_now : nat → string) c
    (http : HttpOutcome) (n : nat) (batch : Batch) :
  coingecko_fetch_rates float_of_str strftime_now c http n = Ok batch
  ∨ exchangerate_fetch_rates float_of_str strftime_now c http n = Ok batch →
  pair_keys batch.
Proof.
  intros Hrun. apply Forall_forall. intros [k q] Hin.
  assert (Hk : In k (dict_keys batch)).
  { apply list_elem_of_In in Hin. apply (in_map fst) in Hin. exact Hin. }
  clear Hin. cbn [fst]. revert k Hk.
  destruct http as [msg | msg | msg | status data];
    try (by destruct Hrun as [Hrun | Hrun]; discriminate Hrun).
  destruct Hrun as [Hrun | Hrun].
  - cbn [coingecko_fetch_rates] in Hrun.
    apply (for_each_keys
             (coingecko_direct c) (coingecko_inverse c)
             (fun item r =>
                make_quote r "CoinGecko" (strftime_now n)
                  {| raw_id := Some (snd item); status_code := status |})
             _ (coingecko_step_cases c (strftime_now n) status data)
             (fun k => is_Some (split_underscore k))
             (CRYPTO_ID_MAP c) [] batch); [| |exact Hrun].
    + intros item. split; apply split_underscore_joined.
    + intros k [].
  - cbn [exchangerate_fetch_rates] in Hrun. unfold json_get in Hrun.
    assert (Hloop : ∀ rates,
      (if negb (json_truthy rates)
       then Raise (ApiRequestError
         "Некорректный ответ ExchangeRate API — отсутствует 'rates'.")
       else for_each (exchangerate_step float_of_str c (strftime_now n)
                        status rates) (FIAT_CURRENCIES c) [])
      = Ok batch →
      ∀ k, In k (dict_keys batch) → is_Some (split_underscore k)).
    { intros rates Hrates.
      destruct (negb (json_truthy rates)); [discriminate|].
      apply (for_each_keys
               (exchangerate_direct c) (exchangerate_inverse c)
               (fun _ r =>
                  make_quote r "ExchangeRate-API" (strftime_now n)
                    {| raw_id := None; status_code := status |})
               _ (exchangerate_step_cases c (strftime_now n) status rates)
               (fun k => is_Some (split_underscore k))
               (FIAT_CURRENCIES c) [] batch); [| |exact Hrates].
      - intros code. split; apply split_underscore_joined.
      - intros k []. }
    destruct (json_get_default "rates" JNull data) as [rates0 | e];
      cbn in Hrun; [|discriminate].
    destruct (json_truthy rates0); cbn in Hrun; [by apply (Hloop rates0)|].
    destruct (json_get_default "conversion_rates" JNull data)
      as [rates1 | e]; cbn in Hrun; [by apply (Hloop rates1) | discriminate].
Qed.
End ProviderFacts.

Lemma default_config_keys_differ :
  NoDup (coingecko_keys default_config)
  ∧ NoDup (exchangerate_keys default_config).
Proof. split; apply (bool_decide_unpack _); vm_compute; reflexivity. Qed.

(** The batches of the sample: a zero price is stored with the inverse 0.0,
    and the rate that is not a number is left out. *)
Lemma sample_batches :
  dict_keys sample_coingecko_batch = ["BTC_USD"; "USD_BTC"; "SOL_USD"; "USD_SOL"]
  ∧ q_rate <$> dict_get "USD_SOL" sample_coingecko_batch = Some (Some 0%float)
  ∧ q_rate <$> dict_get "USD_BTC" sample_coingecko_batch
    = Some (Some (PrimFloat.div 1 50000))
  ∧ dict_keys sample_exchangerate_batch = ["USD_EUR"; "EUR_USD"]
  ∧ q_rate <$> dict_get "EUR_USD" sample_exchangerate_batch
    = Some (Some (PrimFloat.div 1 0.5)).
Proof. repeat split; vm_compute; reflexivity. Qed.

(* ===================================================================== *)
(** * The merger *)
(* ===================================================================== *)

Section UpdateFacts.
Implicit Types (m : gmap string PairEntry) (k key : string) (q : Quote).

Lemma update_lookup_other m key q k :
  k ≠ key → _update_combined_pairs m key q !! k = m !! k.
Proof.
  intros Hk. unfold _update_combined_pairs.
  destruct (m !! key) as [e|].
  - destruct (String.ltb _ _); [by rewrite lookup_insert_ne | reflexivity].
  - by rewrite lookup_insert_ne.
Qed.

Lemma update_lookup_key m key q :
  is_Some (_update_combined_pairs m key q !! key).
Proof.
  unfold _update_combined_pairs.
  destruct (m !! key) as [e|] eqn:He.
  - destruct (String.ltb _ _).
    + rewrite lookup_insert_eq. by eexists.
    + rewrite He. by eexists.
  - rewrite lookup_insert_eq. by eexists.
Qed.

(** The update never removes a key. *)
Lemma update_keeps_keys m key q k :
  is_Some (m !! k) → is_Some (_update_combined_pairs m key q !! k).
Proof.
  intros Hk. destruct (String.eqb_spec k key) as [-> | Hne].
  - apply update_lookup_key.
  - by rewrite update_lookup_other.
Qed.

Lemma merge_batch_cons (batch : Batch) m key q :
  merge_batch m ((key, q) :: batch)
  = merge_batch (_update_combined_pairs m key q) batch.
Proof. reflexivity. Qed.

Lemma merge_batch_keeps_keys (batch : Batch) m k :
  is_Some (m !! k) → is_Some (merge_batch m batch !! k).
Proof.
  revert m. induction batch as [|[key q] batch IH]; intros m Hk; [exact Hk|].
  rewrite merge_batch_cons. apply IH. by apply update_keeps_keys.
Qed.

Lemma merge_batch_other (batch : Batch) m k :
  ¬ In k (dict_keys batch) → merge_batch m batch !! k = m !! k.
Proof.
  revert m. induction batch as [|[key q] batch IH]; intros m Hk; [reflexivity|].
  rewrite merge_batch_cons. cbn in Hk. rewrite IH by tauto.
  apply update_lookup_other. intros ->. tauto.
Qed.

(** Every key of a batch is a key of the merged mapping. *)
Lemma merge_batch_has_keys (batch : Batch) m k :
  In k (dict_keys batch) → is_Some (merge_batch m batch !! k).
Proof.
  revert m. induction batch as [|[key q] batch IH]; intros m Hk; [destruct Hk|].
  rewrite merge_batch_cons. cbn in Hk. destruct Hk as [-> | Hk]; [|by apply IH].
  apply merge_batch_keeps_keys, update_lookup_key.
Qed.

End UpdateFacts.

Section MergerFacts.
Variable float_of_str : string -> option float.
Variable strftime_now : nat -> string.
Implicit Types (m : gmap string PairEntry) (w : World) (batch : Batch).

(** Processing a batch merges a front part of it, all of it unless a key
    cannot be split; it raises nothing but that [ValueError]; and it writes
    to the history log only. *)
Lemma process_client_data_spec batch m w :
  ∃ r m' w' processed rest,
    _process_client_data strftime_now batch m w = (r, m', w')
    ∧ batch = processed ++ rest
    ∧ m' = merge_batch m processed
    ∧ snapshot_file w' = snapshot_file w
    ∧ (r = Ok tt → rest = [])
    ∧ (∀ e, r = Raise e → ∃ msg, e = ValueError msg)
    ∧ (pair_keys batch → r = Ok tt).
Proof.
  revert m w. induction batch as [|[key q] batch IH]; intros m w.
  - exists (Ok tt), m, w, [], []. repeat split; try reflexivity.
    intros e [=].
  - cbn [_process_client_data].
    destruct (split_underscore key) as [[from_code to_code]|] eqn:Hsplit.
    + cbn [_get_timestamp].
      match goal with
      | |- context [_process_client_data _ batch ?m1 ?w1] =>
          destruct (IH m1 w1)
            as (r & m' & w' & processed & rest & Hrun & Hb & Hm & Hw
                & Hok & Hraise & Hkeys)
      end.
      exists r, m', w', ((key, q) :: processed), rest.
      rewrite Hrun. repeat split; try assumption.
      * by rewrite Hb.
      * intros Hpk. apply Hkeys. by inversion Hpk.
    + exists (Raise (ValueError "not enough values to unpack (expected 2, got 1)")),
        m, w, [], ((key, q) :: batch).
      repeat split; try reflexivity.
      * intros [=].
      * intros e [= <-]. by eexists.
      * intros Hpk. inversion Hpk as [|? ? Hkey _]; subst.
        cbn in Hkey. rewrite Hsplit in Hkey. by destruct Hkey.
Qed.

(** A fetch leaves both files as they are. *)
Lemma fetch_rates_files c client w :
  snapshot_file (snd (fetch_rates float_of_str strftime_now c client w))
  = snapshot_file w
  ∧ history_file (snd (fetch_rates float_of_str strftime_now c client w))
    = history_file w.
Proof. destruct client as [[]|[]|]; by split. Qed.

(** The loop over the clients never writes the snapshot file, never removes
    a key from the combined pairs, and leaves the entry of a key that no
    batch holds as it was. *)
Lemma run_clients_spec c (target : list ApiClient) m errs (fetched_so_far : nat) w :
  ∃ r w',
    run_clients float_of_str strftime_now c target m errs fetched_so_far w
    = (r, w')
    ∧ snapshot_file w' = snapshot_file w
    ∧ ∀ m' errs' fetched',
        r = Ok (m', errs', fetched') →
        (∀ k, is_Some (m !! k) → is_Some (m' !! k))
        ∧ (∀ k, in_no_batch float_of_str strftime_now c target k → m' !! k = m !! k).
Proof.
  revert m errs fetched_so_far w.
  induction target as [|client target IH]; intros m errs fetched_so_far w.
  - exists (Ok (m, errs, fetched_so_far)), w.
    split; [reflexivity|]. split; [reflexivity|].
    intros m' errs' fetched' [= <- _ _]. by split.
  - cbn [run_clients].
    destruct (fetch_rates float_of_str strftime_now c client w)
      as [fr w1] eqn:Hfetch.
    assert (Hw1 : snapshot_file w1 = snapshot_file w).
    { pose proof (fetch_rates_files c client w) as [H _].
      by rewrite Hfetch in H. }
    assert (Htail : ∀ k, in_no_batch float_of_str strftime_now c (client :: target) k →
                         in_no_batch float_of_str strftime_now c target k).
    { intros k Hk cl w0 b Hin. apply Hk. by right. }
    destruct fr as [batch | e].
    + destruct (process_client_data_spec batch m w1)
        as (r & m1 & w2 & processed & rest & Hrun & Hb & Hm1 & Hw2
            & Hok & Hraise & _).
      rewrite Hrun. destruct r as [[] | e].
      * specialize (Hok eq_refl). subst rest. rewrite app_nil_r in Hb.
        subst processed.
        destruct (IH m1 errs (fetched_so_far + length batch) w2)
          as (r' & w' & -> & Hw' & Hres).
        exists r', w'. split; [reflexivity|].
        split; [congruence|].
        intros m' errs' fetched' Hr'.
        destruct (Hres m' errs' fetched' Hr') as [Hkeep Hsame].
        split.
        -- intros k Hk. apply Hkeep. rewrite Hm1.
           by apply merge_batch_keeps_keys.
        -- intros k Hk. rewrite (Hsame k (Htail k Hk)), Hm1.
           apply merge_batch_other.
           apply (Hk client w batch); [by left | by rewrite Hfetch].
      * destruct (Hraise e eq_refl) as [msg ->].
        exists (Raise (ValueError msg)), w2.
        split; [reflexivity|]. split; [congruence|].
        intros m' errs' fetched' [=].
    + assert (Hcont :
        ∀ errs1, ∃ r w',
          run_clients float_of_str strftime_now c target m errs1
                      fetched_so_far w1 = (r, w')
          ∧ snapshot_file w' = snapshot_file w
          ∧ ∀ m' errs' fetched',
              r = Ok (m', errs', fetched') →
              (∀ k, is_Some (m !! k) → is_Some (m' !! k))
              ∧ (∀ k, in_no_batch float_of_str strftime_now c (client :: target) k →
                      m' !! k = m !! k)).
      { intros errs1.
        destruct (IH m errs1 fetched_so_far w1) as (r' & w' & -> & Hw' & Hres).
        exists r', w'. split; [reflexivity|]. split; [congruence|].
        intros m' errs' fetched' Hr'.
        destruct (Hres m' errs' fetched' Hr') as [Hkeep Hsame].
        split; [exact Hkeep|]. intros k Hk. apply Hsame, Htail, Hk. }
      destruct e; try (eexists _, w1; split; [reflexivity|];
                       split; [exact Hw1|]; intros ? ? ? [=]).
      apply Hcont.
Qed.

(** When every client fails, the loop returns the pairs it was given, one
    error text per client and the count it started with, and no file has
    changed. *)
Lemma run_clients_all_fail c (target : list ApiClient) m errs
    (fetched_so_far : nat) w :
  Forall (always_fails float_of_str strftime_now c) target →
  ∃ errs' w',
    run_clients float_of_str strftime_now c target m errs fetched_so_far w
    = (Ok (m, errs ++ errs', fetched_so_far), w')
    ∧ length errs' = length target
    ∧ snapshot_file w' = snapshot_file w
    ∧ history_file w' = history_file w.
Proof.
  intros Hall. revert errs w.
  induction Hall as [|client target Hfail _ IH]; intros errs w.
  - exists [], w. by rewrite app_nil_r.
  - cbn [run_clients].
    destruct (Hfail w) as [reason Hreason].
    pose proof (fetch_rates_files c client w) as [Hs Hh].
    destruct (fetch_rates float_of_str strftime_now c client w)
      as [fr w1] eqn:Hfetch.
    cbn in Hreason, Hs, Hh. subst fr.
    destruct (IH (errs ++ [exn_str (ApiRequestError reason)]) w1)
      as (errs' & w' & -> & Hlen & Hs' & Hh').
    exists (exn_str (ApiRequestError reason) :: errs'), w'.
    rewrite <- app_assoc. cbn [app length].
    split; [reflexivity|]. split; [by rewrite Hlen|].
    split; congruence.
Qed.

(** After the step [if combined_pairs: write_snapshot(combined_pairs)] the
    stored pairs are the combined pairs, because these extend the pairs that
    were stored. *)
Lemma persisted_pairs m' w1 :
  (∀ k, is_Some (file_pairs (snapshot_file w1) !! k) → is_Some (m' !! k)) →
  file_pairs (snapshot_file
                match size m' with
                | O => w1
                | S _ => write_snapshot strftime_now m' w1
                end) = m'.
Proof.
  intros Hkeep. destruct (size m') eqn:Hsize; [|reflexivity].
  apply map_size_empty_iff in Hsize. subst m'.
  apply map_empty. intros k.
  destruct (file_pairs (snapshot_file w1) !! k) as [e|] eqn:Hk; [|reflexivity].
  destruct (Hkeep k) as [e' He']; [by exists e|].
  by rewrite lookup_empty in He'.
Qed.

(** One batch that is processed to its end, with no failure before or
    after it among the clients. *)
Lemma process_pair_keys batch m w :
  pair_keys batch →
  ∃ w', _process_client_data strftime_now batch m w
        = (Ok tt, merge_batch m batch, w')
        ∧ snapshot_file w' = snapshot_file w.
Proof.
  intros Hkeys.
  destruct (process_client_data_spec batch m w)
    as (r & m' & w' & processed & rest & Hrun & Hb & Hm & Hw & Hok & _ & Hall).
  specialize (Hall Hkeys). subst r. specialize (Hok eq_refl). subst rest.
  rewrite app_nil_r in Hb. subst processed m'.
  by exists w'.
Qed.

End MergerFacts.

Lemma failing_updater_always_fails :
  Forall (always_fails no_float noon (cfg failing_updater))
         (_select_clients_by_source failing_updater None).
Proof.
  constructor; [|constructor; [|constructor]];
    intros w0; eexists; reflexivity.
Qed.

(* ===================================================================== *)
(** * The scenarios of the specification *)
(* ===================================================================== *)

(** A provider returns BTC_USD at 52000 for 2024-01-02: the entry of
    2024-01-01 is replaced and the history log has the observation. *)
Example scenario_newer_quote_wins :
  let u := {| cfg := default_config;
              clients := [CustomClient
                            (Ok [("BTC_USD",
                                  btc_quote 52000 "2024-01-02T00:00:00Z")])] |} in
  let w' := snd (run_update no_float noon noon_iso u None world_jan1) in
  rate <$> file_pairs (snapshot_file w') !! "BTC_USD"
  = Some (Some 52000%float)
  ∧ last_refresh (load_json (snapshot_file w')) = Some "2024-06-01T12:00:00Z"
  ∧ (match history_file w' with
     | Stored records => map h_id records
     | _ => []
     end) = ["BTC_USD_2024-01-02T00:00:00Z"].
Proof. cbn zeta. repeat split; vm_compute; reflexivity. Qed.

(** [rate("USD", "USD")] is [1.0] whatever the snapshot holds; EUR to JPY is
    bridged over USD_EUR and USD_JPY; EUR to GBP has nothing to go by. *)
Example scenario_lookups :
  _get_conversion_rate 2 Missing "USD" "USD" = Some (Some 1%float)
  ∧ _get_conversion_rate 2 usd_eur_jpy_file "EUR" "JPY"
    = Some (Some 256%float)
  ∧ _get_conversion_rate 2 usd_eur_jpy_file "EUR" "GBP" = Some None.
Proof. repeat split; vm_compute; reflexivity. Qed.

(** With a TTL of one hour, a snapshot refreshed an hour and a second ago
    is stale, and one refreshed a second less than an hour ago is not. *)
Example scenario_freshness_boundary :
  _check_data_freshness fromisoformat_sample format_minutes_sample
    (snapshot_refreshed (Some "2024-01-01T00:00:00Z"))
    (1704067200000000 + 3601000000) 3600
  = Ok (Some (stale_message format_minutes_sample "2024-01-01T00:00:00Z"
                            3600000000))
  ∧ _check_data_freshness fromisoformat_sample format_minutes_sample
      (snapshot_refreshed (Some "2024-01-01T00:00:00Z"))
      (1704067200000000 + 3599000000) 3600
    = Ok None.
Proof. split; vm_compute; reflexivity. Qed.

(** The source alias is trimmed and lower-cased before it is matched; an
    alias that is not known selects no client. *)
Example scenario_source_aliases :
  _select_clients_by_source eth_only_updater (Some " CoinGecko ")
  = [CoinGeckoClient
       (HttpResponse 200 (JObj [("ethereum", JObj [("usd", JNum 3000)])]))]
  ∧ _select_clients_by_source eth_only_updater (Some "Exchange-Rate")
    = [ExchangeRateApiClient (HttpRequestException "Read timed out.")]
  ∧ _select_clients_by_source eth_only_updater (Some "binance") = []
  ∧ _select_clients_by_source eth_only_updater None
    = clients eth_only_updater.
Proof. repeat split; vm_compute; reflexivity. Qed.

(* ===================================================================== *)
(** * The claims of the specification *)
(* ===================================================================== *)

(** C1, as the code has it.  [_update_combined_pairs] compares with [<]:
    the entry of the quote's key becomes the quote's
    {rate, updated_at, source} when there was no entry, or when the entry's
    [updated_at] T1 and the quote's T2 satisfy T1 < T2; when T2 <= T1, which
    includes T2 = T1, the mapping is left as it was.  No other key is
    touched. *)
Theorem update_replaces_iff_strictly_newer
    (combined_pairs : gmap string PairEntry) (pair_key : string)
    (meta : Quote) :
  let post := _update_combined_pairs combined_pairs pair_key meta in
  let t2 := default EmptyString (q_updated_at meta) in
  (combined_pairs !! pair_key = None →
   post !! pair_key = Some (entry_of_quote meta))
  ∧ (∀ e, combined_pairs !! pair_key = Some e →
          String.ltb (default EmptyString (updated_at e)) t2 = true →
          post !! pair_key = Some (entry_of_quote meta))
  ∧ (∀ e, combined_pairs !! pair_key = Some e →
          String.leb t2 (default EmptyString (updated_at e)) = true →
          post = combined_pairs ∧ post !! pair_key = Some e)
  ∧ (∀ k, k ≠ pair_key → post !! k = combined_pairs !! k).
Proof.
  cbn zeta. unfold _update_combined_pairs, entry_of_quote.
  split; [|split; [|split]].
  - intros ->. by rewrite lookup_insert_eq.
  - intros e -> ->. by rewrite lookup_insert_eq.
  - intros e He Hle. rewrite He, string_ltb_leb, Hle. cbn. by split.
  - intros k Hk.
    destruct (combined_pairs !! pair_key) as [e|].
    + destruct (String.ltb _ _); [by rewrite lookup_insert_ne | reflexivity].
    + by rewrite lookup_insert_ne.
Qed.

Lemma update_replaces_iff_strictly_newer_witness :
  _update_combined_pairs {[ "BTC_USD" := btc_entry_jan1 ]} "BTC_USD"
      (btc_quote 52000 "2024-01-02T00:00:00Z") !! "BTC_USD"
  = Some (entry_of_quote (btc_quote 52000 "2024-01-02T00:00:00Z"))
  ∧ _update_combined_pairs {[ "BTC_USD" := btc_entry_jan1 ]} "BTC_USD"
      (btc_quote 52000 "2023-12-31T00:00:00Z") !! "BTC_USD"
    = Some btc_entry_jan1
  ∧ _update_combined_pairs {[ "BTC_USD" := btc_entry_jan1 ]} "ETH_USD"
      (btc_quote 3000 "2024-01-02T00:00:00Z") !! "ETH_USD"
    = Some (entry_of_quote (btc_quote 3000 "2024-01-02T00:00:00Z"))
  ∧ _update_combined_pairs {[ "BTC_USD" := btc_entry_jan1 ]} "ETH_USD"
      (btc_quote 3000 "2024-01-02T00:00:00Z") !! "BTC_USD"
    = Some btc_entry_jan1.
Proof.
  pose proof (update_replaces_iff_strictly_newer
                {[ "BTC_USD" := btc_entry_jan1 ]} "BTC_USD"
                (btc_quote 52000 "2024-01-02T00:00:00Z")) as Hnewer.
  pose proof (update_replaces_iff_strictly_newer
                {[ "BTC_USD" := btc_entry_jan1 ]} "BTC_USD"
                (btc_quote 52000 "2023-12-31T00:00:00Z")) as Holder.
  pose proof (update_replaces_iff_strictly_newer
                {[ "BTC_USD" := btc_entry_jan1 ]} "ETH_USD"
                (btc_quote 3000 "2024-01-02T00:00:00Z")) as Hother.
  cbn zeta in Hnewer, Holder, Hother.
  destruct Hnewer as (_ & Hnewer & _).
  destruct Holder as (_ & _ & Holder & _).
  destruct Hother as (Habsent & _ & _ & Hother).
  split; [apply (Hnewer btc_entry_jan1); reflexivity|].
  split; [apply (Holder btc_entry_jan1); reflexivity|].
  split; [apply Habsent; reflexivity|].
  rewrite (Hother "BTC_USD"); [reflexivity | discriminate].
Defined.

(** C1 as the specification words it fails at T2 = T1: the quote is "not
    older" than the entry, T2 >= T1, yet the comparison of the code is the
    strict [<], and the existing entry survives. *)
Lemma equal_timestamps_keep_existing :
  let t1 := default EmptyString (updated_at btc_entry_jan1) in
  let meta := btc_quote 52000 "2024-01-01T00:00:00Z" in
  let t2 := default EmptyString (q_updated_at meta) in
  String.leb t1 t2 = true
  ∧ _update_combined_pairs {[ "BTC_USD" := btc_entry_jan1 ]} "BTC_USD" meta
      !! "BTC_USD" = Some btc_entry_jan1
  ∧ _update_combined_pairs {[ "BTC_USD" := btc_entry_jan1 ]} "BTC_USD" meta
      !! "BTC_USD" ≠ Some (entry_of_quote meta).
Proof.
  cbn zeta. split; [reflexivity|]. split; [reflexivity|].
  change (_update_combined_pairs _ _ _ !! "BTC_USD") with (Some btc_entry_jan1).
  intros H. apply (f_equal (fun o => o ≫= source)) in H. discriminate H.
Qed.

(** C2, as the code has it.  When every selected provider fails, or none is
    selected, [run_update] returns a result with nothing fetched, one error
    text per selected provider and the count of the prior pairs, and the
    pairs of the stored snapshot are the prior pairs; the history log is not
    touched.  The snapshot FILE is left as it was only when there were no
    prior pairs: otherwise [if combined_pairs:] holds and the file is written
    again, with the same pairs and [last_refresh] set to the time of that
    write. *)
Theorem failed_run_keeps_pairs (float_of_str : string -> option float)
    (strftime_now isoformat_now : nat -> string) (u : RatesUpdater)
    (src : option string) (w : World) :
  Forall (always_fails float_of_str strftime_now (cfg u))
         (_select_clients_by_source u src) →
  ∃ res w',
    run_update float_of_str strftime_now isoformat_now u src w = (Ok res, w')
    ∧ fetched res = 0
    ∧ total res = size (file_pairs (snapshot_file w))
    ∧ length (errors res) = length (_select_clients_by_source u src)
    ∧ file_pairs (snapshot_file w') = file_pairs (snapshot_file w)
    ∧ history_file w' = history_file w
    ∧ (file_pairs (snapshot_file w) = ∅ → snapshot_file w' = snapshot_file w)
    ∧ (file_pairs (snapshot_file w) ≠ ∅ →
       ∃ t, snapshot_file w'
            = Stored {| pairs := Some (file_pairs (snapshot_file w));
                        last_refresh := Some (strftime_now t) |}).
Proof.
  intros Hall. unfold run_update, read_snapshot.
  assert (Hexisting :
    ∃ s, match open_and_load (snapshot_file w) with
         | Ok doc => Ok doc
         | Raise _ => Ok empty_snapshot
         end = Ok s
         ∧ default ∅ (pairs s) = file_pairs (snapshot_file w)).
  { destruct (snapshot_file w) as [| |doc].
    - by exists empty_snapshot.
    - by exists empty_snapshot.
    - by exists doc. }
  destruct Hexisting as (s & -> & Hs). rewrite Hs. clear s Hs.
  unfold run_update_from.
  destruct (run_clients_all_fail float_of_str strftime_now (cfg u)
              (_select_clients_by_source u src)
              (file_pairs (snapshot_file w)) [] 0 w Hall)
    as (errs' & w1 & -> & Hlen & Hsnap & Hhist).
  destruct (size (file_pairs (snapshot_file w))) eqn:Hsize; cbn.
  - apply map_size_empty_iff in Hsize.
    eexists _, _. split; [reflexivity|]. cbn.
    rewrite Hsnap, Hhist, Hsize. repeat split; done.
  - assert (Hne : file_pairs (snapshot_file w) ≠ ∅).
    { apply map_size_non_empty_iff. lia. }
    eexists _, _. split; [reflexivity|]. cbn.
    repeat split; try done.
    intros _. by exists (ticks w1).
Qed.

Lemma failed_run_keeps_pairs_witness :
  ∃ res w',
    run_update no_float noon noon_iso failing_updater None world_jan1
    = (Ok res, w')
    ∧ fetched res = 0
    ∧ total res = 1
    ∧ length (errors res) = 2
    ∧ file_pairs (snapshot_file w') = {[ "BTC_USD" := btc_entry_jan1 ]}
    ∧ history_file w' = Stored [].
Proof.
  destruct (failed_run_keeps_pairs no_float noon noon_iso failing_updater
              None world_jan1 failing_updater_always_fails)
    as (res & w' & Hrun & Hfetched & Htotal & Herrors & Hpairs & Hhist & _).
  exists res, w'.
  split; [exact Hrun|]. split; [exact Hfetched|]. split; [exact Htotal|].
  split; [exact Herrors|]. split; [exact Hpairs | exact Hhist].
Defined.

(** C2 as the specification words it fails for a snapshot that has pairs.
    With both providers failing, and also with an alias that selects no
    provider, the run writes the snapshot file again: its [last_refresh]
    moves from 2024-01-01 to the time of the run. *)
Lemma failed_run_rewrites_last_refresh :
  let all_failed :=
    snd (run_update no_float noon noon_iso failing_updater None world_jan1) in
  let none_selected :=
    snd (run_update no_float noon noon_iso eth_only_updater (Some "binance")
                    world_jan1) in
  Forall (always_fails no_float noon (cfg failing_updater))
         (_select_clients_by_source failing_updater None)
  ∧ _select_clients_by_source eth_only_updater (Some "binance") = []
  ∧ last_refresh (load_json (snapshot_file world_jan1))
    = Some "2024-01-01T00:00:00Z"
  ∧ last_refresh (load_json (snapshot_file all_failed))
    = Some "2024-06-01T12:00:00Z"
  ∧ last_refresh (load_json (snapshot_file none_selected))
    = Some "2024-06-01T12:00:00Z"
  ∧ snapshot_file all_failed ≠ snapshot_file world_jan1
  ∧ snapshot_file none_selected ≠ snapshot_file world_jan1.
Proof.
  cbn zeta.
  split; [exact failing_updater_always_fails|].
  do 4 (split; [vm_compute; reflexivity|]).
  split; intros H; apply (f_equal (fun f => last_refresh (load_json f))) in H;
    vm_compute in H; discriminate H.
Qed.

(** C3.  When the snapshot holds FROM_TO with a rate [r > 0] and holds no
    TO_FROM entry, the look-up of (TO, FROM) is answered by the reverse
    look-up, within a single call, and its answer is the float [1.0 / r]. *)
Theorem inverse_lookup_is_reciprocal (f : File Snapshot)
    (from_code to_code : string) (e : PairEntry) (r : float) (n : nat) :
  file_pairs f !! (from_code +:+ "_" +:+ to_code) = Some e →
  rate e = Some r →
  float_pos r = true →
  file_pairs f !! (to_code +:+ "_" +:+ from_code) = None →
  _get_conversion_rate (S n) f to_code from_code
  = Some (Some (PrimFloat.div 1 r)).
Proof.
  intros Hrev He Hr Hdirect.
  cbn [_get_conversion_rate]. fold (file_pairs f).
  destruct (String.eqb_spec to_code from_code) as [-> | _]; [congruence|].
  rewrite (usable_rate_absent _ _ Hdirect).
  by rewrite (usable_rate_pos _ _ e r Hrev He Hr).
Qed.

Lemma inverse_lookup_is_reciprocal_witness :
  _get_conversion_rate 1 btc_usd_file "USD" "BTC"
  = Some (Some (PrimFloat.div 1 50000)).
Proof.
  apply (inverse_lookup_is_reciprocal btc_usd_file "BTC" "USD"
           {| rate := Some 50000%float;
              updated_at := Some "2024-01-01T00:00:00Z";
              source := Some "CoinGecko" |} 50000%float 0);
    reflexivity.
Defined.

(** C4, as the code has it.  For two DIFFERENT codes A and B, neither of
    them "USD", with no A_B and no B_A entry in the snapshot: when the
    look-ups of (A, "USD") and of ("USD", B) answer with positive rates [x]
    and [y], the look-up of (A, B) answers through the bridging branch with
    the float product [x * y]. *)
Theorem bridged_lookup_is_product (f : File Snapshot) (a b : string)
    (x y : float) (n na nb : nat) :
  a ≠ b →
  a ≠ "USD" →
  b ≠ "USD" →
  file_pairs f !! (a +:+ "_" +:+ b) = None →
  file_pairs f !! (b +:+ "_" +:+ a) = None →
  _get_conversion_rate (S na) f a "USD" = Some (Some x) →
  float_pos x = true →
  _get_conversion_rate (S nb) f "USD" b = Some (Some y) →
  float_pos y = true →
  _get_conversion_rate (S (S n)) f a b = Some (Some (PrimFloat.mul x y)).
Proof.
  intros Hab Ha Hb Hdirect Hreverse Hx Hxpos Hy Hypos.
  destruct (usd_lookup_no_recursion f a "USD" na (or_intror eq_refl))
    as [Ea _].
  destruct (usd_lookup_no_recursion f "USD" b nb (or_introl eq_refl))
    as [Eb _].
  destruct (usd_lookup_no_recursion f a "USD" n (or_intror eq_refl))
    as [Ea' _].
  destruct (usd_lookup_no_recursion f "USD" b n (or_introl eq_refl))
    as [Eb' _].
  rewrite Ea in Hx. rewrite Eb in Hy. rewrite Hx in Ea'. rewrite Hy in Eb'.
  remember (S n) as m eqn:Hm.
  cbn [_get_conversion_rate]. fold (file_pairs f).
  destruct (String.eqb_spec a b) as [? | _]; [contradiction|].
  rewrite (usable_rate_absent _ _ Hdirect), (usable_rate_absent _ _ Hreverse).
  destruct (String.eqb_spec a "USD") as [? | _]; [contradiction|].
  destruct (String.eqb_spec b "USD") as [? | _]; [contradiction|].
  cbn [negb andb]. rewrite Ea', Eb'.
  by rewrite (truthy_pos_Some x Hxpos), (truthy_pos_Some y Hypos).
Qed.

Lemma bridged_lookup_is_product_witness :
  _get_conversion_rate 2 usd_eur_jpy_file "EUR" "JPY"
  = Some (Some (PrimFloat.mul (PrimFloat.div 1 0.5) 128)).
Proof.
  apply (bridged_lookup_is_product usd_eur_jpy_file "EUR" "JPY"
           (PrimFloat.div 1 0.5) 128%float 0 0 0);
    first [ discriminate | reflexivity ].
Defined.

(** C4 as the specification words it fails when A and B are the same code:
    with no EUR_EUR entry and both EUR against USD and USD against EUR
    resolving to positive rates, the look-up of (EUR, EUR) answers [1.0] from
    its first branch, which is not the product of the two rates. *)
Lemma same_code_is_not_bridged :
  "EUR" ≠ "USD"
  ∧ file_pairs eur_usd_file !! ("EUR" +:+ "_" +:+ "EUR") = None
  ∧ _get_conversion_rate 2 eur_usd_file "EUR" "USD" = Some (Some 2%float)
  ∧ float_pos 2 = true
  ∧ _get_conversion_rate 2 eur_usd_file "USD" "EUR" = Some (Some 3%float)
  ∧ float_pos 3 = true
  ∧ _get_conversion_rate 2 eur_usd_file "EUR" "EUR" = Some (Some 1%float)
  ∧ _get_conversion_rate 2 eur_usd_file "EUR" "EUR"
    ≠ Some (Some (PrimFloat.mul 2 3)).
Proof.
  split; [discriminate|].
  do 6 (split; [reflexivity|]).
  change (_get_conversion_rate 2 eur_usd_file "EUR" "EUR")
    with (Some (Some 1%float)).
  intros H.
  assert (H' : 1%float = PrimFloat.mul 2 3) by congruence.
  revert H'. apply float_eqb_false_neq; reflexivity.
Qed.

(** C5.  A pair key of the snapshot before a run of [run_update] is a key of
    the snapshot after it, whether the run returns or raises: no merge
    deletes a pair.  When no batch of the run holds the key, its entry, with
    rate, [updated_at] and source, is the one it was. *)
Theorem merge_never_loses_a_pair (float_of_str : string -> option float)
    (strftime_now isoformat_now : nat -> string) (u : RatesUpdater)
    (src : option string) (w : World) (k : string) (e : PairEntry) :
  file_pairs (snapshot_file w) !! k = Some e →
  let w' := snd (run_update float_of_str strftime_now isoformat_now u src w) in
  is_Some (file_pairs (snapshot_file w') !! k)
  ∧ (in_no_batch float_of_str strftime_now (cfg u)
                 (_select_clients_by_source u src) k →
     file_pairs (snapshot_file w') !! k = Some e).
Proof.
  intros Hk. cbn zeta. unfold run_update, read_snapshot.
  assert (Hexisting :
    ∃ s, match open_and_load (snapshot_file w) with
         | Ok doc => Ok doc
         | Raise _ => Ok empty_snapshot
         end = Ok s
         ∧ default ∅ (pairs s) = file_pairs (snapshot_file w)).
  { destruct (snapshot_file w) as [| |doc].
    - by exists empty_snapshot.
    - by exists empty_snapshot.
    - by exists doc. }
  destruct Hexisting as (s & -> & Hs). rewrite Hs. clear s Hs.
  unfold run_update_from.
  destruct (run_clients_spec float_of_str strftime_now (cfg u)
              (_select_clients_by_source u src)
              (file_pairs (snapshot_file w)) [] 0 w)
    as (r & w1 & -> & Hw1 & Hres).
  destruct r as [[[m' errs'] fetched'] | exn]; cbn [snd].
  - destruct (Hres m' errs' fetched' eq_refl) as [Hkeep Hsame].
    destruct (size m') eqn:Hsize; cbn.
    + rewrite Hw1, Hk. split; [by exists e | done].
    + split.
      * apply Hkeep. rewrite Hk. by exists e.
      * intros Hno. by rewrite (Hsame k Hno).
  - rewrite Hw1, Hk. split; [by exists e | done].
Qed.

Lemma merge_never_loses_a_pair_witness :
  is_Some (file_pairs (snapshot_file
             (snd (run_update no_float noon noon_iso eth_only_updater None
                              world_jan1))) !! "BTC_USD")
  ∧ file_pairs (snapshot_file
       (snd (run_update no_float noon noon_iso eth_only_updater None
                        world_jan1))) !! "BTC_USD"
    = Some btc_entry_jan1.
Proof.
  pose proof (merge_never_loses_a_pair no_float noon noon_iso
                eth_only_updater None world_jan1 "BTC_USD" btc_entry_jan1
                eq_refl) as [Hkept Hsame].
  split; [exact Hkept|].
  apply Hsame.
  intros client w0 batch [<- | [<- | []]] Hfetch; cbn in Hfetch;
    [|discriminate Hfetch].
  injection Hfetch as <-. cbn.
  intros [H | [H | []]]; discriminate H.
Defined.

(** C6.  For a configuration whose pair keys are all different, as those of
    [ParserConfig()] are: every key of the batch a provider returns belongs
    to a pair that the batch holds in both directions, the inverse key with
    [1.0 / rate] when the rate is not zero and with [0.0] when it is; and
    computing the inverse returns for every rate, so that neither fetch can
    end in a [ZeroDivisionError]. *)
Theorem providers_report_both_directions
    (float_of_str : string -> option float) (strftime_now : nat -> string)
    (c : ParserConfig) (http : HttpOutcome) (n : nat) :
  NoDup (coingecko_keys c) →
  NoDup (exchangerate_keys c) →
  let base := BASE_FIAT_CURRENCY c in
  (∀ r, inverse_rate r
        = Ok (if PrimFloat.eqb r 0 then 0%float else PrimFloat.div 1 r))
  ∧ coingecko_fetch_rates float_of_str strftime_now c http n
    ≠ Raise ZeroDivisionError
  ∧ exchangerate_fetch_rates float_of_str strftime_now c http n
    ≠ Raise ZeroDivisionError
  ∧ (∀ batch key,
       coingecko_fetch_rates float_of_str strftime_now c http n = Ok batch →
       In key (dict_keys batch) →
       ∃ code id r qd qi,
         In (code, id) (CRYPTO_ID_MAP c)
         ∧ (key = code +:+ "_" +:+ base ∨ key = base +:+ "_" +:+ code)
         ∧ dict_get (code +:+ "_" +:+ base) batch = Some qd
         ∧ q_rate qd = Some r
         ∧ dict_get (base +:+ "_" +:+ code) batch = Some qi
         ∧ q_rate qi = Some (inverse_of r))
  ∧ (∀ batch key,
       exchangerate_fetch_rates float_of_str strftime_now c http n
       = Ok batch →
       In key (dict_keys batch) →
       ∃ code r qd qi,
         In code (FIAT_CURRENCIES c)
         ∧ (key = base +:+ "_" +:+ code ∨ key = code +:+ "_" +:+ base)
         ∧ dict_get (base +:+ "_" +:+ code) batch = Some qd
         ∧ q_rate qd = Some r
         ∧ dict_get (code +:+ "_" +:+ base) batch = Some qi
         ∧ q_rate qi = Some (inverse_of r)).
Proof.
  intros Hcg Her. cbn zeta.
  split; [exact inverse_rate_total|].
  split; [|split; [|split]].
  - destruct http as [msg | msg | msg | status data]; try discriminate.
    cbn [coingecko_fetch_rates].
    apply (for_each_never_divides_by_zero
             (coingecko_direct c) (coingecko_inverse c)
             (fun item r =>
                make_quote r "CoinGecko" (strftime_now n)
                  {| raw_id := Some (snd item); status_code := status |})
             _ (coingecko_step_cases float_of_str c (strftime_now n)
                  status data)).
  - destruct http as [msg | msg | msg | status data]; try discriminate.
    cbn [exchangerate_fetch_rates]. unfold json_get.
    destruct (json_get_default "rates" JNull data) as [rates0 | e] eqn:H0;
      cbn; [|intros [= ->]; by apply (json_get_default_raises _ _ _ _ H0)].
    assert (Hloop : ∀ rates,
      (if negb (json_truthy rates)
       then Raise (ApiRequestError
         "Некорректный ответ ExchangeRate API — отсутствует 'rates'.")
       else for_each (exchangerate_step float_of_str c (strftime_now n)
                        status rates) (FIAT_CURRENCIES c) [])
      ≠ Raise ZeroDivisionError).
    { intros rates. destruct (negb (json_truthy rates)); [discriminate|].
      apply (for_each_never_divides_by_zero
               (exchangerate_direct c) (exchangerate_inverse c)
               (fun _ r =>
                  make_quote r "ExchangeRate-API" (strftime_now n)
                    {| raw_id := None; status_code := status |})
               _ (exchangerate_step_cases float_of_str c (strftime_now n)
                    status rates)). }
    destruct (json_truthy rates0); cbn; [apply Hloop|].
    destruct (json_get_default "conversion_rates" JNull data)
      as [rates1 | e] eqn:H1; cbn;
      [apply Hloop
      | intros [= ->]; by apply (json_get_default_raises _ _ _ _ H1)].
  - intros batch key Hrun Hkey.
    destruct http as [msg | msg | msg | status data]; try discriminate.
    cbn [coingecko_fetch_rates] in Hrun.
    pose proof (for_each_paired
                  (coingecko_direct c) (coingecko_inverse c)
                  (fun item r =>
                     make_quote r "CoinGecko" (strftime_now n)
                       {| raw_id := Some (snd item); status_code := status |})
                  _ (CRYPTO_ID_MAP c)
                  (coingecko_step_cases float_of_str c (strftime_now n)
                     status data)
                  (CRYPTO_ID_MAP c) [] batch
                  (incl_refl _) Hcg (fun _ _ H => H)
                  (fun _ (H : In _ []) => match H with end) Hrun key Hkey)
      as ([code id] & Hin & Hdir & r & Hd & Hi).
    exists code, id, r. eexists _, _.
    split; [exact Hin|]. split; [exact Hdir|].
    split; [exact Hd|]. split; [reflexivity|]. split; [exact Hi | reflexivity].
  - intros batch key Hrun Hkey.
    destruct http as [msg | msg | msg | status data]; try discriminate.
    cbn [exchangerate_fetch_rates] in Hrun. unfold json_get in Hrun.
    assert (Hloop : ∀ rates,
      (if negb (json_truthy rates)
       then Raise (ApiRequestError
         "Некорректный ответ ExchangeRate API — отсутствует 'rates'.")
       else for_each (exchangerate_step float_of_str c (strftime_now n)
                        status rates) (FIAT_CURRENCIES c) [])
      = Ok batch →
      ∃ code r qd qi,
        In code (FIAT_CURRENCIES c)
        ∧ (key = BASE_FIAT_CURRENCY c +:+ "_" +:+ code
           ∨ key = code +:+ "_" +:+ BASE_FIAT_CURRENCY c)
        ∧ dict_get (BASE_FIAT_CURRENCY c +:+ "_" +:+ code) batch = Some qd
        ∧ q_rate qd = Some r
        ∧ dict_get (code +:+ "_" +:+ BASE_FIAT_CURRENCY c) batch = Some qi
        ∧ q_rate qi = Some (inverse_of r)).
    { intros rates Hrates.
      destruct (negb (json_truthy rates)); [discriminate|].
      pose proof (for_each_paired
                    (exchangerate_direct c) (exchangerate_inverse c)
                    (fun _ r =>
                       make_quote r "ExchangeRate-API" (strftime_now n)
                         {| raw_id := None; status_code := status |})
                    _ (FIAT_CURRENCIES c)
                    (exchangerate_step_cases float_of_str c (strftime_now n)
                       status rates)
                    (FIAT_CURRENCIES c) [] batch
                    (incl_refl _) Her (fun _ _ H => H)
                    (fun _ (H : In _ []) => match H with end) Hrates key Hkey)
        as (code & Hin & Hdir & r & Hd & Hi).
      exists code, r. eexists _, _.
      split; [exact Hin|]. split; [exact Hdir|].
      split; [exact Hd|]. split; [reflexivity|].
      split; [exact Hi | reflexivity]. }
    destruct (json_get_default "rates" JNull data) as [rates0 | e];
      cbn in Hrun; [|discriminate].
    destruct (json_truthy rates0); cbn in Hrun; [by apply (Hloop rates0)|].
    destruct (json_get_default "conversion_rates" JNull data)
      as [rates1 | e]; cbn in Hrun; [by apply (Hloop rates1) | discriminate].
Qed.

Lemma providers_report_both_directions_witness :
  coingecko_fetch_rates no_float noon default_config sample_response 0
  ≠ Raise ZeroDivisionError
  ∧ (∃ code id r qd qi,
       In (code, id) (CRYPTO_ID_MAP default_config)
       ∧ ("USD_SOL" = code +:+ "_" +:+ "USD" ∨ "USD_SOL" = "USD" +:+ "_" +:+ code)
       ∧ dict_get (code +:+ "_" +:+ "USD") sample_coingecko_batch = Some qd
       ∧ q_rate qd = Some r
       ∧ dict_get ("USD" +:+ "_" +:+ code) sample_coingecko_batch = Some qi
       ∧ q_rate qi = Some (inverse_of r))
  ∧ (∃ code r qd qi,
       In code (FIAT_CURRENCIES default_config)
       ∧ ("EUR_USD" = "USD" +:+ "_" +:+ code ∨ "EUR_USD" = code +:+ "_" +:+ "USD")
       ∧ dict_get ("USD" +:+ "_" +:+ code) sample_exchangerate_batch = Some qd
       ∧ q_rate qd = Some r
       ∧ dict_get (code +:+ "_" +:+ "USD") sample_exchangerate_batch = Some qi
       ∧ q_rate qi = Some (inverse_of r)).
Proof.
  destruct default_config_keys_differ as [Hcg Her].
  destruct (providers_report_both_directions no_float noon default_config
              sample_response 0 Hcg Her)
    as (_ & Hsafe & _ & Hcoingecko & Hexchangerate).
  split; [exact Hsafe|]. split.
  - apply (Hcoingecko sample_coingecko_batch "USD_SOL");
      [vm_compute; reflexivity | cbn; tauto].
  - apply (Hexchangerate sample_exchangerate_batch "EUR_USD");
      [vm_compute; reflexivity | cbn; tauto].
Defined.

(** With two configured providers of which one fails with an
    [ApiRequestError] and the other returns a batch of pair keys, in either
    order, [run_update] returns: the run is not aborted, its error list is
    exactly the text of that one error, the batch is counted as fetched, and
    the stored snapshot holds the prior pairs merged with the batch -- so
    every key of the batch is stored, and a batch that is not empty makes
    the run write the file. *)
Theorem one_failure_is_not_fatal (float_of_str : string -> option float)
    (strftime_now isoformat_now : nat -> string) (u : RatesUpdater)
    (c1 c2 : ApiClient) (w : World) (reason : string) (batch : Batch) :
  clients u = [c1; c2] →
  pair_keys batch →
  (fails_with float_of_str strftime_now (cfg u) c1 reason
   ∧ fst (fetch_rates float_of_str strftime_now (cfg u) c2
            (snd (fetch_rates float_of_str strftime_now (cfg u) c1 w)))
     = Ok batch)
  ∨ (fst (fetch_rates float_of_str strftime_now (cfg u) c1 w) = Ok batch
     ∧ fails_with float_of_str strftime_now (cfg u) c2 reason) →
  let merged := merge_batch (file_pairs (snapshot_file w)) batch in
  ∃ res w',
    run_update float_of_str strftime_now isoformat_now u None w = (Ok res, w')
    ∧ errors res = [exn_str (ApiRequestError reason)]
    ∧ fetched res = length batch
    ∧ total res = size merged
    ∧ file_pairs (snapshot_file w') = merged
    ∧ (∀ k, In k (dict_keys batch) →
            is_Some (file_pairs (snapshot_file w') !! k))
    ∧ (batch ≠ [] →
       ∃ t, snapshot_file w'
            = Stored {| pairs := Some merged;
                        last_refresh := Some (strftime_now t) |}).
Proof.
  intros Hclients Hkeys Hcase. cbn zeta.
  set (m := file_pairs (snapshot_file w)).
  assert (Hloop : ∃ w1,
    run_clients float_of_str strftime_now (cfg u) [c1; c2] m [] 0 w
    = (Ok (merge_batch m batch, [exn_str (ApiRequestError reason)],
           length batch), w1)
    ∧ snapshot_file w1 = snapshot_file w).
  { cbn [run_clients].
    pose proof (fetch_rates_files float_of_str strftime_now (cfg u) c1 w)
      as [Hs1 _].
    destruct Hcase as [[Hfail Hok] | [Hok Hfail]].
    - specialize (Hfail w).
      destruct (fetch_rates float_of_str strftime_now (cfg u) c1 w)
        as [fr1 w1]. cbn in Hfail, Hok, Hs1. subst fr1.
      pose proof (fetch_rates_files float_of_str strftime_now (cfg u) c2 w1)
        as [Hs2 _].
      destruct (fetch_rates float_of_str strftime_now (cfg u) c2 w1)
        as [fr2 w2]. cbn in Hok, Hs2. subst fr2.
      destruct (process_pair_keys strftime_now batch m w2 Hkeys)
        as (w3 & -> & Hs3).
      exists w3. split; [reflexivity | congruence].
    - destruct (fetch_rates float_of_str strftime_now (cfg u) c1 w)
        as [fr1 w1]. cbn in Hok, Hs1. subst fr1.
      destruct (process_pair_keys strftime_now batch m w1 Hkeys)
        as (w2 & -> & Hs2).
      specialize (Hfail w2).
      pose proof (fetch_rates_files float_of_str strftime_now (cfg u) c2 w2)
        as [Hs3 _].
      destruct (fetch_rates float_of_str strftime_now (cfg u) c2 w2)
        as [fr2 w3]. cbn in Hfail, Hs3. subst fr2.
      exists w3. split; [reflexivity | congruence]. }
  destruct Hloop as (w1 & Hloop & Hs).
  unfold run_update, read_snapshot.
  assert (Hexisting :
    ∃ s, match open_and_load (snapshot_file w) with
         | Ok doc => Ok doc
         | Raise _ => Ok empty_snapshot
         end = Ok s
         ∧ default ∅ (pairs s) = m).
  { subst m. destruct (snapshot_file w) as [| |doc].
    - by exists empty_snapshot.
    - by exists empty_snapshot.
    - by exists doc. }
  destruct Hexisting as (s & -> & ->).
  unfold run_update_from. cbn [_select_clients_by_source].
  rewrite Hclients, Hloop. cbn [_build_result].
  assert (Hpersist :
    file_pairs (snapshot_file
                  match size (merge_batch m batch) with
                  | O => w1
                  | S _ => write_snapshot strftime_now (merge_batch m batch) w1
                  end) = merge_batch m batch).
  { apply persisted_pairs. intros k Hk. rewrite Hs in Hk.
    by apply merge_batch_keeps_keys. }
  eexists _, _. split; [reflexivity|]. cbn.
  split; [reflexivity|]. split; [reflexivity|]. split; [reflexivity|].
  split; [exact Hpersist|]. split.
  - intros k Hk. rewrite Hpersist. by apply merge_batch_has_keys.
  - intros Hne. destruct batch as [|[key q] batch']; [done|].
    destruct (size (merge_batch m ((key, q) :: batch'))) eqn:Hsize.
    + apply map_size_empty_iff in Hsize.
      destruct (merge_batch_has_keys ((key, q) :: batch') m key) as [e He];
        [by left|].
      rewrite Hsize, lookup_empty in He. discriminate He.
    + by exists (ticks w1).
Qed.

Lemma one_failure_is_not_fatal_witness :
  ∃ res w',
    run_update no_float noon noon_iso eth_only_updater None world_jan1
    = (Ok res, w')
    ∧ errors res
      = ["Ошибка при обращении к API: Ошибка запроса ExchangeRate API: Read timed out."]
    ∧ fetched res = 2
    ∧ is_Some (file_pairs (snapshot_file w') !! "ETH_USD")
    ∧ is_Some (file_pairs (snapshot_file w') !! "USD_ETH").
Proof.
  assert (Hkeys : pair_keys eth_batch).
  { apply (shipped_clients_return_pair_keys no_float noon default_config
             (HttpResponse 200
                (JObj [("ethereum", JObj [("usd", JNum 3000)])])) 0).
    left. reflexivity. }
  destruct (one_failure_is_not_fatal no_float noon noon_iso eth_only_updater
              (CoinGeckoClient
                 (HttpResponse 200
                    (JObj [("ethereum", JObj [("usd", JNum 3000)])])))
              (ExchangeRateApiClient (HttpRequestException "Read timed out."))
              world_jan1 "Ошибка запроса ExchangeRate API: Read timed out."
              eth_batch eq_refl Hkeys
              (or_intror (conj eq_refl (fun w0 => eq_refl))))
    as (res & w' & Hrun & Herrors & Hfetched & _ & _ & Hstored & _).
  exists res, w'.
  split; [exact Hrun|]. split; [exact Herrors|]. split; [exact Hfetched|].
  split; apply Hstored; cbn; tauto.
Defined.

(** C7 (the code departs from the claim).  A provider also fails when its
    response holds a value that is no number.  [CoinGeckoClient.fetch_rates]
    converts the prices outside its [try], so for the body
    [{"bitcoin": {"usd": "n/a"}}] it raises [ValueError], which [run_update]
    does not catch: with ExchangeRate answering a rate for EUR, the run is
    aborted, ExchangeRate's pairs are neither merged nor persisted, the
    snapshot and the history stay as they were, and no result with an error
    list is returned.  ExchangeRate's client alone does return its batch
    with USD_EUR there.  The loop of [ExchangeRateApiClient.fetch_rates]
    guards the same conversion: with the malformed value on its side the
    run completes without an error and stores the pairs of both
    providers. *)
Theorem malformed_price_aborts_merge :
  let out := run_update no_float noon noon_iso bad_price_updater None
                        world_jan1 in
  (∃ msg, fst out = Raise (ValueError msg))
  ∧ (∀ res, fst out ≠ Ok res)
  ∧ snapshot_file (snd out) = snapshot_file world_jan1
  ∧ history_file (snd out) = history_file world_jan1
  ∧ file_pairs (snapshot_file (snd out)) !! "USD_EUR" = None
  ∧ (∃ batch,
       fst (fetch_rates no_float noon default_config
              (ExchangeRateApiClient
                 (HttpResponse 200 (JObj [("rates", JObj [("EUR", JNum 0.5)])])))
              world_jan1) = Ok batch
       ∧ is_Some (dict_get "USD_EUR" batch))
  ∧ (∃ res,
       let guarded := run_update no_float noon noon_iso bad_rate_updater None
                                 world_jan1 in
       fst guarded = Ok res
       ∧ errors res = []
       ∧ is_Some (file_pairs (snapshot_file (snd guarded)) !! "ETH_USD")
       ∧ is_Some (file_pairs (snapshot_file (snd guarded)) !! "USD_GBP")
       ∧ file_pairs (snapshot_file (snd guarded)) !! "USD_EUR" = None).
Proof.
  cbn zeta. split; [eexists; vm_compute; reflexivity|].
  split; [intros res; vm_compute; discriminate|].
  split; [vm_compute; reflexivity|].
  split; [vm_compute; reflexivity|].
  split; [vm_compute; reflexivity|].
  split.
  - eexists. split; [vm_compute; reflexivity|]. vm_compute. by eexists.
  - eexists. split; [vm_compute; reflexivity|].
    split; [vm_compute; reflexivity|].
    split; [vm_compute; by eexists|].
    split; [vm_compute; by eexists|].
    vm_compute. reflexivity.
Qed.



(** C9.  The conversion look-up terminates on every input.  The two look-ups
    the bridged step makes have "USD" as their target or as their source, and
    such a look-up answers within a single call, because the guard of the
    bridging branch fails for it.  Hence one level of nesting is all the
    function ever uses: with room for it the function returns, and any
    larger allowance gives the same answer. *)
Theorem conversion_rate_terminates (f : File Snapshot) (a b : string)
    (fuel : nat) :
  (2 ≤ fuel)%nat →
  is_Some (_get_conversion_rate 1 f a "USD")
  ∧ is_Some (_get_conversion_rate 1 f "USD" b)
  ∧ ∃ r, _get_conversion_rate 2 f a b = Some r
         ∧ _get_conversion_rate fuel f a b = Some r.
Proof.
  intros Hfuel.
  destruct fuel as [|[|n]]; [lia | lia |].
  split; [apply (usd_lookup_no_recursion f a "USD" 0); by right|].
  split; [apply (usd_lookup_no_recursion f "USD" b 0); by left|].
  destruct (two_calls_suffice f a b n) as [Heq [r Hr]].
  exists r. by rewrite Heq.
Qed.

Lemma conversion_rate_terminates_witness :
  (2 ≤ 5)%nat
  ∧ is_Some (_get_conversion_rate 1 usd_eur_jpy_file "EUR" "USD")
  ∧ is_Some (_get_conversion_rate 1 usd_eur_jpy_file "USD" "JPY")
  ∧ ∃ r, _get_conversion_rate 2 usd_eur_jpy_file "EUR" "JPY" = Some r
         ∧ _get_conversion_rate 5 usd_eur_jpy_file "EUR" "JPY" = Some r.
Proof.
  split; [lia|].
  apply (conversion_rate_terminates usd_eur_jpy_file "EUR" "JPY" 5). lia.
Defined.

(** C10.  Reading the snapshot store returns in every state of the store:
    the stored document when there is one, and the empty snapshot
    [{"pairs": {}, "last_refresh": None}] when the file is missing or cannot
    be parsed.  A merge run over such a store therefore is the run that
    starts from the empty pair mapping. *)
Theorem read_snapshot_total (w : World) :
  (∃ s, read_snapshot w = Ok s)
  ∧ (∀ doc, snapshot_file w = Stored doc → read_snapshot w = Ok doc)
  ∧ (snapshot_file w = Missing ∨ snapshot_file w = Unparseable →
     read_snapshot w = Ok empty_snapshot
     ∧ pairs empty_snapshot = Some ∅
     ∧ last_refresh empty_snapshot = None
     ∧ ∀ float_of_str strftime_now isoformat_now u src,
         run_update float_of_str strftime_now isoformat_now u src w
         = run_update_from float_of_str strftime_now isoformat_now u src ∅ w).
Proof.
  unfold run_update, read_snapshot.
  split; [|split].
  - destruct (snapshot_file w); by eexists.
  - by intros doc ->.
  - intros [-> | ->]; cbn; repeat split; reflexivity.
Qed.

Lemma read_snapshot_total_witness :
  read_snapshot fresh_world = Ok empty_snapshot
  ∧ read_snapshot corrupt_world = Ok empty_snapshot
  ∧ run_update no_float noon noon_iso no_clients None corrupt_world
    = (Ok {| total := 0; fetched := 0; errors := [];
             r_last_refresh := "2024-06-01T12:00:00.000000Z" |},
       tick corrupt_world).
Proof.
  destruct (read_snapshot_total fresh_world) as (_ & _ & Hfresh).
  destruct (read_snapshot_total corrupt_world) as (_ & _ & Hcorrupt).
  split; [apply Hfresh; by left|].
  split; [apply Hcorrupt; by right|].
  destruct (Hcorrupt (or_intror eq_refl)) as (_ & _ & _ & ->).
  reflexivity.
Defined.

(* ===================================================================== *)
(** * Further properties: the order of time stamps *)
(* ===================================================================== *)

Section StringOrder.
Implicit Types (a b c : string).

Lemma string_compare_refl a : String.compare a a = Eq.
Proof. by apply (OrderedTypeEx.String_as_OT.cmp_eq a a). Qed.

Lemma string_ltb_irrefl a : String.ltb a a = false.
Proof. unfold String.ltb. by rewrite string_compare_refl. Qed.

Lemma string_leb_refl a : String.leb a a = true.
Proof. unfold String.leb. by rewrite string_compare_refl. Qed.

Lemma string_ltb_leb_weaken a b : String.ltb a b = true → String.leb a b = true.
Proof. unfold String.ltb, String.leb. by destruct (String.compare a b). Qed.

Lemma string_compare_lt_trans a b c :
  String.compare a b = Lt → String.compare b c = Lt → String.compare a c = Lt.
Proof.
  intros Hab Hbc.
  apply OrderedTypeEx.String_as_OT.cmp_lt.
  apply OrderedTypeEx.String_as_OT.cmp_lt in Hab, Hbc.
  by apply (OrderedTypeEx.String_as_OT.lt_trans a b c).
Qed.

Lemma string_leb_trans a b c :
  String.leb a b = true → String.leb b c = true → String.leb a c = true.
Proof.
  unfold String.leb. intros Hab Hbc.
  destruct (String.compare a b) eqn:Eab; [| |discriminate].
  - apply String.compare_eq_iff in Eab. by subst b.
  - destruct (String.compare b c) eqn:Ebc; [| |discriminate].
    + apply String.compare_eq_iff in Ebc. subst c. by rewrite Eab.
    + by rewrite (string_compare_lt_trans a b c Eab Ebc).
Qed.
End StringOrder.

(* ===================================================================== *)
(** * Further properties: the merge *)
(* ===================================================================== *)

Section MergeAlgebra.
Implicit Types (m : gmap string PairEntry) (k key : string) (q : Quote)
  (batch : Batch).

(** What the update does at its key depends on the entry of that key only. *)
Lemma update_lookup_key_local m1 m2 key q :
  m1 !! key = m2 !! key →
  _update_combined_pairs m1 key q !! key
  = _update_combined_pairs m2 key q !! key.
Proof.
  intros H. unfold _update_combined_pairs. rewrite <- H.
  destruct (m1 !! key) as [e|] eqn:E.
  - destruct (String.ltb _ _); [by rewrite !lookup_insert_eq|].
    by rewrite E.
  - by rewrite !lookup_insert_eq.
Qed.

Lemma update_idempotent m key q :
  _update_combined_pairs (_update_combined_pairs m key q) key q
  = _update_combined_pairs m key q.
Proof.
  unfold _update_combined_pairs.
  destruct (m !! key) as [e|] eqn:He.
  - destruct (String.ltb _ _) eqn:Hlt.
    + rewrite lookup_insert_eq. cbn. by rewrite string_ltb_irrefl.
    + by rewrite He, Hlt.
  - rewrite lookup_insert_eq. cbn. by rewrite string_ltb_irrefl.
Qed.

Lemma dict_get_not_in {V} (d : list (string * V)) k :
  ¬ In k (dict_keys d) → dict_get k d = None.
Proof.
  induction d as [|[k0 v0] d IH]; cbn; [reflexivity|].
  intros Hk. destruct (String.eqb_spec k k0) as [-> | _]; [tauto|].
  apply IH. tauto.
Qed.

(** With the keys of a batch all different, the merged entry of a key is
    what the update with the batch's quote for that key makes of the prior
    entry. *)
Lemma merge_batch_lookup batch m k :
  NoDup (dict_keys batch) →
  merge_batch m batch !! k
  = match dict_get k batch with
    | Some q => _update_combined_pairs m k q !! k
    | None => m !! k
    end.
Proof.
  revert m. induction batch as [|[key q] batch IH]; intros m Hnd;
    [reflexivity|].
  cbn [dict_keys map fst] in Hnd. apply NoDup_cons in Hnd as [Hkey Hnd].
  rewrite list_elem_of_In in Hkey. fold (dict_keys batch) in Hkey, Hnd.
  rewrite merge_batch_cons, (IH _ Hnd). cbn [dict_get].
  destruct (String.eqb_spec k key) as [-> | Hne].
  - by rewrite (dict_get_not_in batch key Hkey).
  - destruct (dict_get k batch) as [q'|].
    + apply update_lookup_key_local. by apply update_lookup_other.
    + by apply update_lookup_other.
Qed.

Lemma update_not_older m key q : not_older m (_update_combined_pairs m key q).
Proof.
  intros k e Hk. unfold _update_combined_pairs.
  destruct (m !! key) as [e0|] eqn:He0.
  - destruct (String.ltb _ _) eqn:Hlt.
    + destruct (String.eqb_spec k key) as [-> | Hne].
      * rewrite lookup_insert_eq. eexists. split; [reflexivity|].
        rewrite Hk in He0. injection He0 as <-.
        by apply string_ltb_leb_weaken.
      * rewrite lookup_insert_ne by congruence.
        exists e. split; [exact Hk | apply string_leb_refl].
    + exists e. split; [exact Hk | apply string_leb_refl].
  - destruct (String.eqb_spec k key) as [-> | Hne]; [congruence|].
    rewrite lookup_insert_ne by congruence.
    exists e. split; [exact Hk | apply string_leb_refl].
Qed.

Lemma not_older_refl m : not_older m m.
Proof. intros k e Hk. exists e. split; [exact Hk | apply string_leb_refl]. Qed.

Lemma not_older_trans m1 m2 m3 :
  not_older m1 m2 → not_older m2 m3 → not_older m1 m3.
Proof.
  intros H12 H23 k e Hk.
  destruct (H12 k e Hk) as (e2 & Hk2 & Hle2).
  destruct (H23 k e2 Hk2) as (e3 & Hk3 & Hle3).
  exists e3. split; [exact Hk3|]. by apply (string_leb_trans _ (stamp e2)).
Qed.

Lemma merge_batch_not_older batch m : not_older m (merge_batch m batch).
Proof.
  revert m. induction batch as [|[key q] batch IH]; intros m;
    [apply not_older_refl|].
  rewrite merge_batch_cons.
  eapply not_older_trans; [apply update_not_older | apply IH].
Qed.

Lemma update_size m key q :
  (size m ≤ size (_update_combined_pairs m key q))%nat
  ∧ (size (_update_combined_pairs m key q) ≤ S (size m))%nat.
Proof.
  unfold _update_combined_pairs.
  destruct (m !! key) as [e|] eqn:He.
  - destruct (String.ltb _ _); [|lia].
    rewrite map_size_insert_Some by (by exists e). lia.
  - rewrite map_size_insert_None by exact He. lia.
Qed.

Lemma merge_batch_size batch m :
  (size m ≤ size (merge_batch m batch))%nat
  ∧ (size (merge_batch m batch) ≤ size m + length batch)%nat.
Proof.
  revert m. induction batch as [|[key q] batch IH]; intros m; [cbn; lia|].
  rewrite merge_batch_cons. cbn [length].
  pose proof (update_size m key q). pose proof (IH (_update_combined_pairs m key q)).
  lia.
Qed.
End MergeAlgebra.

(* ===================================================================== *)
(** * Further properties: what a run accounts for *)
(* ===================================================================== *)

Section RunAccounting.
Variable float_of_str : string -> option float.
Variable strftime_now : nat -> string.
Variable isoformat_now : nat -> string.
Implicit Types (m : gmap string PairEntry) (w : World) (batch : Batch).

Lemma history_records_append record w :
  history_records (append_record record w) = history_records w ++ [record].
Proof. unfold history_records, append_record. by destruct (history_file w). Qed.

(** Processing a batch logs one record for each quote it gets to, in the
    order of the batch, after the records that were there. *)
Lemma process_client_data_log batch m w :
  ∃ r m' w' processed rest new,
    _process_client_data strftime_now batch m w = (r, m', w')
    ∧ batch = processed ++ rest
    ∧ m' = merge_batch m processed
    ∧ history_records w' = history_records w ++ new
    ∧ Forall2 logs_quote new processed
    ∧ snapshot_file w' = snapshot_file w
    ∧ (r = Ok tt → rest = [])
    ∧ (∀ e, r = Raise e → ∃ msg, e = ValueError msg).
Proof.
  revert m w. induction batch as [|[key q] batch IH]; intros m w.
  - exists (Ok tt), m, w, [], [], [].
    rewrite (app_nil_r (history_records w)). repeat split; try reflexivity; [constructor|].
    intros e [=].
  - cbn [_process_client_data].
    destruct (split_underscore key) as [[from_code to_code]|] eqn:Hsplit.
    + cbn [_get_timestamp].
      match goal with
      | |- context [_process_client_data _ batch ?m1 (append_record ?rec ?w0)] =>
          destruct (IH m1 (append_record rec w0))
            as (r & m' & w' & processed & rest & new & Hrun & Hb & Hm & Hh
                & Hlog & Hs & Hok & Hraise);
          exists r, m', w', ((key, q) :: processed), rest, (rec :: new)
      end.
      rewrite Hrun. split; [reflexivity|]. split; [by rewrite Hb|].
      split; [exact Hm|]. split.
      { rewrite Hh, history_records_append, <- app_assoc. reflexivity. }
      split.
      { constructor; [|exact Hlog].
        exists from_code, to_code. cbn.
        repeat split; try reflexivity; try exact Hsplit.
        by intros ts ->. }
      split; [exact Hs|]. by split.
    + exists (Raise (ValueError "not enough values to unpack (expected 2, got 1)")),
        m, w, [], ((key, q) :: batch), [].
      rewrite (app_nil_r (history_records w)). repeat split; try reflexivity; [constructor| |].
      * intros [=].
      * intros e [= <-]. by eexists.
Qed.

Lemma fetch_rates_history c client w :
  history_records (snd (fetch_rates float_of_str strftime_now c client w))
  = history_records w.
Proof.
  unfold history_records.
  by rewrite (proj2 (fetch_rates_files float_of_str strftime_now c client w)).
Qed.

(** The loop over the clients: the log grows by as many records as quotes
    are counted as fetched, the pairs grow by at most that many keys and
    never get older, each client adds at most one error text, and no
    [ApiRequestError] leaves the loop. *)
Lemma run_clients_accounting c (target : list ApiClient) m errs
    (fetched_so_far : nat) w :
  ∃ r w' new,
    run_clients float_of_str strftime_now c target m errs fetched_so_far w
    = (r, w')
    ∧ history_records w' = history_records w ++ new
    ∧ snapshot_file w' = snapshot_file w
    ∧ (∀ e, r = Raise e → ∀ reason, e ≠ ApiRequestError reason)
    ∧ ∀ m' errs' fetched',
        r = Ok (m', errs', fetched') →
        fetched' = fetched_so_far + length new
        ∧ not_older m m'
        ∧ (size m ≤ size m')%nat
        ∧ (size m' ≤ size m + length new)%nat
        ∧ ∃ errs_new, errs' = errs ++ errs_new
                      ∧ (length errs_new ≤ length target)%nat.
Proof.
  revert m errs fetched_so_far w.
  induction target as [|client target IH]; intros m errs fetched_so_far w.
  - exists (Ok (m, errs, fetched_so_far)), w, [].
    rewrite (app_nil_r (history_records w)).
    split; [reflexivity|]. split; [reflexivity|].
    split; [reflexivity|]. split; [intros e [=]|].
    intros m' errs' fetched' [= <- <- <-]. cbn.
    split; [lia|]. split; [apply not_older_refl|]. split; [lia|].
    split; [lia|]. exists []. by rewrite app_nil_r.
  - cbn [run_clients].
    pose proof (fetch_rates_history c client w) as Hh1.
    pose proof (proj1 (fetch_rates_files float_of_str strftime_now c client w))
      as Hs1.
    destruct (fetch_rates float_of_str strftime_now c client w)
      as [fr w1]. cbn [snd] in Hh1, Hs1.
    assert (Hfail : ∀ reason,
      ∃ r w' new,
        run_clients float_of_str strftime_now c target m
          (errs ++ [exn_str (ApiRequestError reason)]) fetched_so_far w1
        = (r, w')
        ∧ history_records w' = history_records w ++ new
        ∧ snapshot_file w' = snapshot_file w
        ∧ (∀ e, r = Raise e → ∀ reason, e ≠ ApiRequestError reason)
        ∧ ∀ m' errs' fetched',
            r = Ok (m', errs', fetched') →
            fetched' = fetched_so_far + length new
            ∧ not_older m m'
            ∧ (size m ≤ size m')%nat
            ∧ (size m' ≤ size m + length new)%nat
            ∧ ∃ errs_new, errs' = errs ++ errs_new
                          ∧ (length errs_new ≤ length (client :: target))%nat).
    { intros reason.
      destruct (IH m (errs ++ [exn_str (ApiRequestError reason)])
                   fetched_so_far w1)
        as (r & w' & new & -> & Hh & Hs & Hraise & Hres).
      exists r, w', new. split; [reflexivity|].
      split; [congruence|]. split; [congruence|]. split; [exact Hraise|].
      intros m' errs' fetched' Hr.
      destruct (Hres m' errs' fetched' Hr)
        as (Hf & Hno & Hlo & Hhi & errs_new & -> & Hlen).
      repeat (split; [assumption|]).
      exists (exn_str (ApiRequestError reason) :: errs_new).
      rewrite <- app_assoc. split; [reflexivity | cbn; lia]. }
    destruct fr as [batch | e].
    + destruct (process_client_data_log batch m w1)
        as (pr & m1 & w2 & processed & rest & new1 & Hrun & Hb & Hm1 & Hh2
            & Hlog & Hs2 & Hok & Hraise2).
      rewrite Hrun. destruct pr as [[] | e].
      * specialize (Hok eq_refl). subst rest. rewrite app_nil_r in Hb.
        subst processed.
        destruct (IH m1 errs (fetched_so_far + length batch) w2)
          as (r & w' & new & -> & Hh & Hs & Hraise & Hres).
        exists r, w', (new1 ++ new). split; [reflexivity|].
        split; [rewrite Hh, Hh2, Hh1; by rewrite app_assoc|].
        split; [congruence|]. split; [exact Hraise|].
        intros m' errs' fetched' Hr.
        destruct (Hres m' errs' fetched' Hr)
          as (Hf & Hno & Hlo & Hhi & errs_new & -> & Hlen).
        pose proof (Forall2_length _ _ _ Hlog) as Hlen1.
        pose proof (merge_batch_size batch m) as [Hlo1 Hhi1].
        rewrite <- Hm1 in Hlo1, Hhi1.
        rewrite length_app.
        split; [lia|].
        split; [eapply not_older_trans; [|exact Hno];
                rewrite Hm1; apply merge_batch_not_older|].
        split; [lia|]. split; [lia|].
        exists errs_new. split; [reflexivity | cbn; lia].
      * destruct (Hraise2 e eq_refl) as [msg ->].
        exists (Raise (ValueError msg)), w2, new1.
        split; [reflexivity|]. split; [congruence|]. split; [congruence|].
        split; [intros e [= <-] reason; discriminate|].
        intros m' errs' fetched' [=].
    + destruct e as [reason| | | | | | |];
        [apply Hfail | ..];
        (eexists _, w1, []; rewrite (app_nil_r (history_records w));
         split; [reflexivity|]; split; [exact Hh1|];
         split; [exact Hs1|];
         split; [intros e [= <-] ?; discriminate | intros ? ? ? [=]]).
Qed.
End RunAccounting.

Section RunUpdateFacts.
Variable float_of_str : string -> option float.
Variable strftime_now : nat -> string.
Variable isoformat_now : nat -> string.

(** [run_update] starts from the pairs a reader of the snapshot file sees. *)
Lemma run_update_unfold (u : RatesUpdater) (src : option string) (w : World) :
  run_update float_of_str strftime_now isoformat_now u src w
  = run_update_from float_of_str strftime_now isoformat_now u src
                    (file_pairs (snapshot_file w)) w.
Proof. unfold run_update, read_snapshot. by destruct (snapshot_file w). Qed.

(** What a run of [run_update] accounts for, whether it returns or raises. *)
Lemma run_update_accounting (u : RatesUpdater) (src : option string)
    (w : World) :
  ∃ r w' new,
    run_update float_of_str strftime_now isoformat_now u src w = (r, w')
    ∧ history_records w' = history_records w ++ new
    ∧ not_older (file_pairs (snapshot_file w)) (file_pairs (snapshot_file w'))
    ∧ (∀ e, r = Raise e →
            snapshot_file w' = snapshot_file w
            ∧ ∀ reason, e ≠ ApiRequestError reason)
    ∧ ∀ res, r = Ok res →
        fetched res = length new
        ∧ total res = size (file_pairs (snapshot_file w'))
        ∧ (size (file_pairs (snapshot_file w)) ≤ total res)%nat
        ∧ (total res ≤ size (file_pairs (snapshot_file w)) + fetched res)%nat
        ∧ (length (errors res)
           ≤ length (_select_clients_by_source u src))%nat.
Proof.
  rewrite run_update_unfold. unfold run_update_from.
  destruct (run_clients_accounting float_of_str strftime_now (cfg u)
              (_select_clients_by_source u src)
              (file_pairs (snapshot_file w)) [] 0 w)
    as (r & w1 & new & -> & Hh & Hs & Hraise & Hres).
  destruct r as [[[m' errs'] fetched'] | e].
  - destruct (Hres m' errs' fetched' eq_refl)
      as (Hf & Hno & Hlo & Hhi & errs_new & Herrs & Hlen).
    cbn in Hf, Herrs. subst fetched' errs'.
    assert (Hpersist :
      file_pairs (snapshot_file
                    match size m' with
                    | O => w1
                    | S _ => write_snapshot strftime_now m' w1
                    end) = m').
    { apply persisted_pairs. intros k [e He]. rewrite Hs in He.
      destruct (Hno k e He) as (e' & He' & _). by exists e'. }
    cbn [_build_result]. eexists _, _, new. split; [reflexivity|].
    cbn [snapshot_file history_file tick].
    split.
    { rewrite <- Hh. unfold history_records. by destruct (size m'). }
    split; [by rewrite Hpersist|].
    split; [intros e [=]|].
    intros res [= <-]. cbn. rewrite Hpersist.
    repeat split; try lia.
  - exists (Raise e), w1, new. split; [reflexivity|]. split; [exact Hh|].
    split; [rewrite Hs; apply not_older_refl|].
    split; [|intros res [=]].
    intros e' [= <-]. split; [exact Hs | by apply Hraise].
Qed.
End RunUpdateFacts.

(* ===================================================================== *)
(** * Further properties of the code *)
(* ===================================================================== *)

(** X1.  The history log is append-only over a run of [run_update]: the
    records that could be read before the run are still there, in front,
    whether the run returns or raises; and a run that returns has appended
    exactly as many records as it reports as fetched. *)
Theorem run_update_appends_history (float_of_str : string -> option float)
    (strftime_now isoformat_now : nat -> string) (u : RatesUpdater)
    (src : option string) (w : World) :
  let out := run_update float_of_str strftime_now isoformat_now u src w in
  ∃ new,
    history_records (snd out) = history_records w ++ new
    ∧ ∀ res, fst out = Ok res → length new = fetched res.
Proof.
  cbn zeta.
  destruct (run_update_accounting float_of_str strftime_now isoformat_now
              u src w)
    as (r & w' & new & -> & Hh & _ & _ & Hres).
  exists new. split; [exact Hh|].
  intros res Hr. by destruct (Hres res Hr) as (-> & _).
Qed.

Lemma run_update_appends_history_witness :
  ∃ new,
    history_records
      (snd (run_update no_float noon noon_iso eth_only_updater None world_jan1))
    = history_records world_jan1 ++ new
    ∧ length new = 2.
Proof.
  destruct (run_update_appends_history no_float noon noon_iso
              eth_only_updater None world_jan1) as (new & Hh & Hlen).
  exists new. split; [exact Hh|].
  apply (Hlen eth_run_result). vm_compute. reflexivity.
Defined.

(** X2.  When [run_update] returns, the total it reports is the number of
    pairs the snapshot file then holds; it is at least the number of pairs
    before the run and exceeds it by at most the number of quotes fetched;
    and there is at most one error text for each selected client. *)
Theorem run_update_total_is_stored_count
    (float_of_str : string -> option float)
    (strftime_now isoformat_now : nat -> string) (u : RatesUpdater)
    (src : option string) (w : World) (res : RefreshResult) :
  let out := run_update float_of_str strftime_now isoformat_now u src w in
  fst out = Ok res →
  total res = size (file_pairs (snapshot_file (snd out)))
  ∧ (size (file_pairs (snapshot_file w)) ≤ total res)%nat
  ∧ (total res ≤ size (file_pairs (snapshot_file w)) + fetched res)%nat
  ∧ (length (errors res) ≤ length (_select_clients_by_source u src))%nat.
Proof.
  cbn zeta.
  destruct (run_update_accounting float_of_str strftime_now isoformat_now
              u src w)
    as (r & w' & new & -> & _ & _ & _ & Hres).
  intros Hr. by destruct (Hres res Hr) as (_ & H).
Qed.

Lemma run_update_total_is_stored_count_witness :
  total eth_run_result
  = size (file_pairs (snapshot_file
            (snd (run_update no_float noon noon_iso eth_only_updater None
                             world_jan1))))
  ∧ (size (file_pairs (snapshot_file world_jan1)) ≤ total eth_run_result)%nat
  ∧ (total eth_run_result
     ≤ size (file_pairs (snapshot_file world_jan1)) + fetched eth_run_result)%nat
  ∧ (length (errors eth_run_result)
     ≤ length (_select_clients_by_source eth_only_updater None))%nat.
Proof.
  apply (run_update_total_is_stored_count no_float noon noon_iso
           eth_only_updater None world_jan1 eth_run_result).
  vm_compute. reflexivity.
Defined.

(** X3.  A run of [run_update] never puts an older entry in the place of a
    newer one: a key of the snapshot before the run is there after it, under
    an [updated_at] that is not smaller as a string, whether the run returns
    or raises. *)
Theorem run_update_never_backdates (float_of_str : string -> option float)
    (strftime_now isoformat_now : nat -> string) (u : RatesUpdater)
    (src : option string) (w : World) (k : string) (e : PairEntry) :
  let out := run_update float_of_str strftime_now isoformat_now u src w in
  file_pairs (snapshot_file w) !! k = Some e →
  ∃ e', file_pairs (snapshot_file (snd out)) !! k = Some e'
        ∧ String.leb (default EmptyString (updated_at e))
                     (default EmptyString (updated_at e')) = true.
Proof.
  cbn zeta.
  destruct (run_update_accounting float_of_str strftime_now isoformat_now
              u src w)
    as (r & w' & new & -> & _ & Hno & _).
  intros Hk. exact (Hno k e Hk).
Qed.

Lemma run_update_never_backdates_witness :
  ∃ e', file_pairs (snapshot_file
          (snd (run_update no_float noon noon_iso eth_only_updater None
                           world_jan1))) !! "BTC_USD" = Some e'
        ∧ String.leb "2024-01-01T00:00:00Z"
                     (default EmptyString (updated_at e')) = true.
Proof.
  apply (run_update_never_backdates no_float noon noon_iso eth_only_updater
           None world_jan1 "BTC_USD" btc_entry_jan1).
  reflexivity.
Defined.

(** X4.  [run_update] writes the snapshot as its last step only: a run that
    raises leaves the snapshot file as it was.  What it raises is never an
    [ApiRequestError]: those are caught and reported in the result. *)
Theorem aborted_run_leaves_snapshot (float_of_str : string -> option float)
    (strftime_now isoformat_now : nat -> string) (u : RatesUpdater)
    (src : option string) (w : World) (e : exn) :
  let out := run_update float_of_str strftime_now isoformat_now u src w in
  fst out = Raise e →
  snapshot_file (snd out) = snapshot_file w
  ∧ ∀ reason, e ≠ ApiRequestError reason.
Proof.
  cbn zeta.
  destruct (run_update_accounting float_of_str strftime_now isoformat_now
              u src w)
    as (r & w' & new & -> & _ & _ & Hraise & _).
  intros Hr. exact (Hraise e Hr).
Qed.

Lemma aborted_run_leaves_snapshot_witness :
  snapshot_file
    (snd (run_update no_float noon noon_iso bad_price_updater None world_jan1))
  = snapshot_file world_jan1
  ∧ ∀ reason,
      ValueError "could not convert string to float" ≠ ApiRequestError reason.
Proof.
  apply (aborted_run_leaves_snapshot no_float noon noon_iso bad_price_updater
           None world_jan1 (ValueError "could not convert string to float")).
  vm_compute. reflexivity.
Defined.

Section BatchAsDictionary.
Context {V : Type}.
Implicit Types (d : list (string * V)) (k : string) (v : V).

Lemma dict_get_Some_iff d k v :
  NoDup (dict_keys d) → dict_get k d = Some v ↔ In (k, v) d.
Proof.
  induction d as [|[k0 v0] d IH]; intros Hnd; cbn; [by split|].
  cbn [dict_keys map fst] in Hnd. apply NoDup_cons in Hnd as [Hk0 Hnd].
  rewrite list_elem_of_In in Hk0. fold (dict_keys d) in Hk0, Hnd.
  destruct (String.eqb_spec k k0) as [-> | Hne].
  - split.
    + intros [= ->]. by left.
    + intros [[= ->] | Hin]; [reflexivity|].
      exfalso. apply Hk0. by apply (in_map fst) in Hin.
  - rewrite (IH Hnd). split; [by right|].
    intros [[= -> _] | Hin]; [congruence | exact Hin].
Qed.

(** Two listings of the same dictionary answer every look-up alike. *)
Lemma dict_get_permutation d d' k :
  NoDup (dict_keys d) → Permutation d d' → dict_get k d = dict_get k d'.
Proof.
  intros Hnd Hperm.
  assert (Hnd' : NoDup (dict_keys d')).
  { unfold dict_keys. by rewrite <- Hperm. }
  destruct (dict_get k d) as [v|] eqn:Hd.
  - apply (dict_get_Some_iff d k v Hnd) in Hd.
    symmetry. apply (dict_get_Some_iff d' k v Hnd').
    by rewrite <- Hperm.
  - destruct (dict_get k d') as [v'|] eqn:Hd'; [|reflexivity].
    apply (dict_get_Some_iff d' k v' Hnd') in Hd'.
    rewrite <- Hperm in Hd'.
    apply (dict_get_Some_iff d k v' Hnd) in Hd'. congruence.
Qed.
End BatchAsDictionary.

Lemma merge_batch_idempotent (m : gmap string PairEntry) (batch : Batch) :
  NoDup (dict_keys batch) →
  merge_batch (merge_batch m batch) batch = merge_batch m batch.
Proof.
  intros Hnd. apply map_eq. intros k.
  rewrite (merge_batch_lookup batch (merge_batch m batch) k Hnd).
  pose proof (merge_batch_lookup batch m k Hnd) as Hk.
  destruct (dict_get k batch) as [q|]; [|reflexivity].
  rewrite (update_lookup_key_local (merge_batch m batch)
             (_update_combined_pairs m k q) k q)
    by (rewrite Hk; reflexivity).
  by rewrite update_idempotent.
Qed.

Lemma merge_batch_permutation (m : gmap string PairEntry)
    (batch batch' : Batch) :
  NoDup (dict_keys batch) →
  Permutation batch batch' →
  merge_batch m batch = merge_batch m batch'.
Proof.
  intros Hnd Hperm.
  assert (Hnd' : NoDup (dict_keys batch')).
  { unfold dict_keys. by rewrite <- Hperm. }
  apply map_eq. intros k.
  rewrite (merge_batch_lookup batch m k Hnd),
          (merge_batch_lookup batch' m k Hnd').
  by rewrite (dict_get_permutation batch batch' k Hnd Hperm).
Qed.

(** The combined pairs [_process_client_data] leaves behind for a batch of
    pair keys. *)
Lemma process_combined (strftime_now : nat -> string) (batch : Batch)
    (m : gmap string PairEntry) (w : World) :
  pair_keys batch →
  snd (fst (_process_client_data strftime_now batch m w))
  = merge_batch m batch.
Proof.
  intros Hkeys.
  destruct (process_pair_keys strftime_now batch m w Hkeys) as (w' & -> & _).
  reflexivity.
Qed.

(** X5.  Processing a batch is idempotent on the combined pairs: for a batch
    of pair keys that are all different, as those of a dictionary are,
    processing the batch again, at any later reading of the clock, leaves
    the combined pairs as the first processing made them. *)
Theorem process_client_data_idempotent (strftime_now : nat -> string)
    (batch : Batch) (m : gmap string PairEntry) (w w' : World) :
  NoDup (dict_keys batch) →
  pair_keys batch →
  let once := snd (fst (_process_client_data strftime_now batch m w)) in
  snd (fst (_process_client_data strftime_now batch once w')) = once.
Proof.
  intros Hnd Hkeys. cbn zeta.
  rewrite !process_combined by exact Hkeys.
  by apply merge_batch_idempotent.
Qed.

Lemma process_client_data_idempotent_witness :
  let once := snd (fst (_process_client_data noon eth_batch
                          {[ "BTC_USD" := btc_entry_jan1 ]} world_jan1)) in
  snd (fst (_process_client_data noon eth_batch once fresh_world)) = once.
Proof.
  apply process_client_data_idempotent.
  - apply (bool_decide_unpack _). vm_compute. reflexivity.
  - constructor; [by eexists|]. constructor; [by eexists|]. constructor.
Defined.

(** X6.  The order in which a batch lists its quotes does not matter to the
    combined pairs: two listings of the same dictionary of pair keys are
    processed into the same pairs. *)
Theorem process_client_data_order_irrelevant (strftime_now : nat -> string)
    (batch batch' : Batch) (m : gmap string PairEntry) (w w' : World) :
  NoDup (dict_keys batch) →
  pair_keys batch →
  Permutation batch batch' →
  snd (fst (_process_client_data strftime_now batch m w))
  = snd (fst (_process_client_data strftime_now batch' m w')).
Proof.
  intros Hnd Hkeys Hperm.
  assert (Hkeys' : pair_keys batch').
  { unfold pair_keys. by rewrite <- Hperm. }
  rewrite !process_combined by assumption.
  by apply merge_batch_permutation.
Qed.

Lemma process_client_data_order_irrelevant_witness :
  snd (fst (_process_client_data noon eth_batch
              {[ "BTC_USD" := btc_entry_jan1 ]} world_jan1))
  = snd (fst (_process_client_data noon (rev eth_batch)
                {[ "BTC_USD" := btc_entry_jan1 ]} world_jan1)).
Proof.
  apply process_client_data_order_irrelevant.
  - apply (bool_decide_unpack _). vm_compute. reflexivity.
  - constructor; [by eexists|]. constructor; [by eexists|]. constructor.
  - apply Permutation_rev.
Defined.

(** X7.  Every quote of a batch of pair keys is logged, whatever the
    combined pairs hold and whether or not the quote wins the merge: the
    log grows by one record per quote, in the order of the batch, each
    with the two halves of its key, the quote's rate, source and meta, and
    the quote's [updated_at] as time stamp. *)
Theorem process_client_data_logs_every_quote (strftime_now : nat -> string)
    (batch : Batch) (m : gmap string PairEntry) (w : World) :
  pair_keys batch →
  ∃ new,
    history_records (snd (_process_client_data strftime_now batch m w))
    = history_records w ++ new
    ∧ Forall2 logs_quote new batch.
Proof.
  intros Hkeys.
  destruct (process_client_data_log strftime_now batch m w)
    as (r & m' & w' & processed & rest & new & Hrun & Hb & _ & Hh & Hlog
        & _ & Hok & _).
  destruct (process_pair_keys strftime_now batch m w Hkeys) as (w2 & Hrun2 & _).
  rewrite Hrun in Hrun2. injection Hrun2 as -> _ _.
  specialize (Hok eq_refl). subst rest. rewrite app_nil_r in Hb. subst processed.
  rewrite Hrun. by exists new.
Qed.

Lemma process_client_data_logs_every_quote_witness :
  ∃ new,
    history_records
      (snd (_process_client_data noon
              [("BTC_USD", btc_quote 49000 "2023-12-31T00:00:00Z")]
              {[ "BTC_USD" := btc_entry_jan1 ]} world_jan1))
    = history_records world_jan1 ++ new
    ∧ Forall2 logs_quote new
        [("BTC_USD", btc_quote 49000 "2023-12-31T00:00:00Z")].
Proof.
  apply process_client_data_logs_every_quote.
  constructor; [by eexists | constructor].
Defined.

Section SelectFacts.
Implicit Types (u : RatesUpdater) (s : string).

Lemma lstrip_all_space s : all_space s = true → lstrip s = EmptyString.
Proof.
  induction s as [|c s IH]; [reflexivity|].
  cbn [all_space lstrip]. intros [Hc Hs]%andb_prop. rewrite Hc. by apply IH.
Qed.

Lemma py_strip_all_space s : all_space s = true → py_strip s = EmptyString.
Proof. intros Hs. unfold py_strip. by rewrite (lstrip_all_space s Hs). Qed.

Lemma filter_sublist {A} (f : A → bool) (l : list A) :
  sublist (List.filter f l) l.
Proof.
  induction l as [|x l IH]; cbn; [constructor|].
  destruct (f x); by constructor.
Qed.
End SelectFacts.

(** X8.  Selecting clients by source never invents or reorders clients: the
    selection is a sub-list of the configured clients.  Without a source,
    or with the empty one, it is all of them.  A source that is given
    selects clients of the two named classes only, and a source that
    consists of white space selects none. *)
Theorem select_clients_by_source_spec (u : RatesUpdater)
    (src : option string) :
  sublist (_select_clients_by_source u src) (clients u)
  ∧ (src = None ∨ src = Some EmptyString →
     _select_clients_by_source u src = clients u)
  ∧ (∀ s, src = Some s → s ≠ EmptyString →
          Forall named_client (_select_clients_by_source u src))
  ∧ (∀ s, src = Some s → s ≠ EmptyString → all_space s = true →
          _select_clients_by_source u src = []).
Proof.
  split; [|split; [|split]].
  - destruct src as [s|]; cbn; [|reflexivity].
    destruct (String.eqb s EmptyString); [reflexivity | apply filter_sublist].
  - by intros [-> | ->].
  - intros s -> Hs. cbn.
    destruct (String.eqb_spec s EmptyString) as [? | _]; [contradiction|].
    apply Forall_forall. intros client Hin.
    apply list_elem_of_In, filter_In in Hin as [_ Hsel].
    by destruct client.
  - intros s -> Hs Hspace. cbn.
    destruct (String.eqb_spec s EmptyString) as [? | _]; [contradiction|].
    rewrite (py_strip_all_space s Hspace). cbn.
    induction (clients u) as [|[http | http | outcome] l IH]; cbn;
      [reflexivity | exact IH..].
Qed.

Lemma select_clients_by_source_spec_witness :
  _select_clients_by_source eth_only_updater (Some "") = clients eth_only_updater
  ∧ Forall named_client
      (_select_clients_by_source eth_only_updater (Some "coingecko"))
  ∧ _select_clients_by_source eth_only_updater (Some "  ") = [].
Proof.
  destruct (select_clients_by_source_spec eth_only_updater (Some ""))
    as (_ & Hall & _).
  destruct (select_clients_by_source_spec eth_only_updater (Some "coingecko"))
    as (_ & _ & Hnamed & _).
  destruct (select_clients_by_source_spec eth_only_updater (Some "  "))
    as (_ & _ & _ & Hnone).
  split; [apply Hall; by right|].
  split; [apply (Hnamed "coingecko"); [reflexivity | discriminate]|].
  apply (Hnone "  "); [reflexivity | discriminate | reflexivity].
Defined.

(** A loop whose body reads a rate for its item and then skips the item,
    stores the rate in both directions, or raises. *)
Section ReadingLoop.
Context {Item : Type}.
Variables (direct inverse : Item -> string) (mk : Item -> float -> Quote).
Variable reading : Item -> result (option float).
Variable body : Batch -> Item -> result Batch.

Hypothesis body_reads : ∀ res item,
  body res item
  = match reading item with
    | Ok None => Ok res
    | Ok (Some r) =>
        Ok (dict_set (inverse item) (mk item (inverse_of r))
              (dict_set (direct item) (mk item r) res))
    | Raise e => Raise e
    end.

Lemma for_each_returns (items : list Item) (res : Batch) :
  (∀ item, In item items → ∃ o, reading item = Ok o) →
  ∃ batch, for_each body items res = Ok batch.
Proof.
  revert res. induction items as [|item items IH]; intros res Hread.
  - by exists res.
  - cbn [for_each]. rewrite body_reads.
    destruct (Hread item) as [o ->]; [by left|].
    destruct o as [r|]; cbn; apply IH; intros i Hi; apply Hread; by right.
Qed.

Lemma for_each_raises (items : list Item) (res : Batch) (item : Item)
    (e : exn) :
  In item items →
  reading item = Raise e →
  ∃ item' e', In item' items ∧ reading item' = Raise e'
              ∧ for_each body items res = Raise e'.
Proof.
  revert res. induction items as [|item0 items IH]; intros res Hin Hread;
    [destruct Hin|].
  cbn [for_each]. rewrite body_reads.
  destruct (reading item0) as [o | e0] eqn:H0.
  - destruct Hin as [-> | Hin]; [congruence|].
    assert (Hrest : ∀ res', ∃ item' e', In item' (item0 :: items)
              ∧ reading item' = Raise e'
              ∧ for_each body items res' = Raise e').
    { intros res'. destruct (IH res' Hin Hread) as (i & e' & Hi & Hr & Hrun).
      exists i, e'. split; [by right | by split]. }
    destruct o as [r|]; cbn; apply Hrest.
  - exists item0, e0. split; [by left | by split].
Qed.

Lemma for_each_untouched (items : list Item) (res batch : Batch)
    (k : string) :
  ¬ In k (item_keys direct inverse items) →
  for_each body items res = Ok batch →
  dict_get k batch = dict_get k res.
Proof.
  revert res. induction items as [|item items IH]; intros res Hk Hrun.
  - cbn in Hrun. by injection Hrun as <-.
  - cbn [for_each] in Hrun. rewrite body_reads in Hrun.
    cbn [item_keys flat_map app] in Hk.
    fold (item_keys direct inverse items) in Hk.
    assert (Hk' : ¬ In k (item_keys direct inverse items)).
    { intros Hin. apply Hk. right. by right. }
    destruct (reading item) as [[r|] | e]; cbn in Hrun; [| |discriminate Hrun].
    + rewrite (IH _ Hk' Hrun).
      rewrite !dict_get_set_ne; [reflexivity | |];
        intros <-; apply Hk; [by left | right; by left].
    + by apply IH.
Qed.

Lemma for_each_reported (items : list Item) (res batch : Batch) :
  NoDup (item_keys direct inverse items) →
  for_each body items res = Ok batch →
  ∀ item, In item items →
    match reading item with
    | Ok (Some r) =>
        dict_get (direct item) batch = Some (mk item r)
        ∧ dict_get (inverse item) batch = Some (mk item (inverse_of r))
    | Ok None =>
        dict_get (direct item) batch = dict_get (direct item) res
        ∧ dict_get (inverse item) batch = dict_get (inverse item) res
    | Raise _ => False
    end.
Proof.
  revert res. induction items as [|item0 items IH];
    intros res Hnodup Hrun item Hin; [destruct Hin|].
  cbn [for_each] in Hrun. rewrite body_reads in Hrun.
  cbn [item_keys flat_map app] in Hnodup.
  fold (item_keys direct inverse items) in Hnodup.
  apply NoDup_cons in Hnodup as [Hd Hnodup].
  apply NoDup_cons in Hnodup as [Hi Hnodup].
  rewrite list_elem_of_In in Hd, Hi.
  assert (Hne : direct item0 ≠ inverse item0).
  { intros Heq. apply Hd. rewrite Heq. by left. }
  assert (Hd' : ¬ In (direct item0) (item_keys direct inverse items)).
  { intros H. apply Hd. by right. }
  assert (Htail : ∀ i, In i items →
            direct i ≠ direct item0 ∧ direct i ≠ inverse item0
            ∧ inverse i ≠ direct item0 ∧ inverse i ≠ inverse item0).
  { intros i Hi0.
    assert (Hk : In (direct i) (item_keys direct inverse items)
                 ∧ In (inverse i) (item_keys direct inverse items)).
    { unfold item_keys. rewrite !in_flat_map.
      split; exists i; (split; [exact Hi0|]); [by left | right; by left]. }
    destruct Hk as [Hkd Hki].
    repeat split; intros Heq; rewrite Heq in *; by auto. }
  destruct Hin as [<- | Hin].
  - destruct (reading item0) as [[r|] | e]; cbn in Hrun;
      [| |discriminate Hrun].
    + rewrite (for_each_untouched _ _ _ _ Hd' Hrun).
      rewrite (for_each_untouched _ _ _ _ Hi Hrun).
      rewrite dict_get_set_eq.
      by rewrite dict_get_set_ne, dict_get_set_eq.
    + by rewrite (for_each_untouched _ _ _ _ Hd' Hrun),
                 (for_each_untouched _ _ _ _ Hi Hrun).
  - destruct (Htail item Hin) as (H1 & H2 & H3 & H4).
    destruct (reading item0) as [[r0|] | e0]; cbn in Hrun;
      [| |discriminate Hrun].
    + specialize (IH _ Hnodup Hrun item Hin).
      destruct (reading item) as [[r|] | e]; [exact IH | | exact IH].
      destruct IH as [-> ->].
      rewrite !dict_get_set_ne by congruence. by split.
    + exact (IH _ Hnodup Hrun item Hin).
Qed.

Lemma for_each_raise_inv (items : list Item) (res : Batch) (e : exn) :
  for_each body items res = Raise e →
  ∃ item, In item items ∧ reading item = Raise e.
Proof.
  revert res. induction items as [|item items IH]; intros res Hrun;
    [discriminate Hrun|].
  cbn [for_each] in Hrun. rewrite body_reads in Hrun.
  destruct (reading item) as [[r|] | e0] eqn:Hread; cbn in Hrun.
  - destruct (IH _ Hrun) as (i & Hi & Hr). exists i. split; [by right | done].
  - destruct (IH _ Hrun) as (i & Hi & Hr). exists i. split; [by right | done].
  - injection Hrun as ->. exists item. split; [by left | done].
Qed.

End ReadingLoop.

Section ProviderReadings.
Variable float_of_str : string -> option float.
Implicit Types (c : ParserConfig) (res : Batch).

Lemma coingecko_step_reads c ts status data res item :
  coingecko_step float_of_str c ts status data res item
  = match coingecko_price float_of_str c data item with
    | Ok None => Ok res
    | Ok (Some r) =>
        Ok (dict_set (coingecko_inverse c item)
              (make_quote (inverse_of r) "CoinGecko" ts
                 {| raw_id := Some (snd item); status_code := status |})
              (dict_set (coingecko_direct c item)
                 (make_quote r "CoinGecko" ts
                    {| raw_id := Some (snd item); status_code := status |})
                 res))
    | Raise e => Raise e
    end.
Proof.
  destruct item as [code id]. unfold coingecko_step, coingecko_price.
  cbn [snd].
  destruct (json_get_default id (JObj []) data) as [raw | e]; cbn;
    [|reflexivity].
  destruct (json_get (py_lower (BASE_FIAT_CURRENCY c)) raw) as [rate | e];
    cbn; [|reflexivity].
  destruct (is_None rate); [reflexivity|].
  destruct (py_float float_of_str rate) as [r | e]; cbn; [|reflexivity].
  by rewrite inverse_rate_total.
Qed.

Lemma exchangerate_step_reads c ts status rates res code :
  exchangerate_step float_of_str c ts status rates res code
  = match exchangerate_price float_of_str c rates code with
    | Ok None => Ok res
    | Ok (Some r) =>
        Ok (dict_set (exchangerate_inverse c code)
              (make_quote (inverse_of r) "ExchangeRate-API" ts
                 {| raw_id := None; status_code := status |})
              (dict_set (exchangerate_direct c code)
                 (make_quote r "ExchangeRate-API" ts
                    {| raw_id := None; status_code := status |})
                 res))
    | Raise e => Raise e
    end.
Proof.
  unfold exchangerate_step, exchangerate_price.
  destruct (String.eqb code (BASE_FIAT_CURRENCY c)); [reflexivity|].
  destruct (json_get code rates) as [raw | e]; cbn; [|reflexivity].
  destruct (py_float float_of_str raw) as [r | e]; cbn.
  - by rewrite inverse_rate_total.
  - by destruct e.
Qed.

(** The rates the ExchangeRate loop runs over, for a response that has a
    non-empty object under [rates], or no [rates] and a non-empty object
    under [conversion_rates]. *)
Lemma exchangerate_fetch_loop (strftime_now : nat -> string) c status fields
    rates n :
  rates ≠ [] →
  dict_get "rates" fields = Some (JObj rates)
  ∨ (dict_get "rates" fields = None
     ∧ dict_get "conversion_rates" fields = Some (JObj rates)) →
  exchangerate_fetch_rates float_of_str strftime_now c
    (HttpResponse status (JObj fields)) n
  = for_each (exchangerate_step float_of_str c (strftime_now n) status
                (JObj rates))
             (FIAT_CURRENCIES c) [].
Proof.
  intros Hne Hrates. unfold exchangerate_fetch_rates, json_get. cbn.
  destruct Hrates as [-> | [-> ->]]; cbn; by destruct rates.
Qed.

End ProviderReadings.

(** X9.  The batch [CoinGeckoClient.fetch_rates] returns is what the
    response holds, code by code: a configured code whose id has a numeric
    price in the base currency is in the batch in both directions, with
    that price, the provider's name, the one time stamp of the fetch and
    the id and status code as meta; a code whose id is missing from the
    response, or has no price or a null price, is in the batch in neither
    direction. *)
Theorem coingecko_batch_matches_response
    (float_of_str : string -> option float) (strftime_now : nat -> string)
    (c : ParserConfig) (status : Z) (fields : list (string * json))
    (n : nat) (batch : Batch) (code id : string) :
  NoDup (coingecko_keys c) →
  coingecko_fetch_rates float_of_str strftime_now c
    (HttpResponse status (JObj fields)) n = Ok batch →
  In (code, id) (CRYPTO_ID_MAP c) →
  let base := BASE_FIAT_CURRENCY c in
  let quote r := make_quote r "CoinGecko" (strftime_now n)
                   {| raw_id := Some id; status_code := status |} in
  (∀ prices r,
     dict_get id fields = Some (JObj prices) →
     dict_get (py_lower base) prices = Some (JNum r) →
     dict_get (code +:+ "_" +:+ base) batch = Some (quote r)
     ∧ dict_get (base +:+ "_" +:+ code) batch = Some (quote (inverse_of r)))
  ∧ (dict_get id fields = None
     ∨ (∃ prices, dict_get id fields = Some (JObj prices)
          ∧ (dict_get (py_lower base) prices = None
             ∨ dict_get (py_lower base) prices = Some JNull)) →
     dict_get (code +:+ "_" +:+ base) batch = None
     ∧ dict_get (base +:+ "_" +:+ code) batch = None).
Proof.
  intros Hnodup Hrun Hin base quote. cbn [coingecko_fetch_rates] in Hrun.
  pose proof (for_each_reported
    (coingecko_direct c) (coingecko_inverse c)
    (fun item r => make_quote r "CoinGecko" (strftime_now n)
                     {| raw_id := Some (snd item); status_code := status |})
    (coingecko_price float_of_str c (JObj fields))
    (coingecko_step float_of_str c (strftime_now n) status (JObj fields))
    (coingecko_step_reads float_of_str c (strftime_now n) status (JObj fields))
    (CRYPTO_ID_MAP c) [] batch Hnodup Hrun (code, id) Hin) as Hrep.
  unfold coingecko_price, json_get, json_get_default in Hrep.
  cbn [snd fst coingecko_direct coingecko_inverse] in Hrep.
  fold base in Hrep |- *.
  split.
  - intros prices r Hid Hprice. rewrite Hid in Hrep. cbn [rbind] in Hrep.
    rewrite Hprice in Hrep. exact Hrep.
  - intros [Hid | (prices & Hid & [Hprice | Hprice])];
      rewrite Hid in Hrep; cbn [rbind] in Hrep; [exact Hrep | |];
      rewrite Hprice in Hrep; exact Hrep.
Qed.

Lemma coingecko_batch_matches_response_witness :
  dict_get "BTC_USD" sample_coingecko_batch
  = Some (make_quote 50000 "CoinGecko" (noon 0)
            {| raw_id := Some "bitcoin"; status_code := 200 |})
  ∧ dict_get "ETH_USD" sample_coingecko_batch = None.
Proof.
  destruct (coingecko_batch_matches_response no_float noon default_config 200
              [ ("bitcoin", JObj [("usd", JNum 50000)]);
                ("solana", JObj [("usd", JNum 0)]);
                ("rates", JObj [("EUR", JNum 0.5); ("GBP", JStr "n/a")]) ] 0
              sample_coingecko_batch "BTC" "bitcoin")
    as [Hthere _];
    [apply (bool_decide_unpack _); vm_compute; reflexivity
    | vm_compute; reflexivity | by left |].
  destruct (coingecko_batch_matches_response no_float noon default_config 200
              [ ("bitcoin", JObj [("usd", JNum 50000)]);
                ("solana", JObj [("usd", JNum 0)]);
                ("rates", JObj [("EUR", JNum 0.5); ("GBP", JStr "n/a")]) ] 0
              sample_coingecko_batch "ETH" "ethereum")
    as [_ Hnot];
    [apply (bool_decide_unpack _); vm_compute; reflexivity
    | vm_compute; reflexivity | right; by left |].
  split.
  - apply (Hthere [("usd", JNum 50000)] 50000%float); reflexivity.
  - apply Hnot. by left.
Defined.

Section ExchangeRateValues.
Variable float_of_str : string -> option float.

Lemma py_float_overflow (x : json) (msg : string) :
  py_float float_of_str x = Raise (OverflowError msg) → x = JBigInt.
Proof.
  destruct x as [| b | f | | s | items | fields]; cbn; try discriminate;
    [reflexivity|].
  destruct (float_of_str s); discriminate.
Qed.

(** Reading a rate from an object of rates fails only on an integer that
    is too large for a float. *)
Lemma exchangerate_price_raises (c : ParserConfig)
    (rates : list (string * json)) (code : string) (e : exn) :
  exchangerate_price float_of_str c (JObj rates) code = Raise e →
  dict_get code rates = Some JBigInt ∧ ∃ msg, e = OverflowError msg.
Proof.
  unfold exchangerate_price, json_get, json_get_default.
  destruct (String.eqb code (BASE_FIAT_CURRENCY c)); [discriminate|].
  cbn [rbind].
  destruct (py_float float_of_str
              match dict_get code rates with Some v => v | None => JNull end)
    as [r | e1] eqn:Hfloat; [discriminate|].
  destruct (py_float_raises _ _ _ Hfloat) as [[msg ->] | [[msg ->] | [msg ->]]];
    [discriminate | discriminate |].
  intros [= <-]. split; [|by eexists].
  apply py_float_overflow in Hfloat.
  destruct (dict_get code rates) as [v|]; [by rewrite Hfloat | discriminate].
Qed.
End ExchangeRateValues.

(** X10.  [ExchangeRateApiClient.fetch_rates] takes the rates from [rates]
    or, when the response has no [rates], from [conversion_rates].  With a
    non-empty object of rates there, the only value of a configured code
    that makes it raise is an integer too large for a float, which raises
    [OverflowError].  Without such a value it returns: a configured code
    with a numeric rate is in the batch in both directions, with that
    rate, the provider's name, the one time stamp of the fetch and the
    status code; a code with no rate, a null rate or a string that is no
    number is left out in both directions. *)
Theorem exchangerate_batch_matches_response
    (float_of_str : string -> option float) (strftime_now : nat -> string)
    (c : ParserConfig) (status : Z) (fields rates : list (string * json))
    (n : nat) :
  NoDup (exchangerate_keys c) →
  rates ≠ [] →
  dict_get "rates" fields = Some (JObj rates)
  ∨ (dict_get "rates" fields = None
     ∧ dict_get "conversion_rates" fields = Some (JObj rates)) →
  let base := BASE_FIAT_CURRENCY c in
  let quote r := make_quote r "ExchangeRate-API" (strftime_now n)
                   {| raw_id := None; status_code := status |} in
  (Forall (fun code => dict_get code rates ≠ Some JBigInt)
          (FIAT_CURRENCIES c) →
   ∃ batch,
     exchangerate_fetch_rates float_of_str strftime_now c
       (HttpResponse status (JObj fields)) n = Ok batch
     ∧ ∀ code, In code (FIAT_CURRENCIES c) →
         (∀ r, dict_get code rates = Some (JNum r) →
            dict_get (base +:+ "_" +:+ code) batch = Some (quote r)
            ∧ dict_get (code +:+ "_" +:+ base) batch
              = Some (quote (inverse_of r)))
         ∧ (dict_get code rates = None
            ∨ dict_get code rates = Some JNull
            ∨ (∃ s, dict_get code rates = Some (JStr s)
                    ∧ float_of_str s = None) →
            dict_get (base +:+ "_" +:+ code) batch = None
            ∧ dict_get (code +:+ "_" +:+ base) batch = None))
  ∧ (∀ code, In code (FIAT_CURRENCIES c) →
       dict_get code rates = Some JBigInt →
       ∃ msg,
         exchangerate_fetch_rates float_of_str strftime_now c
           (HttpResponse status (JObj fields)) n
         = Raise (OverflowError msg)).
Proof.
  intros Hnodup Hne Hrates base quote.
  rewrite (exchangerate_fetch_loop float_of_str strftime_now c status fields
             rates n Hne Hrates).
  pose proof (exchangerate_step_reads float_of_str c (strftime_now n) status
                (JObj rates)) as Hreads.
  assert (Hbase : ∀ code, In code (FIAT_CURRENCIES c) →
                          String.eqb code (BASE_FIAT_CURRENCY c) = false).
  { intros code Hin. apply String.eqb_neq. intros ->.
    unfold exchangerate_keys, item_keys in Hnodup.
    apply in_split in Hin as (l1 & l2 & Heq). rewrite Heq in Hnodup.
    rewrite flat_map_app in Hnodup. cbn [flat_map app] in Hnodup.
    apply NoDup_app in Hnodup as (_ & _ & Hnodup).
    apply NoDup_cons in Hnodup as [Hd _]. apply Hd. by left. }
  split.
  - intros Hfits.
    destruct (for_each_returns
      (exchangerate_direct c) (exchangerate_inverse c)
      (fun _ r => make_quote r "ExchangeRate-API" (strftime_now n)
                    {| raw_id := None; status_code := status |})
      (exchangerate_price float_of_str c (JObj rates))
      (exchangerate_step float_of_str c (strftime_now n) status (JObj rates))
      Hreads (FIAT_CURRENCIES c) []) as [batch Hrun].
    { intros code Hin.
      destruct (exchangerate_price float_of_str c (JObj rates) code)
        as [o | e] eqn:Hread; [by eexists|].
      destruct (exchangerate_price_raises _ _ _ _ _ Hread) as [Hbig _].
      rewrite Forall_forall in Hfits.
      by destruct (Hfits code (proj2 (list_elem_of_In _ _) Hin)). }
    exists batch. split; [exact Hrun|].
    intros code Hin.
    pose proof (for_each_reported
      (exchangerate_direct c) (exchangerate_inverse c)
      (fun _ r => make_quote r "ExchangeRate-API" (strftime_now n)
                    {| raw_id := None; status_code := status |})
      (exchangerate_price float_of_str c (JObj rates))
      (exchangerate_step float_of_str c (strftime_now n) status (JObj rates))
      Hreads (FIAT_CURRENCIES c) [] batch Hnodup Hrun code Hin) as Hrep.
    unfold exchangerate_price, json_get, json_get_default in Hrep.
    rewrite (Hbase code Hin) in Hrep.
    cbn [rbind exchangerate_direct exchangerate_inverse] in Hrep.
    fold base in Hrep |- *.
    split.
    + intros r Hcode. rewrite Hcode in Hrep. exact Hrep.
    + intros [Hcode | [Hcode | (s & Hcode & Hs)]]; rewrite Hcode in Hrep;
        cbn [py_float] in Hrep; [exact Hrep | exact Hrep |].
      rewrite Hs in Hrep. exact Hrep.
  - intros code Hin Hbig.
    assert (Hread : exchangerate_price float_of_str c (JObj rates) code
                    = Raise (OverflowError "int too large to convert to float")).
    { unfold exchangerate_price, json_get, json_get_default.
      by rewrite (Hbase code Hin), Hbig. }
    destruct (for_each_raises
      (exchangerate_direct c) (exchangerate_inverse c)
      (fun _ r => make_quote r "ExchangeRate-API" (strftime_now n)
                    {| raw_id := None; status_code := status |})
      (exchangerate_price float_of_str c (JObj rates))
      (exchangerate_step float_of_str c (strftime_now n) status (JObj rates))
      Hreads (FIAT_CURRENCIES c) [] code _ Hin Hread)
      as (code' & e' & _ & Hread' & Hrun).
    destruct (exchangerate_price_raises _ _ _ _ _ Hread') as [_ [msg ->]].
    by exists msg.
Qed.

Lemma exchangerate_batch_matches_response_witness :
  (∃ batch,
     exchangerate_fetch_rates no_float noon default_config sample_response 0
     = Ok batch
     ∧ dict_get "USD_EUR" batch
       = Some (make_quote 0.5 "ExchangeRate-API" (noon 0)
                 {| raw_id := None; status_code := 200 |})
     ∧ dict_get "USD_GBP" batch = None
     ∧ dict_get "USD_RUB" batch = None)
  ∧ ∃ msg,
      exchangerate_fetch_rates no_float noon default_config
        (HttpResponse 200
           (JObj [("rates", JObj [("EUR", JNum 0.5); ("GBP", JBigInt)])])) 0
      = Raise (OverflowError msg).
Proof.
  split; cycle 1.
  { destruct (exchangerate_batch_matches_response no_float noon default_config
                200 [("rates", JObj [("EUR", JNum 0.5); ("GBP", JBigInt)])]
                [("EUR", JNum 0.5); ("GBP", JBigInt)] 0)
      as [_ Hraises];
      [apply (bool_decide_unpack _); vm_compute; reflexivity
      | discriminate | by left |].
    apply (Hraises "GBP"); [right; by left | reflexivity]. }
  destruct (exchangerate_batch_matches_response no_float noon default_config
              200
              [ ("bitcoin", JObj [("usd", JNum 50000)]);
                ("solana", JObj [("usd", JNum 0)]);
                ("rates", JObj [("EUR", JNum 0.5); ("GBP", JStr "n/a")]) ]
              [("EUR", JNum 0.5); ("GBP", JStr "n/a")] 0)
    as [Hreturns _];
    [apply (bool_decide_unpack _); vm_compute; reflexivity
    | discriminate | by left |].
  destruct Hreturns as (batch & Hrun & Hbatch).
  { constructor; [discriminate|]. constructor; [discriminate|].
    constructor; [discriminate | constructor]. }
  exists batch. split; [exact Hrun|].
  split; [|split].
  - destruct (Hbatch "EUR") as [Hthere _]; [by left|].
    by apply (Hthere 0.5%float).
  - destruct (Hbatch "GBP") as [_ Hnot]; [right; by left|].
    apply Hnot. right; right. by exists "n/a".
  - destruct (Hbatch "RUB") as [_ Hnot]; [right; right; by left|].
    apply Hnot. by left.
Defined.

Section CoinGeckoFailure.
Variable float_of_str : string -> option float.

Lemma json_get_default_not_api k dflt x e :
  json_get_default k dflt x = Raise e → ∀ reason, e ≠ ApiRequestError reason.
Proof. destruct x; cbn; intros [= <-]; discriminate. Qed.

(** After the response is in, nothing CoinGecko raises is an
    [ApiRequestError]. *)
Lemma coingecko_price_not_api c data item e :
  coingecko_price float_of_str c data item = Raise e →
  ∀ reason, e ≠ ApiRequestError reason.
Proof.
  unfold coingecko_price, json_get.
  destruct (json_get_default (snd item) (JObj []) data) as [raw | e1] eqn:Hraw;
    cbn [rbind].
  2: { intros [= <-]. by apply (json_get_default_not_api _ _ _ _ Hraw). }
  destruct (json_get_default (py_lower (BASE_FIAT_CURRENCY c)) JNull raw)
    as [rate | e1] eqn:Hrate; cbn [rbind].
  2: { intros [= <-]. by apply (json_get_default_not_api _ _ _ _ Hrate). }
  destruct (is_None rate); [discriminate|].
  destruct (py_float float_of_str rate) as [r | e1] eqn:Hfloat; cbn [rbind];
    [discriminate|].
  intros [= <-] reason.
  destruct (py_float_raises _ _ _ Hfloat) as [[msg ->] | [[msg ->] | [msg ->]]];
    discriminate.
Qed.
End CoinGeckoFailure.

(** X11.  CoinGecko's loop converts the price outside any [try]: when
    CoinGecko is the first client of a run over all sources and its
    response holds, for a configured code, a price that is not null and
    that [float] rejects, [run_update] raises an exception that is no
    [ApiRequestError]; no other client is asked, and the snapshot file and
    the history log are left as they were. *)
Theorem coingecko_bad_price_aborts_run
    (float_of_str : string -> option float)
    (strftime_now isoformat_now : nat -> string)
    (u : RatesUpdater) (status : Z) (fields prices : list (string * json))
    (others : list ApiClient) (code id : string) (v : json) (e0 : exn)
    (w : World) :
  clients u = CoinGeckoClient (HttpResponse status (JObj fields)) :: others →
  In (code, id) (CRYPTO_ID_MAP (cfg u)) →
  dict_get id fields = Some (JObj prices) →
  dict_get (py_lower (BASE_FIAT_CURRENCY (cfg u))) prices = Some v →
  v ≠ JNull →
  py_float float_of_str v = Raise e0 →
  ∃ e,
    run_update float_of_str strftime_now isoformat_now u None w
    = (Raise e, tick w)
    ∧ (∀ reason, e ≠ ApiRequestError reason)
    ∧ snapshot_file (tick w) = snapshot_file w
    ∧ history_file (tick w) = history_file w.
Proof.
  intros Hclients Hin Hid Hprice Hnull Hfloat.
  assert (Hread : coingecko_price float_of_str (cfg u) (JObj fields) (code, id)
                  = Raise e0).
  { unfold coingecko_price, json_get, json_get_default. cbn [snd].
    rewrite Hid. cbn [rbind]. rewrite Hprice.
    destruct v; [congruence | ..]; cbn [is_None]; by rewrite Hfloat. }
  destruct (for_each_raises
    (coingecko_direct (cfg u)) (coingecko_inverse (cfg u))
    (fun item r => make_quote r "CoinGecko" (strftime_now (ticks w))
                     {| raw_id := Some (snd item); status_code := status |})
    (coingecko_price float_of_str (cfg u) (JObj fields))
    (coingecko_step float_of_str (cfg u) (strftime_now (ticks w)) status
       (JObj fields))
    (coingecko_step_reads float_of_str (cfg u) (strftime_now (ticks w)) status
       (JObj fields))
    (CRYPTO_ID_MAP (cfg u)) [] (code, id) e0 Hin Hread)
    as (item' & e & _ & Hraise & Hrun).
  pose proof (coingecko_price_not_api _ _ _ _ _ Hraise) as Hnot.
  exists e. split; [|split; [exact Hnot | by split]].
  rewrite run_update_unfold. unfold run_update_from.
  cbn [_select_clients_by_source]. rewrite Hclients.
  cbn [run_clients fetch_rates coingecko_fetch_rates]. rewrite Hrun.
  destruct e as [reason| | | | | | |]; [by destruct (Hnot reason) | ..];
    reflexivity.
Qed.

Lemma coingecko_bad_price_aborts_run_witness :
  ∃ e,
    run_update no_float noon noon_iso bad_price_updater None world_jan1
    = (Raise e, tick world_jan1)
    ∧ (∀ reason, e ≠ ApiRequestError reason)
    ∧ snapshot_file (tick world_jan1) = snapshot_file world_jan1
    ∧ history_file (tick world_jan1) = history_file world_jan1.
Proof.
  apply (coingecko_bad_price_aborts_run no_float noon noon_iso
           bad_price_updater 200
           [("bitcoin", JObj [("usd", JStr "n/a")])] [("usd", JStr "n/a")]
           [ExchangeRateApiClient
              (HttpResponse 200 (JObj [("rates", JObj [("EUR", JNum 0.5)])]))]
           "BTC" "bitcoin" (JStr "n/a")
           (ValueError "could not convert string to float") world_jan1);
    [reflexivity | by left | reflexivity | reflexivity | discriminate
    | reflexivity].
Defined.

(** X12.  A run of [run_update] that returns with a positive total has
    replaced the snapshot file by a snapshot of that many pairs, stamped
    with the clock reading before the last one of the run.  Where
    [fromisoformat] reads each stamp as the datetime of its reading, with a
    time zone, the
    freshness check of the file read back never reports a missing or
    unreadable time stamp: it reports stale data exactly when more than the
    TTL has passed since the stamp. *)
Theorem refreshed_snapshot_checks_fresh
    (float_of_str : string -> option float)
    (strftime_now isoformat_now : nat -> string)
    (fromisoformat : string -> string + datetime)
    (format_minutes : Z -> string)
    (u : RatesUpdater) (src : option string) (w w' : World)
    (res : RefreshResult) (clock : nat -> Z) (now rates_ttl : Z) :
  run_update float_of_str strftime_now isoformat_now u src w = (Ok res, w') →
  (0 < total res)%nat →
  (∀ n, strftime_now n ≠ EmptyString
        ∧ fromisoformat (replace_Z (strftime_now n))
          = inr {| instant := clock n; aware := true |}) →
  (timedelta_min_seconds ≤ rates_ttl ≤ timedelta_max_seconds)%Z →
  ∃ k p,
    ticks w' = S (S k)
    ∧ snapshot_file w'
      = Stored {| pairs := Some p; last_refresh := Some (strftime_now k) |}
    ∧ size p = total res
    ∧ _check_data_freshness fromisoformat format_minutes
        (load_json (snapshot_file w')) now rates_ttl
      = Ok (if (rates_ttl * 1000000 <? now - clock k)%Z
            then Some (stale_message format_minutes (strftime_now k)
                                     (rates_ttl * 1000000))
            else None).
Proof.
  intros Hrun Hpos Hclock [Hlo Hhi].
  rewrite run_update_unfold in Hrun. unfold run_update_from in Hrun.
  destruct (run_clients float_of_str strftime_now (cfg u)
              (_select_clients_by_source u src)
              (file_pairs (snapshot_file w)) [] 0 w)
    as [[[[p errs] n] | e] w1]; [|discriminate Hrun].
  cbn [_build_result] in Hrun. injection Hrun as <- <-.
  cbn [total] in Hpos.
  destruct (size p) as [|m] eqn:Hsize; [lia|].
  exists (ticks w1), p. cbn [write_snapshot tick ticks snapshot_file].
  split; [reflexivity|]. split; [reflexivity|]. split; [by rewrite Hsize|].
  destruct (Hclock (ticks w1)) as [Hne Hparse].
  unfold _check_data_freshness. cbn [load_json last_refresh].
  apply String.eqb_neq in Hne. rewrite Hne, Hparse. cbn [rbind].
  unfold get_ttl.
  apply Z.leb_le in Hlo, Hhi. rewrite Hlo, Hhi. cbn [andb rbind].
  unfold datetime_sub. cbn [aware instant Bool.eqb rbind].
  by destruct (rates_ttl * 1000000 <? now - clock (ticks w1))%Z.
Qed.

Lemma refreshed_snapshot_checks_fresh_witness :
  ∃ k p,
    ticks (snd (run_update no_float jan1 noon_iso eth_only_updater None
                  world_jan1)) = S (S k)
    ∧ snapshot_file (snd (run_update no_float jan1 noon_iso eth_only_updater
                            None world_jan1))
      = Stored {| pairs := Some p; last_refresh := Some (jan1 k) |}
    ∧ size p = 3
    ∧ _check_data_freshness fromisoformat_sample format_minutes_sample
        (load_json (snapshot_file
                      (snd (run_update no_float jan1 noon_iso eth_only_updater
                              None world_jan1))))
        (1704067200000000 + 3600000000) 3600
      = Ok None.
Proof.
  destruct (run_update no_float jan1 noon_iso eth_only_updater None world_jan1)
    as [r w'] eqn:Hrun.
  destruct r as [res | e]; [|vm_compute in Hrun; discriminate Hrun].
  assert (Htotal : total res = 3).
  { vm_compute in Hrun. by injection Hrun as <- _. }
  destruct (refreshed_snapshot_checks_fresh no_float jan1 noon_iso
              fromisoformat_sample format_minutes_sample eth_only_updater None
              world_jan1 w' res (fun _ => 1704067200000000%Z)
              (1704067200000000 + 3600000000) 3600 Hrun)
    as (k & p & Hk & Hfile & Hsize & Hcheck).
  - rewrite Htotal. lia.
  - intros n. split; [discriminate | reflexivity].
  - vm_compute. split; discriminate.
  - exists k, p. cbn [snd]. rewrite <- Htotal.
    split; [exact Hk|]. split; [exact Hfile|]. split; [exact Hsize|].
    exact Hcheck.
Defined.

Section FailureReports.
Variable float_of_str : string -> option float.
Variable strftime_now : nat -> string.
Implicit Types (c : ParserConfig) (w : World) (m : gmap string PairEntry).

Lemma exchangerate_price_not_api c rates code e :
  exchangerate_price float_of_str c rates code = Raise e →
  ∀ reason, e ≠ ApiRequestError reason.
Proof.
  unfold exchangerate_price, json_get.
  destruct (String.eqb code (BASE_FIAT_CURRENCY c)); [discriminate|].
  destruct (json_get_default code JNull rates) as [raw | e1] eqn:Hraw;
    cbn [rbind].
  2: { intros [= <-]. by apply (json_get_default_not_api _ _ _ _ Hraw). }
  destruct (py_float float_of_str raw) as [r | e1] eqn:Hfloat; [discriminate|].
  destruct (py_float_raises _ _ _ Hfloat) as [[msg ->] | [[msg ->] | [msg ->]]];
    [discriminate | discriminate |].
  by intros [= <-].
Qed.

(** Once the response is in, the two loops raise no [ApiRequestError]. *)
Lemma coingecko_loop_reports_nothing c ts status data :
  reported_failure
    (for_each (coingecko_step float_of_str c ts status data)
              (CRYPTO_ID_MAP c) []) = None.
Proof.
  destruct (for_each (coingecko_step float_of_str c ts status data)
                     (CRYPTO_ID_MAP c) []) as [batch | e] eqn:Hrun;
    [reflexivity|].
  destruct (for_each_raise_inv
    (coingecko_direct c) (coingecko_inverse c)
    (fun item r => make_quote r "CoinGecko" ts
                     {| raw_id := Some (snd item); status_code := status |})
    (coingecko_price float_of_str c data)
    (coingecko_step float_of_str c ts status data)
    (coingecko_step_reads float_of_str c ts status data)
    (CRYPTO_ID_MAP c) [] e Hrun) as (item & _ & Hread).
  pose proof (coingecko_price_not_api _ _ _ _ _ Hread) as Hnot.
  destruct e as [reason| | | | | | |]; [by destruct (Hnot reason) | ..];
    reflexivity.
Qed.

Lemma exchangerate_loop_reports_nothing c ts status rates :
  reported_failure
    (for_each (exchangerate_step float_of_str c ts status rates)
              (FIAT_CURRENCIES c) []) = None.
Proof.
  destruct (for_each (exchangerate_step float_of_str c ts status rates)
                     (FIAT_CURRENCIES c) []) as [batch | e] eqn:Hrun;
    [reflexivity|].
  destruct (for_each_raise_inv
    (exchangerate_direct c) (exchangerate_inverse c)
    (fun _ r => make_quote r "ExchangeRate-API" ts
                  {| raw_id := None; status_code := status |})
    (exchangerate_price float_of_str c rates)
    (exchangerate_step float_of_str c ts status rates)
    (exchangerate_step_reads float_of_str c ts status rates)
    (FIAT_CURRENCIES c) [] e Hrun) as (code & _ & Hread).
  pose proof (exchangerate_price_not_api _ _ _ _ Hread) as Hnot.
  destruct e as [reason| | | | | | |]; [by destruct (Hnot reason) | ..];
    reflexivity.
Qed.

(** Whether a fetch fails with an [ApiRequestError], and with which text,
    does not depend on the files or on the clock. *)
Lemma reported_failure_any_world c client w w0 :
  reported_failure (fst (fetch_rates float_of_str strftime_now c client w))
  = reported_failure (fst (fetch_rates float_of_str strftime_now c client w0)).
Proof.
  destruct client as [http | http | outcome]; cbn [fetch_rates fst];
    [| |reflexivity].
  - destruct http as [msg | msg | msg | status data];
      cbn [coingecko_fetch_rates]; try reflexivity.
    by rewrite !coingecko_loop_reports_nothing.
  - destruct http as [msg | msg | msg | status data];
      cbn [exchangerate_fetch_rates]; try reflexivity.
    destruct (json_get "rates" data) as [rates0 | e]; cbn [rbind];
      [|reflexivity].
    destruct (if json_truthy rates0 then Ok rates0
              else json_get "conversion_rates" data) as [rates | e];
      cbn [rbind]; [|reflexivity].
    destruct (negb (json_truthy rates)); [reflexivity|].
    by rewrite !exchangerate_loop_reports_nothing.
Qed.

(** The loop over the clients adds the text of each failed fetch to the
    error list, in the order of the clients, and nothing else. *)
Lemma run_clients_errors c (target : list ApiClient) m errs (n : nat) w w0
    m' errs' n' w' :
  run_clients float_of_str strftime_now c target m errs n w
  = (Ok (m', errs', n'), w') →
  errs' = errs ++ omap (fun client =>
                          reported_failure
                            (fst (fetch_rates float_of_str strftime_now c
                                    client w0)))
                       target.
Proof.
  revert m errs n w.
  induction target as [|client target IH]; intros m errs n w Hrun.
  - cbn in Hrun. injection Hrun as _ <- _ _. by rewrite app_nil_r.
  - cbn [run_clients] in Hrun. cbn [omap list_omap].
    rewrite <- (reported_failure_any_world c client w w0).
    destruct (fetch_rates float_of_str strftime_now c client w)
      as [fr w1]. cbn [fst].
    destruct fr as [batch | e]; cbn [reported_failure].
    + destruct (process_client_data_log strftime_now batch m w1)
        as (pr & m1 & w2 & _ & _ & _ & Hproc & _ & _ & _ & _ & _ & _ & Hraise).
      rewrite Hproc in Hrun. destruct pr as [[] | e].
      * exact (IH _ _ _ _ Hrun).
      * destruct (Hraise e eq_refl) as [msg ->]. discriminate Hrun.
    + destruct e as [reason| | | | | | |]; try discriminate Hrun.
      rewrite (IH _ _ _ _ Hrun). by rewrite <- app_assoc.
Qed.
End FailureReports.

(** X13.  The error list of a run that returns holds exactly the failed
    fetches: for each selected client whose [fetch_rates] raises an
    [ApiRequestError], in the order of the clients, the text of that
    error, and nothing for a client that returned a batch. *)
Theorem run_update_reports_each_failure
    (float_of_str : string -> option float)
    (strftime_now isoformat_now : nat -> string)
    (u : RatesUpdater) (src : option string) (w w' : World)
    (res : RefreshResult) :
  run_update float_of_str strftime_now isoformat_now u src w = (Ok res, w') →
  errors res
  = omap (fun client =>
            reported_failure
              (fst (fetch_rates float_of_str strftime_now (cfg u) client w)))
         (_select_clients_by_source u src).
Proof.
  intros Hrun. rewrite run_update_unfold in Hrun.
  unfold run_update_from in Hrun.
  destruct (run_clients float_of_str strftime_now (cfg u)
              (_select_clients_by_source u src)
              (file_pairs (snapshot_file w)) [] 0 w)
    as [[[[p errs] n] | e] w1] eqn:Hloop; [|discriminate Hrun].
  cbn [_build_result] in Hrun. injection Hrun as <- _. cbn [errors].
  exact (run_clients_errors float_of_str strftime_now _ _ _ _ _ _ w _ _ _ _
           Hloop).
Qed.

Lemma run_update_reports_each_failure_witness :
  errors eth_run_result
  = omap (fun client =>
            reported_failure
              (fst (fetch_rates no_float noon default_config client
                      world_jan1)))
         (_select_clients_by_source eth_only_updater None).
Proof.
  apply (run_update_reports_each_failure no_float noon noon_iso
           eth_only_updater None world_jan1
           (snd (run_update no_float noon noon_iso eth_only_updater None
                   world_jan1)) eth_run_result).
  vm_compute. reflexivity.
Defined.

Section UpdateRatesFacts.
Variable float_of_str : string -> option float.
Variable strftime_now : nat -> string.
Variable isoformat_now : nat -> string.

(** Creating the missing files changes nothing a reader sees. *)
Lemma init_storage_reads (w : World) :
  file_pairs (snapshot_file (init_storage w)) = file_pairs (snapshot_file w)
  ∧ history_records (init_storage w) = history_records w.
Proof.
  unfold init_storage, history_records, file_pairs. cbn.
  split; [by destruct (snapshot_file w) | by destruct (history_file w)].
Qed.

Lemma select_unmatched (u : RatesUpdater) (s : string) :
  s ≠ EmptyString →
  py_lower (py_strip s) ≠ "coingecko" →
  string_in (py_lower (py_strip s)) _get_exchangerate_aliases = false →
  Forall named_client (clients u) →
  _select_clients_by_source u (Some s) = [].
Proof.
  intros Hs Hcg Hex Hnamed. cbn [_select_clients_by_source].
  apply String.eqb_neq in Hs, Hcg. rewrite Hs.
  match goal with
  | |- List.filter ?f _ = [] =>
      assert (Hf : ∀ client, named_client client → f client = false)
        by (intros [http | http | outcome] Hclient;
            [exact Hcg | exact Hex | destruct Hclient]);
      revert Hf; generalize f; intros sel Hsel
  end.
  revert Hnamed. generalize (clients u). intros l Hnamed.
  induction Hnamed as [|client l Hclient _ IH]; [reflexivity|].
  cbn [List.filter]. by rewrite (Hsel client Hclient).
Qed.
End UpdateRatesFacts.

(** X14.  [update_rates] reports success for a source that names no
    client: when the source is a text of ASCII characters that is not
    empty and, trimmed and in lower case, is neither the name of CoinGecko
    nor an alias of ExchangeRate, no client is asked, and the message is
    the one of a successful update from all sources with 0 pairs.  The
    pairs a reader of the snapshot sees and the history log are as
    before. *)
Theorem update_rates_unmatched_source
    (float_of_str : string -> option float)
    (strftime_now isoformat_now : nat -> string)
    (coingecko exchangerate : HttpOutcome) (s : string) (w : World) :
  is_ascii s = true →
  s ≠ EmptyString →
  py_lower (py_strip s) ≠ "coingecko" →
  string_in (py_lower (py_strip s)) _get_exchangerate_aliases = false →
  ∃ time w',
    update_rates float_of_str strftime_now isoformat_now coingecko
                 exchangerate (Some s) w
    = (Ok (updated_message (Some s) 0 time), w')
    ∧ source_name (Some s) = source_name None
    ∧ file_pairs (snapshot_file w') = file_pairs (snapshot_file w)
    ∧ history_records w' = history_records w.
Proof.
  intros _ Hs Hcg Hex.
  destruct (init_storage_reads w) as [Hpairs Hhist].
  unfold update_rates. rewrite run_update_unfold. unfold run_update_from.
  rewrite (select_unmatched (default_updater coingecko exchangerate) s Hs Hcg
             Hex) by (repeat constructor).
  cbn [run_clients _build_result errors fetched r_last_refresh].
  eexists _, _. split; [reflexivity|]. split.
  - cbn [source_name].
    destruct (String.eqb_spec s "coingecko") as [-> | _];
      [by destruct Hcg|].
    destruct (String.eqb_spec s "exchangerate") as [-> | _];
      [discriminate Hex | reflexivity].
  - rewrite <- Hpairs, <- Hhist.
    destruct (size (file_pairs (snapshot_file (init_storage w)))) eqn:Hsize;
      cbn [tick write_snapshot snapshot_file history_file];
      [by split|].
    split; reflexivity.
Qed.

Lemma update_rates_unmatched_source_witness :
  ∃ time w',
    update_rates no_float noon noon_iso
      (HttpRequestException "Connection refused") sample_response
      (Some "binance") world_jan1
    = (Ok (updated_message (Some "binance") 0 time), w')
    ∧ source_name (Some "binance") = source_name None
    ∧ file_pairs (snapshot_file w') = file_pairs (snapshot_file world_jan1)
    ∧ history_records w' = history_records world_jan1.
Proof.
  apply update_rates_unmatched_source;
    [reflexivity | discriminate | discriminate | reflexivity].
Defined.

(** X15.  The numbers in the message of [update_rates] are those of the
    run: the pairs it reports as updated are the records the run appended
    to the history log (one per fetched quote, whether or not the quote
    changed the snapshot), and it is the message with errors, with their
    number, exactly when a selected client failed with an
    [ApiRequestError]. *)
Theorem update_rates_message_counts
    (float_of_str : string -> option float)
    (strftime_now isoformat_now : nat -> string)
    (coingecko exchangerate : HttpOutcome) (source : option string)
    (w w' : World) (msg : string) :
  update_rates float_of_str strftime_now isoformat_now coingecko exchangerate
               source w = (Ok msg, w') →
  ∃ new time,
    history_records w' = history_records w ++ new
    ∧ msg
      = match omap (fun client =>
                      reported_failure
                        (fst (fetch_rates float_of_str strftime_now
                                default_config client w)))
                   (_select_clients_by_source
                      (default_updater coingecko exchangerate) source) with
        | [] => updated_message source (length new) time
        | failure :: failures =>
            updated_with_errors_message source (length new)
              (length (failure :: failures)) time
        end.
Proof.
  intros Hrun. unfold update_rates in Hrun.
  destruct (run_update_accounting float_of_str strftime_now isoformat_now
              (default_updater coingecko exchangerate) source (init_storage w))
    as (r & w1 & new & Hupd & Hhist & _ & _ & Hres).
  pose proof Hupd as Hloop.
  rewrite Hupd in Hrun. destruct r as [res | e]; [|discriminate Hrun].
  injection Hrun as <- <-.
  destruct (Hres res eq_refl) as (Hfetched & _).
  rewrite run_update_unfold in Hloop. unfold run_update_from in Hloop.
  destruct (run_clients float_of_str strftime_now
              (cfg (default_updater coingecko exchangerate))
              (_select_clients_by_source
                 (default_updater coingecko exchangerate) source)
              (file_pairs (snapshot_file (init_storage w))) [] 0
              (init_storage w))
    as [[[[p errs] n] | e] w2] eqn:Hclients; [|discriminate Hloop].
  pose proof (run_clients_errors float_of_str strftime_now _ _ _ _ _ _ w
                _ _ _ _ Hclients) as Herrs.
  cbn [_build_result] in Hloop. injection Hloop as <- _.
  cbn [errors fetched r_last_refresh] in *. cbn [app] in Herrs.
  exists new. eexists.
  split; [by rewrite Hhist, (proj2 (init_storage_reads w))|].
  change default_config with (cfg (default_updater coingecko exchangerate)).
  rewrite <- Herrs, Hfetched.
  destruct errs; reflexivity.
Qed.

Lemma update_rates_message_counts_witness :
  ∃ new time,
    history_records
      (snd (update_rates no_float noon noon_iso
              (HttpResponse 200
                 (JObj [("ethereum", JObj [("usd", JNum 3000)])]))
              (HttpRequestException "Read timed out.") None world_jan1))
    = history_records world_jan1 ++ new
    ∧ updated_with_errors_message None 2 1 "2024-06-01T12:00:00.000000Z"
      = match omap (fun client =>
                      reported_failure
                        (fst (fetch_rates no_float noon default_config client
                                world_jan1)))
                   (_select_clients_by_source
                      (default_updater
                         (HttpResponse 200
                            (JObj [("ethereum", JObj [("usd", JNum 3000)])]))
                         (HttpRequestException "Read timed out.")) None) with
        | [] => updated_message None (length new) time
        | failure :: failures =>
            updated_with_errors_message None (length new)
              (length (failure :: failures)) time
        end.
Proof.
  apply (update_rates_message_counts no_float noon noon_iso
           (HttpResponse 200 (JObj [("ethereum", JObj [("usd", JNum 3000)])]))
           (HttpRequestException "Read timed out.") None world_jan1).
  vm_compute. reflexivity.
Defined.

Section CodeFacts.
Implicit Types (c : ascii) (s : string).

Lemma upper_ascii_idem c : upper_ascii (upper_ascii c) = upper_ascii c.
Proof. by destruct c as [[] [] [] [] [] [] [] []]. Qed.

Lemma is_alpha_upper c : is_alpha (upper_ascii c) = is_alpha c.
Proof. by destruct c as [[] [] [] [] [] [] [] []]. Qed.

Lemma py_upper_idem s : py_upper (py_upper s) = py_upper s.
Proof.
  induction s as [|c s IH]; [reflexivity|].
  cbn [py_upper]. by rewrite upper_ascii_idem, IH.
Qed.

Lemma all_alpha_upper s : all_alpha (py_upper s) = all_alpha s.
Proof.
  induction s as [|c s IH]; [reflexivity|].
  cbn [py_upper all_alpha]. by rewrite is_alpha_upper, IH.
Qed.

Lemma py_isalpha_upper s : py_isalpha (py_upper s) = py_isalpha s.
Proof.
  unfold py_isalpha. rewrite all_alpha_upper. by destruct s.
Qed.

Lemma code_ok_upper s : py_isalpha s = true → code_ok (py_upper s).
Proof.
  intros Hs. split; [by rewrite py_isalpha_upper | apply py_upper_idem].
Qed.

Lemma Wallet_init_ok s (b : float) :
  py_isalpha s = true →
  Wallet_init s b = Ok {| currency_code := py_upper s; balance := b |}.
Proof. intros Hs. unfold Wallet_init. by rewrite Hs. Qed.

Lemma Wallet_init_raises s (b : float) :
  py_isalpha s = false →
  Wallet_init s b = Raise (ValueError "Некорректный код валюты.").
Proof. intros Hs. unfold Wallet_init. by rewrite Hs. Qed.
End CodeFacts.

Section DictUpdates.
Context {V : Type}.
Implicit Types (d : list (string * V)) (k : string) (v : V).

Lemma dict_set_new d k v :
  dict_get k d = None → dict_set k v d = d ++ [(k, v)].
Proof.
  induction d as [|[k0 v0] d IH]; cbn; [reflexivity|].
  destruct (String.eqb k k0); [discriminate|].
  intros Hk. by rewrite IH.
Qed.

Lemma dict_set_old d k v v0 :
  dict_get k d = Some v0 → dict_keys (dict_set k v d) = dict_keys d.
Proof.
  induction d as [|[k1 v1] d IH]; cbn; [discriminate|].
  destruct (String.eqb_spec k k1) as [-> | Hne]; cbn; [reflexivity|].
  intros Hk. unfold dict_keys in IH. by rewrite IH.
Qed.

Lemma dict_set_nodup d k v :
  NoDup (dict_keys d) → NoDup (dict_keys (dict_set k v d)).
Proof.
  intros Hnd. destruct (dict_get k d) as [v0|] eqn:Hk.
  - by rewrite (dict_set_old _ _ _ _ Hk).
  - rewrite (dict_set_new _ _ _ Hk). unfold dict_keys. rewrite map_app.
    apply NoDup_app. split; [exact Hnd|]. split; [|apply NoDup_singleton].
    intros k' Hin Hk'. cbn in Hk'.
    apply list_elem_of_In in Hk'. destruct Hk' as [<- | []].
    apply list_elem_of_In, in_map_iff in Hin as [[k1 v1] [Heq Hin]].
    cbn in Heq. subst k1.
    assert (Hsome : is_Some (dict_get k d)).
    { clear -Hin. induction d as [|[k2 v2] d IH]; [destruct Hin|].
      cbn. destruct (String.eqb k k2) eqn:Heq; [by eexists|].
      destruct Hin as [[= -> ->] | Hin]; [|by apply IH].
      by rewrite String.eqb_refl in Heq. }
    rewrite Hk in Hsome. by destruct Hsome.
Qed.

Lemma dict_set_Forall (P : string * V → Prop) d k v :
  P (k, v) → Forall P d → Forall P (dict_set k v d).
Proof.
  intros Hkv Hd. induction Hd as [|[k0 v0] d H0 Hd IH]; cbn.
  - by constructor.
  - destruct (String.eqb k k0); by constructor.
Qed.

Lemma dict_set_head d k0 v0 k v :
  ∃ v' rest, dict_set k v ((k0, v0) :: d) = (k0, v') :: rest.
Proof.
  cbn. destruct (String.eqb_spec k k0) as [-> | _]; by eexists _, _.
Qed.
End DictUpdates.

Section PortfolioFacts.
Implicit Types (p : Portfolio) (wallet : Wallet).

(** Storing a wallet under its own code keeps a portfolio in shape. *)
Lemma well_formed_set p wallet :
  well_formed p →
  code_ok (currency_code wallet) →
  well_formed {| user_id := user_id p;
                 base_currency := base_currency p;
                 wallets := dict_set (currency_code wallet) wallet
                                     (wallets p) |}.
Proof.
  intros (Hbase & (wb & rest & Hw) & Hnd & Hall) Hcode.
  split; [exact Hbase|]. cbn [wallets base_currency]. split; [|split].
  - rewrite Hw. apply dict_set_head.
  - by apply dict_set_nodup.
  - by apply dict_set_Forall.
Qed.

Lemma Portfolio_init_cases (uid : Z) (base : string) :
  if py_isalpha base
  then ∃ p, Portfolio_init uid base = Ok p
            ∧ well_formed p
            ∧ user_id p = uid
            ∧ base_currency p = py_upper base
            ∧ wallets p = [(py_upper base,
                            {| currency_code := py_upper base;
                               balance := 0%float |})]
  else Portfolio_init uid base = Raise (ValueError "Некорректный код валюты.").
Proof.
  unfold Portfolio_init, add_currency. cbn [wallets dict_get].
  rewrite py_upper_idem.
  destruct (py_isalpha base) eqn:Hbase.
  - rewrite Wallet_init_ok by (by rewrite py_isalpha_upper).
    rewrite py_upper_idem. cbn [rbind dict_set user_id base_currency].
    eexists. split; [reflexivity|].
    pose proof (code_ok_upper base Hbase) as Hok.
    split; [|by repeat split].
    split; [exact Hok|]. cbn [wallets base_currency].
    split; [by eexists _, _|]. split.
    + cbn. apply NoDup_singleton.
    + constructor; [by split | constructor].
  - by rewrite Wallet_init_raises by (by rewrite py_isalpha_upper).
Qed.

Lemma from_dict_step_ok p (wd : WalletData) :
  py_isalpha (wd_currency_code wd) = true →
  from_dict_step p wd
  = Ok {| user_id := user_id p;
          base_currency := base_currency p;
          wallets :=
            dict_set (py_upper (wd_currency_code wd))
                     {| currency_code := py_upper (wd_currency_code wd);
                        balance := wd_balance wd |}
                     (wallets p) |}.
Proof.
  intros Hcode. unfold from_dict_step. by rewrite (Wallet_init_ok _ _ Hcode).
Qed.

Lemma from_dict_loop (l : list WalletData) p :
  well_formed p →
  if forallb py_isalpha (map wd_currency_code l)
  then ∃ p', for_each from_dict_step l p = Ok p'
             ∧ well_formed p'
             ∧ user_id p' = user_id p
             ∧ base_currency p' = base_currency p
  else for_each from_dict_step l p
       = Raise (ValueError "Некорректный код валюты.").
Proof.
  revert p. induction l as [|wd l IH]; intros p Hwf.
  - cbn. by exists p.
  - cbn [map forallb for_each].
    destruct (py_isalpha (wd_currency_code wd)) eqn:Hcode; cbn [andb].
    + rewrite (from_dict_step_ok p wd Hcode). cbn [rbind].
      match goal with
      | |- context [for_each from_dict_step l ?q] =>
          assert (Hq : well_formed q)
            by (apply (well_formed_set p
                         {| currency_code := py_upper (wd_currency_code wd);
                            balance := wd_balance wd |} Hwf);
                by apply code_ok_upper);
          specialize (IH q Hq)
      end.
      destruct (forallb py_isalpha (map wd_currency_code l)); exact IH.
    + unfold from_dict_step. by rewrite (Wallet_init_raises _ _ Hcode).
Qed.
Lemma from_dict_raises (data : PortfolioData) (e : exn) :
  from_dict data = Raise e → e = ValueError "Некорректный код валюты.".
Proof.
  unfold from_dict.
  pose proof (Portfolio_init_cases (pd_user_id data)
                (default "USD" (pd_base_currency data))) as Hinit.
  destruct (py_isalpha (default "USD" (pd_base_currency data)));
    [|rewrite Hinit; by intros [= <-]].
  destruct Hinit as (p0 & -> & Hwf & _). cbn [rbind].
  pose proof (from_dict_loop (map snd (default [] (pd_wallets data))) p0 Hwf)
    as Hloop.
  destruct (forallb py_isalpha
              (map wd_currency_code
                   (map snd (default [] (pd_wallets data)))));
    [|rewrite Hloop; by intros [= <-]].
  destruct Hloop as (p' & -> & _). discriminate.
Qed.

Lemma from_dict_well_formed (data : PortfolioData) p :
  from_dict data = Ok p → well_formed p.
Proof.
  unfold from_dict.
  pose proof (Portfolio_init_cases (pd_user_id data)
                (default "USD" (pd_base_currency data))) as Hinit.
  destruct (py_isalpha (default "USD" (pd_base_currency data)));
    [|by rewrite Hinit].
  destruct Hinit as (p0 & -> & Hwf & _). cbn [rbind].
  pose proof (from_dict_loop (map snd (default [] (pd_wallets data))) p0 Hwf)
    as Hloop.
  destruct (forallb py_isalpha
              (map wd_currency_code
                   (map snd (default [] (pd_wallets data)))));
    [|by rewrite Hloop].
  destruct Hloop as (p' & -> & Hwf' & _). by intros [= <-].
Qed.
End PortfolioFacts.

(** X16.  [Portfolio.from_dict] on a stored portfolio whose codes are texts
    of ASCII characters: it accepts the portfolio exactly when its base
    currency and the code of each of its wallets are alphabetic, and
    raises the [ValueError] of [Wallet] otherwise.  The portfolio it
    returns has the stored user and the base currency in upper case, the
    wallet of the base currency comes first, and each wallet is stored
    once, under its own upper-case code, whatever key the data had. *)
Theorem from_dict_spec (data : PortfolioData) :
  forallb is_ascii (data_codes data) = true →
  if forallb py_isalpha (data_codes data)
  then ∃ p, from_dict data = Ok p
            ∧ well_formed p
            ∧ user_id p = pd_user_id data
            ∧ base_currency p
              = py_upper (default "USD" (pd_base_currency data))
  else from_dict data = Raise (ValueError "Некорректный код валюты.").
Proof.
  intros _. unfold from_dict, data_codes. cbn [forallb].
  pose proof (Portfolio_init_cases (pd_user_id data)
                (default "USD" (pd_base_currency data))) as Hinit.
  destruct (py_isalpha (default "USD" (pd_base_currency data))); cbn [andb].
  - destruct Hinit as (p0 & -> & Hwf & Huid & Hbase & _). cbn [rbind].
    pose proof (from_dict_loop (map snd (default [] (pd_wallets data))) p0 Hwf)
      as Hloop.
    rewrite map_map in Hloop.
    destruct (forallb py_isalpha
                (map (fun item => wd_currency_code (snd item))
                     (default [] (pd_wallets data)))).
    + destruct Hloop as (p & Hrun & Hwf' & Huid' & Hbase').
      exists p. split; [exact Hrun|]. split; [exact Hwf'|].
      split; congruence.
    + exact Hloop.
  - by rewrite Hinit.
Qed.

Lemma from_dict_spec_witness :
  (∃ p, from_dict (to_dict alice_portfolio) = Ok p
        ∧ well_formed p
        ∧ user_id p = 1%Z
        ∧ base_currency p = "USD")
  ∧ from_dict {| pd_user_id := 1;
                 pd_base_currency := Some "US$";
                 pd_wallets := None |}
    = Raise (ValueError "Некорректный код валюты.").
Proof.
  split.
  - exact (from_dict_spec (to_dict alice_portfolio) eq_refl).
  - exact (from_dict_spec {| pd_user_id := 1;
                             pd_base_currency := Some "US$";
                             pd_wallets := None |} eq_refl).
Defined.

Section RoundTrip.
Implicit Types (p : Portfolio) (l : list (string * Wallet)).

Lemma filter_idem {A} (f : A → bool) (l : list A) :
  List.filter f (List.filter f l) = List.filter f l.
Proof.
  induction l as [|x l IH]; [reflexivity|].
  cbn. destruct (f x) eqn:Hx; [|exact IH]. cbn. by rewrite Hx, IH.
Qed.

Lemma filter_keys_in {V} (f : string * V → bool) (d : list (string * V)) k :
  In k (dict_keys (List.filter f d)) → In k (dict_keys d).
Proof.
  unfold dict_keys. rewrite !in_map_iff.
  intros (item & Hk & Hin). apply filter_In in Hin as [Hin _]. by exists item.
Qed.

Lemma filter_keys_nodup {V} (f : string * V → bool) (d : list (string * V)) :
  NoDup (dict_keys d) → NoDup (dict_keys (List.filter f d)).
Proof.
  induction d as [|[k v] d IH]; [done|].
  cbn [dict_keys map fst]. intros [Hk Hnd]%NoDup_cons. cbn [List.filter].
  destruct (f (k, v)); [|by apply IH].
  cbn [map fst]. apply NoDup_cons. split; [|by apply IH].
  rewrite list_elem_of_In in Hk |- *. intros Hin. apply Hk.
  by apply (filter_keys_in f).
Qed.

(** Storing entries under keys that are new, one after the other, appends
    them. *)
Lemma store_fresh {V} (l d : list (string * V)) :
  NoDup (dict_keys l) →
  (∀ k, In k (dict_keys l) → ¬ In k (dict_keys d)) →
  fold_left (fun acc item => dict_set (fst item) (snd item) acc) l d = d ++ l.
Proof.
  revert d. induction l as [|[k v] l IH]; intros d Hnd Hfresh.
  - cbn. by rewrite app_nil_r.
  - cbn [dict_keys map fst] in Hnd, Hfresh.
    apply NoDup_cons in Hnd as [Hk Hnd]. rewrite list_elem_of_In in Hk.
    cbn [fold_left fst snd].
    rewrite (dict_set_new d k v)
      by (apply dict_get_not_in, Hfresh; by left).
    rewrite IH; [by rewrite <- app_assoc | exact Hnd |].
    intros k' Hk' Hin. unfold dict_keys in Hin.
    rewrite map_app, in_app_iff in Hin. destruct Hin as [Hin | [<- | []]].
    + apply (Hfresh k'); [by right | exact Hin].
    + by apply Hk.
Qed.

(** On wallets stored under their own codes, the loop of [from_dict] over
    what [to_dict] wrote stores each wallet again as it was. *)
Lemma from_dict_loop_stores l p :
  Forall (fun item => code_ok (fst item)
                      ∧ currency_code (snd item) = fst item) l →
  for_each from_dict_step
    (map (fun item => {| wd_currency_code := currency_code (snd item);
                         wd_balance := balance (snd item) |}) l) p
  = Ok {| user_id := user_id p;
          base_currency := base_currency p;
          wallets := fold_left (fun acc item =>
                                  dict_set (fst item) (snd item) acc)
                               l (wallets p) |}.
Proof.
  intros Hl. revert p.
  induction Hl as [|[code wallet] l [[Halpha Hupper] Hcode] _ IH]; intros p.
  - cbn. by destruct p.
  - cbn [fst snd] in Halpha, Hupper, Hcode.
    cbn [map for_each fold_left fst snd].
    rewrite from_dict_step_ok by (cbn; by rewrite Hcode).
    cbn [rbind wd_currency_code wd_balance].
    rewrite IH. cbn [user_id base_currency wallets].
    rewrite Hcode, Hupper. by destruct wallet; cbn in *; subst.
Qed.
End RoundTrip.

(** X17.  Saving and loading a portfolio: [from_dict] accepts what
    [to_dict] wrote for a well-formed portfolio, and gives back the same
    user and base currency and the same wallets in the same order, without
    the wallets whose balance is zero, except that the wallet of the base
    currency is always there, with balance 0.0 when it was left out.
    Saving the portfolio that was loaded writes the same data again. *)
Theorem portfolio_round_trip (p : Portfolio) :
  well_formed p →
  ∃ p',
    from_dict (to_dict p) = Ok p'
    ∧ well_formed p'
    ∧ user_id p' = user_id p
    ∧ base_currency p' = base_currency p
    ∧ wallets p'
      = match wallets p with
        | (code, wallet) :: rest =>
            (code, if float_nonzero (balance wallet) then wallet
                   else {| currency_code := code; balance := 0%float |})
            :: List.filter active rest
        | [] => []
        end
    ∧ to_dict p' = to_dict p.
Proof.
  intros Hwf.
  pose proof Hwf as ([Halpha Hupper] & (wb & rest & Hw) & Hnd & Hall).
  set (h := if float_nonzero (balance wb) then wb
            else {| currency_code := base_currency p; balance := 0%float |}).
  assert (Hload : from_dict (to_dict p)
                  = Ok {| user_id := user_id p;
                          base_currency := base_currency p;
                          wallets := (base_currency p, h)
                                     :: List.filter active rest |}).
  { unfold from_dict, to_dict.
    cbn [pd_user_id pd_base_currency pd_wallets from_option id].
    pose proof (Portfolio_init_cases (user_id p) (base_currency p)) as Hinit.
    rewrite Halpha, Hupper in Hinit.
    destruct Hinit as (p0 & -> & _ & Huid & Hbase & Hw0). cbn [rbind].
    rewrite map_map. cbn [snd].
    rewrite from_dict_loop_stores.
    2: { apply Forall_forall. intros item Hin.
         apply list_elem_of_In, filter_In in Hin as [Hin _].
         rewrite Forall_forall in Hall. apply Hall.
         by apply list_elem_of_In. }
    rewrite Huid, Hbase, Hw0. do 2 f_equal.
    rewrite Hw in Hnd, Hall |- *. cbn [dict_keys map fst] in Hnd.
    apply NoDup_cons in Hnd as [Hb Hnd]. rewrite list_elem_of_In in Hb.
    assert (Hrest : ∀ d0,
      dict_keys d0 = [base_currency p] →
      fold_left (fun acc item => dict_set (fst item) (snd item) acc)
                (List.filter active rest) d0
      = d0 ++ List.filter active rest).
    { intros d0 Hd0. apply store_fresh.
      - by apply filter_keys_nodup.
      - intros k Hk Hin. rewrite Hd0 in Hin. destruct Hin as [<- | []].
        apply Hb. by apply (filter_keys_in active). }
    cbn [List.filter]. unfold active at 1. cbn [snd]. subst h.
    apply Forall_cons in Hall as [[_ Hcode] _]. cbn [fst snd] in Hcode.
    destruct (float_nonzero (balance wb)).
    - cbn [fold_left fst snd dict_set]. rewrite String.eqb_refl.
      by rewrite Hrest.
    - by rewrite Hrest. }
  eexists. split; [exact Hload|].
  split.
  { exact (from_dict_well_formed _ _ Hload). }
  cbn [user_id base_currency wallets].
  split; [reflexivity|]. split; [reflexivity|].
  rewrite Hw. split; [reflexivity|].
  unfold to_dict. cbn [user_id base_currency wallets]. do 2 f_equal.
  change (fun item : string * Wallet => float_nonzero (balance (snd item)))
    with active.
  rewrite Hw. cbn [List.filter]. rewrite filter_idem.
  replace (active (base_currency p, h)) with (float_nonzero (balance h))
    by reflexivity.
  replace (active (base_currency p, wb)) with (float_nonzero (balance wb))
    by reflexivity.
  subst h. destruct (float_nonzero (balance wb)) eqn:Hnz.
  - by rewrite Hnz.
  - reflexivity.
Qed.

Lemma portfolio_round_trip_witness :
  ∃ p',
    from_dict (to_dict alice_portfolio) = Ok p'
    ∧ well_formed p'
    ∧ user_id p' = 1%Z
    ∧ base_currency p' = "USD"
    ∧ wallets p'
      = [ ("USD", {| currency_code := "USD"; balance := 100 |});
          ("BTC", {| currency_code := "BTC"; balance := 0.5 |}) ]
    ∧ to_dict p' = to_dict alice_portfolio.
Proof.
  apply (portfolio_round_trip alice_portfolio).
  split; [by split|]. split; [by eexists _, _|]. split.
  - apply (bool_decide_unpack _). vm_compute. reflexivity.
  - constructor; [by repeat split|].
    constructor; [by repeat split|].
    constructor; [by repeat split | constructor].
Defined.

(** X18.  [Portfolio.add_currency] on a well-formed portfolio, for a code
    of ASCII characters: a code that is not alphabetic raises the
    [ValueError] of [Wallet]; for any other code the portfolio stays well
    formed and [get_wallet] then finds a
    wallet for the code, in whatever case the code is written: the one
    that was there, untouched, or else a new one with balance 0.0.  No
    wallet that was there is changed, and adding the code again changes
    nothing. *)
Theorem add_currency_spec (code : string) (p : Portfolio) :
  is_ascii code = true →
  well_formed p →
  if py_isalpha code
  then ∃ p' wallet,
         add_currency code p = Ok p'
         ∧ well_formed p'
         ∧ get_wallet code p' = Ok wallet
         ∧ (get_wallet code p = Ok wallet
            ∨ (dict_get (py_upper code) (wallets p) = None
               ∧ wallet = {| currency_code := py_upper code;
                             balance := 0%float |}))
         ∧ (∀ c w, get_wallet c p = Ok w → get_wallet c p' = Ok w)
         ∧ add_currency code p' = Ok p'
  else add_currency code p = Raise (ValueError "Некорректный код валюты.").
Proof.
  intros _ Hwf. unfold add_currency, get_wallet.
  destruct (py_isalpha code) eqn:Halpha.
  - destruct (dict_get (py_upper code) (wallets p)) as [w0|] eqn:Hget.
    + exists p, w0. rewrite Hget.
      split; [reflexivity|]. split; [exact Hwf|]. split; [reflexivity|].
      split; [by left|]. split; [by intros c w Hc | reflexivity].
    + rewrite Wallet_init_ok by (by rewrite py_isalpha_upper).
      rewrite py_upper_idem. cbn [rbind].
      eexists _, _. split; [reflexivity|]. split.
      { apply (well_formed_set p
                 {| currency_code := py_upper code; balance := 0%float |} Hwf).
        by apply code_ok_upper. }
      cbn [wallets]. rewrite dict_get_set_eq.
      split; [reflexivity|]. split; [by right|]. split; [|reflexivity].
      intros c w.
      destruct (String.eqb_spec (py_upper code) (py_upper c)) as [<- | Hne].
      * by rewrite Hget.
      * by rewrite dict_get_set_ne.
  - destruct (dict_get (py_upper code) (wallets p)) as [w0|] eqn:Hget.
    + destruct Hwf as (_ & _ & _ & Hall). rewrite Forall_forall in Hall.
      assert (Hin : In (py_upper code, w0) (wallets p)).
      { clear -Hget. induction (wallets p) as [|[k v] d IH]; [discriminate|].
        cbn in Hget. destruct (String.eqb_spec (py_upper code) k) as [<- | _].
        - injection Hget as ->. by left.
        - right. by apply IH. }
      apply list_elem_of_In, Hall in Hin as [[Hok _] _]. cbn [fst] in Hok.
      rewrite py_isalpha_upper in Hok. congruence.
    + by rewrite Wallet_init_raises by (by rewrite py_isalpha_upper).
Qed.

Lemma add_currency_spec_witness :
  ∃ p' wallet,
    add_currency "eth" alice_portfolio = Ok p'
    ∧ well_formed p'
    ∧ get_wallet "eth" p' = Ok wallet
    ∧ (get_wallet "eth" alice_portfolio = Ok wallet
       ∨ (dict_get (py_upper "eth") (wallets alice_portfolio) = None
          ∧ wallet = {| currency_code := py_upper "eth";
                        balance := 0%float |}))
    ∧ (∀ c w, get_wallet c alice_portfolio = Ok w → get_wallet c p' = Ok w)
    ∧ add_currency "eth" p' = Ok p'.
Proof.
  apply (add_currency_spec "eth" alice_portfolio); [reflexivity|].
  split; [by split|]. split; [by eexists _, _|]. split.
  - apply (bool_decide_unpack _). vm_compute. reflexivity.
  - constructor; [by repeat split|].
    constructor; [by repeat split|].
    constructor; [by repeat split | constructor].
Defined.

Section PortfoliosFile.
Variable settings_base_currency : string.
Implicit Types (p : Portfolio) (f : File (list PortfolioData))
  (l : list PortfolioData) (uid : Z).

Lemma find_app_none {A} (g : A → bool) (l1 l2 : list A) :
  List.find g l1 = None → List.find g (l1 ++ l2) = List.find g l2.
Proof.
  induction l1 as [|x l1 IH]; [done|]. cbn.
  destruct (g x); [discriminate | exact IH].
Qed.

Lemma find_app_some {A} (g : A → bool) (l1 l2 : list A) (x : A) :
  List.find g l1 = Some x → List.find g (l1 ++ l2) = Some x.
Proof.
  induction l1 as [|y l1 IH]; [discriminate|]. cbn.
  destruct (g y); [done | exact IH].
Qed.

Lemma find_filter_other l uid uid' :
  uid ≠ uid' →
  List.find (fun d => (pd_user_id d =? uid)%Z)
            (List.filter (fun d => negb (pd_user_id d =? uid')%Z) l)
  = List.find (fun d => (pd_user_id d =? uid)%Z) l.
Proof.
  intros Hne. induction l as [|d l IH]; [reflexivity|]. cbn.
  destruct (Z.eqb_spec (pd_user_id d) uid') as [Hd | Hd]; cbn.
  - destruct (Z.eqb_spec (pd_user_id d) uid) as [Hd' | _]; [congruence|].
    exact IH.
  - destruct (pd_user_id d =? uid)%Z; [reflexivity | exact IH].
Qed.

Lemma find_filter_self l uid :
  List.find (fun d => (pd_user_id d =? uid)%Z)
            (List.filter (fun d => negb (pd_user_id d =? uid)%Z) l)
  = None.
Proof.
  induction l as [|d l IH]; [reflexivity|]. cbn.
  destruct (pd_user_id d =? uid)%Z eqn:Hd; cbn; [exact IH|].
  by rewrite Hd.
Qed.

Lemma filter_filter_self l uid :
  List.filter (fun d => (pd_user_id d =? uid)%Z)
              (List.filter (fun d => negb (pd_user_id d =? uid)%Z) l)
  = [].
Proof.
  induction l as [|d l IH]; [reflexivity|]. cbn.
  destruct (pd_user_id d =? uid)%Z eqn:Hd; cbn; [exact IH|].
  by rewrite Hd.
Qed.
End PortfoliosFile.

(** X19.  Saving a portfolio and loading it again: after
    [_save_user_portfolio] the file holds exactly one entry of the user,
    the one [to_dict] built, and [_load_user_portfolio] returns what
    [from_dict] makes of it, without writing.  The entries of the other
    users are the same as before, in the same order, so that each of them
    loads as before. *)
Theorem save_then_load_user_portfolio (settings_base_currency : string)
    (p : Portfolio) (f : File (list PortfolioData)) :
  let f' := _save_user_portfolio p f in
  _load_user_portfolio settings_base_currency (user_id p) f'
  = (from_dict (to_dict p), f')
  ∧ List.filter (fun d => (pd_user_id d =? user_id p)%Z) (load_portfolios f')
    = [to_dict p]
  ∧ List.filter (fun d => negb (pd_user_id d =? user_id p)%Z)
                (load_portfolios f')
    = List.filter (fun d => negb (pd_user_id d =? user_id p)%Z)
                  (load_portfolios f)
  ∧ ∀ uid, uid ≠ user_id p →
      List.find (fun d => (pd_user_id d =? uid)%Z) (load_portfolios f')
      = List.find (fun d => (pd_user_id d =? uid)%Z) (load_portfolios f).
Proof.
  cbn zeta. unfold _load_user_portfolio, _save_user_portfolio.
  cbn [load_portfolios].
  assert (Hself : (pd_user_id (to_dict p) =? user_id p)%Z = true)
    by apply Z.eqb_refl.
  split; [|split; [|split]].
  - rewrite find_app_none by apply find_filter_self.
    cbn [List.find]. by rewrite Hself.
  - rewrite List.filter_app, filter_filter_self. cbn [List.filter app].
    by rewrite Hself.
  - rewrite List.filter_app, filter_idem. cbn [List.filter].
    rewrite Hself. cbn [negb]. by rewrite app_nil_r.
  - intros uid Hne.
    destruct (List.find (fun d => (pd_user_id d =? uid)%Z) (load_portfolios f))
      as [d|] eqn:Hfind.
    + apply find_app_some. by rewrite find_filter_other.
    + rewrite find_app_none by (by rewrite find_filter_other).
      cbn [List.find].
      destruct (Z.eqb_spec (pd_user_id (to_dict p)) uid) as [Heq | _];
        [|reflexivity].
      cbn in Heq. congruence.
Qed.

Lemma save_then_load_user_portfolio_witness :
  _load_user_portfolio "USD" 1 (_save_user_portfolio alice_portfolio Missing)
  = (from_dict (to_dict alice_portfolio),
     _save_user_portfolio alice_portfolio Missing).
Proof.
  exact (proj1 (save_then_load_user_portfolio "USD" alice_portfolio Missing)).
Defined.

Section WalletFacts.
Implicit Types (p : Portfolio) (wallet : Wallet) (code : string).

Lemma dict_set_set {V} (d : list (string * V)) k (v v0 : V) :
  dict_set k v (dict_set k v0 d) = dict_set k v d.
Proof.
  induction d as [|[k1 v1] d IH]; cbn.
  - by rewrite String.eqb_refl.
  - destruct (String.eqb_spec k k1) as [-> | Hk]; cbn.
    + by rewrite String.eqb_refl.
    + apply String.eqb_neq in Hk. by rewrite Hk, IH.
Qed.

Lemma dict_get_In {V} (d : list (string * V)) k (v : V) :
  dict_get k d = Some v → In (k, v) d.
Proof.
  induction d as [|[k1 v1] d IH]; [discriminate|]. cbn.
  destruct (String.eqb_spec k k1) as [-> | _].
  - intros [= ->]. by left.
  - intros Hk. right. by apply IH.
Qed.

Lemma well_formed_lookup p code wallet :
  well_formed p →
  dict_get code (wallets p) = Some wallet →
  code_ok code ∧ currency_code wallet = code.
Proof.
  intros (_ & _ & _ & Hall) Hget. rewrite Forall_forall in Hall.
  apply dict_get_In, list_elem_of_In, Hall in Hget. exact Hget.
Qed.

Lemma well_formed_base p :
  well_formed p →
  ∃ wallet, dict_get (base_currency p) (wallets p) = Some wallet.
Proof.
  intros (_ & (wallet & rest & Hw) & _). exists wallet. rewrite Hw. cbn.
  by rewrite String.eqb_refl.
Qed.

(** A method that changes the balance of a wallet in place keeps the
    portfolio in shape. *)
Lemma well_formed_store p code wallet (b : float) :
  well_formed p →
  dict_get code (wallets p) = Some wallet →
  well_formed (store_wallet code {| currency_code := code; balance := b |} p).
Proof.
  intros Hwf Hget.
  destruct (well_formed_lookup p code wallet Hwf Hget) as [Hok _].
  exact (well_formed_set p {| currency_code := code; balance := b |} Hwf Hok).
Qed.

Lemma registry_code_ok code :
  string_in (py_upper code) CURRENCY_REGISTRY = true → code_ok (py_upper code).
Proof.
  intros Hreg. split; [|apply py_upper_idem].
  unfold string_in, CURRENCY_REGISTRY in Hreg. cbn [existsb] in Hreg.
  repeat (apply orb_prop in Hreg as [Hreg | Hreg];
          [apply String.eqb_eq in Hreg; by rewrite Hreg|]).
  discriminate Hreg.
Qed.

Lemma from_dict_user_id (data : PortfolioData) p :
  from_dict data = Ok p → user_id p = pd_user_id data.
Proof.
  unfold from_dict.
  pose proof (Portfolio_init_cases (pd_user_id data)
                (default "USD" (pd_base_currency data))) as Hinit.
  destruct (py_isalpha (default "USD" (pd_base_currency data)));
    [|by rewrite Hinit].
  destruct Hinit as (p0 & -> & Hwf & Huid & _). cbn [rbind].
  pose proof (from_dict_loop (map snd (default [] (pd_wallets data))) p0 Hwf)
    as Hloop.
  destruct (forallb py_isalpha
              (map wd_currency_code
                   (map snd (default [] (pd_wallets data)))));
    [|by rewrite Hloop].
  destruct Hloop as (p' & -> & _ & Huid' & _). intros [= <-]. congruence.
Qed.
End WalletFacts.

Section TradeFacts.
Variable settings_base_currency : string.
Variables fmt4 fmt6 : float -> string.
Implicit Types (p : Portfolio) (f : File (list PortfolioData)) (s : Session).

(** What [_load_user_portfolio] returns is a well-formed portfolio of the
    user; the file is as it was, or has the new portfolio of a user who
    had none. *)
Lemma load_user_portfolio_cases (uid : Z) f :
  ∃ r f1,
    _load_user_portfolio settings_base_currency uid f = (r, f1)
    ∧ (∀ p, r = Ok p → well_formed p ∧ user_id p = uid)
    ∧ (∀ e, r = Raise e → e = ValueError "Некорректный код валюты.")
    ∧ (f1 = f
       ∨ ∃ p, r = Ok p ∧ f1 = _save_user_portfolio p f
              ∧ List.find (fun d => (pd_user_id d =? uid)%Z)
                          (load_portfolios f) = None).
Proof.
  unfold _load_user_portfolio.
  destruct (List.find (fun d => (pd_user_id d =? uid)%Z) (load_portfolios f))
    as [d|] eqn:Hfind.
  - exists (from_dict d), f. split; [reflexivity|].
    apply find_some in Hfind as [_ Hd]. apply Z.eqb_eq in Hd.
    split; [|split; [|by left]].
    + intros p Hp. split; [exact (from_dict_well_formed _ _ Hp)|].
      by rewrite (from_dict_user_id _ _ Hp).
    + intros e He. exact (from_dict_raises _ _ He).
  - pose proof (Portfolio_init_cases uid settings_base_currency) as Hinit.
    destruct (py_isalpha settings_base_currency).
    + destruct Hinit as (p & -> & Hwf & Huid & _).
      exists (Ok p), (_save_user_portfolio p f). split; [reflexivity|].
      split; [by intros ? [= <-]|]. split; [intros e [=]|].
      right. by exists p.
    + rewrite Hinit. eexists _, f. split; [reflexivity|].
      split; [intros p [=]|]. split; [by intros e [= <-] | by left].
Qed.
End TradeFacts.

Section TradeCases.
Variables fmt4 fmt6 : float -> string.
Implicit Types (p : Portfolio) (code : string) (amount r : float).

Lemma well_formed_base_upper p :
  well_formed p → py_upper (base_currency p) = base_currency p.
Proof. by intros ([_ Hupper] & _). Qed.

(** [buy] with a rate and a code that is not the base currency: either the
    funds do not suffice, or the cost is not positive, or the purchase goes
    through. *)
Lemma buy_loaded_cases code amount p rates (base_wallet : Wallet) r :
  well_formed p →
  code_ok code →
  PrimFloat.leb amount 0%float = false →
  dict_get (base_currency p) (wallets p) = Some base_wallet →
  String.eqb code (base_currency p) = false →
  conversion_rate rates (base_currency p) code = Some r →
  rate_unavailable (Some r) = false →
  let base := base_currency p in
  let cost := PrimFloat.div amount r in
  let old := match dict_get code (wallets p) with
             | Some wallet => balance wallet
             | None => 0%float
             end in
  let base_wallet' := {| currency_code := base;
                         balance := PrimFloat.sub (balance base_wallet) cost |} in
  let target_wallet' := {| currency_code := code;
                           balance := PrimFloat.add old amount |} in
  buy_loaded fmt4 fmt6 code amount p rates
  = if PrimFloat.ltb (balance base_wallet) cost
    then Raises (InsufficientFundsError (balance base_wallet) cost base)
    else if PrimFloat.leb cost 0%float
    then Raises (Builtin (ValueError "Сумма должна быть > 0."))
    else Returns
           (_format_operation_result fmt4 fmt6 Buy code amount cost r old
              (balance target_wallet') base (balance base_wallet)
              (balance base_wallet'),
            Some (store_wallet code target_wallet'
                    (store_wallet base base_wallet' p))).
Proof.
  intros Hwf [Halpha Hupper] Hamount Hbase Hne Hrate Havail base cost old
    base_wallet' target_wallet'.
  pose proof (well_formed_base_upper p Hwf) as Hbu.
  destruct (well_formed_lookup p _ _ Hwf Hbase) as [_ Hbcode].
  unfold buy_loaded. rewrite Hne, Hrate, Havail.
  unfold get_base_wallet, get_wallet. rewrite Hbu, Hbase.
  fold base cost.
  destruct (PrimFloat.ltb (balance base_wallet) cost) eqn:Hfunds;
    [reflexivity|].
  unfold Wallet_withdraw. rewrite Hfunds.
  destruct (PrimFloat.leb cost 0%float); [reflexivity|].
  rewrite Hbcode. fold base base_wallet'.
  assert (Hother : dict_get code (wallets (store_wallet base base_wallet' p))
                   = dict_get code (wallets p)).
  { cbn [store_wallet wallets]. apply dict_get_set_ne.
    apply String.eqb_neq in Hne. intros Heq. apply Hne. symmetry.
    exact Heq. }
  rewrite Hother. subst old.
  destruct (dict_get code (wallets p)) as [target|] eqn:Htarget.
  - rewrite Hupper, Hother.
    unfold Wallet_deposit. rewrite Hamount.
    destruct (well_formed_lookup p _ _ Hwf Htarget) as [_ ->].
    reflexivity.
  - unfold add_currency. rewrite Hupper, Hother.
    rewrite (Wallet_init_ok _ _ Halpha), Hupper. cbn [rbind wallets].
    rewrite dict_get_set_eq.
    unfold Wallet_deposit. rewrite Hamount. cbn [currency_code balance].
    unfold store_wallet at 1. cbn [wallets user_id base_currency].
    rewrite dict_set_set. reflexivity.
Qed.

(** [sell] of a currency the user holds, with a rate. *)
Lemma sell_loaded_cases code amount p rates (base_wallet target : Wallet) r :
  well_formed p →
  PrimFloat.leb amount 0%float = false →
  dict_get (base_currency p) (wallets p) = Some base_wallet →
  dict_get code (wallets p) = Some target →
  String.eqb code (base_currency p) = false →
  PrimFloat.ltb (balance target) amount = false →
  conversion_rate rates code (base_currency p) = Some r →
  rate_unavailable (Some r) = false →
  let base := base_currency p in
  let revenue := PrimFloat.mul amount r in
  let target_wallet' := {| currency_code := code;
                           balance := PrimFloat.sub (balance target) amount |} in
  let base_wallet' := {| currency_code := base;
                         balance := PrimFloat.add (balance base_wallet)
                                                  revenue |} in
  sell_loaded fmt4 fmt6 code amount p rates
  = if PrimFloat.leb revenue 0%float
    then Raises (Builtin (ValueError "Сумма должна быть > 0."))
    else Returns
           (_format_operation_result fmt4 fmt6 Sell code amount revenue r
              (balance target) (balance target_wallet') base
              (balance base_wallet) (balance base_wallet'),
            Some (store_wallet base base_wallet'
                    (store_wallet code target_wallet' p))).
Proof.
  intros Hwf Hamount Hbase Htarget Hne Hfunds Hrate Havail base revenue
    target_wallet' base_wallet'.
  pose proof (well_formed_base_upper p Hwf) as Hbu.
  destruct (well_formed_lookup p _ _ Hwf Hbase) as [_ Hbcode].
  destruct (well_formed_lookup p _ _ Hwf Htarget) as [[_ Hupper] Htcode].
  unfold sell_loaded. rewrite Hne, Htarget.
  unfold get_wallet at 1. rewrite Hupper, Htarget, Hfunds, Hrate, Havail.
  unfold Wallet_withdraw. rewrite Hamount, Hfunds.
  rewrite Htcode. fold target_wallet'.
  unfold get_base_wallet, get_wallet.
  cbn [store_wallet base_currency wallets]. rewrite Hbu.
  rewrite dict_get_set_ne by (by apply String.eqb_neq in Hne).
  rewrite Hbase. unfold Wallet_deposit. fold revenue.
  destruct (PrimFloat.leb revenue 0%float); [reflexivity|].
  rewrite Hbcode. reflexivity.
Qed.

(** [deposit] on a well-formed portfolio goes through. *)
Lemma deposit_loaded_cases amount p (base_wallet : Wallet) :
  well_formed p →
  PrimFloat.leb amount 0%float = false →
  dict_get (base_currency p) (wallets p) = Some base_wallet →
  let base := base_currency p in
  let base_wallet' := {| currency_code := base;
                         balance := PrimFloat.add (balance base_wallet)
                                                  amount |} in
  deposit_loaded fmt4 amount p
  = Returns
      ("✅ Базовая валюта пополнена: +" +:+ fmt4 amount +:+ " " +:+ base
       +:+ nl
       +:+ " Баланс " +:+ base +:+ ": было " +:+ fmt4 (balance base_wallet)
       +:+ " → стало " +:+ fmt4 (balance base_wallet'),
       Some (store_wallet base base_wallet' p)).
Proof.
  intros Hwf Hamount Hbase base base_wallet'.
  pose proof (well_formed_base_upper p Hwf) as Hbu.
  destruct (well_formed_lookup p _ _ Hwf Hbase) as [_ Hbcode].
  unfold deposit_loaded, get_base_wallet, get_wallet.
  rewrite Hbu, Hbase. unfold Wallet_deposit. rewrite Hamount, Hbcode.
  reflexivity.
Qed.
End TradeCases.

Section RunTrade.
Variable settings_base_currency : string.
Variables fmt4 fmt6 : float -> string.
Implicit Types (p : Portfolio) (s : Session) (amount : float).

Lemma validate_trade_ok (currency : option string) amount s (user : User) :
  current_user s = Some user →
  PrimFloat.leb amount 0%float = false →
  match currency with
  | Some c => string_in (py_upper c) CURRENCY_REGISTRY = true
  | None => True
  end →
  validate_trade currency amount s = Returns user.
Proof.
  intros Huser Hamount Hcode.
  unfold validate_trade, _validate_user_logged_in, _validate_positive_amount.
  rewrite Huser, Hamount. destruct currency as [c|]; [|reflexivity].
  unfold _validate_currency_code, get_currency.
  by rewrite py_upper_idem, Hcode.
Qed.

(** A use case whose validation passes and whose portfolio loads. *)
Lemma run_trade_loaded (currency : option string) amount
    (loaded : Portfolio → outcome (string * option Portfolio)) s
    (user : User) p (f1 : File (list PortfolioData)) :
  current_user s = Some user →
  PrimFloat.leb amount 0%float = false →
  match currency with
  | Some c => string_in (py_upper c) CURRENCY_REGISTRY = true
  | None => True
  end →
  _load_user_portfolio settings_base_currency (u_user_id user)
                       (portfolios_file s) = (Ok p, f1) →
  run_trade settings_base_currency currency amount loaded s
  = match loaded p with
    | Raises e => (Raises e, with_portfolios f1 s)
    | Returns (message, None) => (Returns message, with_portfolios f1 s)
    | Returns (message, Some p') =>
        (Returns message, with_portfolios (_save_user_portfolio p' f1) s)
    end.
Proof.
  intros Huser Hamount Hcode Hload. unfold run_trade.
  by rewrite (validate_trade_ok currency amount s user Huser Hamount Hcode),
             Hload.
Qed.
End RunTrade.

(** X20.  [buy] on its main path.  For a user who is logged in, a positive
    amount, a currency of the registry other than the base currency of the
    portfolio, and a rate that is available: if the base wallet holds less
    than the cost (amount / rate), [InsufficientFundsError] is raised with
    the balance, the cost and the base currency; if the cost is not
    positive, the [ValueError] of the wallet; in both cases nothing is
    saved.  Otherwise the purchase is saved: the base wallet has the cost
    less, the wallet of the currency, created when there was none, has the
    amount more, and every other wallet is as it was. *)
Theorem buy_main_path (settings_base_currency : string)
    (fmt4 fmt6 : float -> string) (currency : string) (amount : float)
    (s : Session) (user : User) (p : Portfolio)
    (f1 : File (list PortfolioData)) (base_wallet : Wallet) (r : float) :
  current_user s = Some user →
  PrimFloat.leb amount 0%float = false →
  string_in (py_upper currency) CURRENCY_REGISTRY = true →
  _load_user_portfolio settings_base_currency (u_user_id user)
                       (portfolios_file s) = (Ok p, f1) →
  get_base_wallet p = Ok base_wallet →
  py_upper currency ≠ base_currency p →
  conversion_rate (rates_file s) (base_currency p) (py_upper currency)
  = Some r →
  rate_unavailable (Some r) = false →
  let code := py_upper currency in
  let base := base_currency p in
  let cost := PrimFloat.div amount r in
  let old := match dict_get code (wallets p) with
             | Some wallet => balance wallet
             | None => 0%float
             end in
  let base_wallet' := {| currency_code := base;
                         balance := PrimFloat.sub (balance base_wallet) cost |} in
  let target_wallet' := {| currency_code := code;
                           balance := PrimFloat.add old amount |} in
  let p' := store_wallet code target_wallet'
              (store_wallet base base_wallet' p) in
  buy settings_base_currency fmt4 fmt6 currency amount s
  = (if PrimFloat.ltb (balance base_wallet) cost
     then (Raises (InsufficientFundsError (balance base_wallet) cost base),
           with_portfolios f1 s)
     else if PrimFloat.leb cost 0%float
     then (Raises (Builtin (ValueError "Сумма должна быть > 0.")),
           with_portfolios f1 s)
     else (Returns
             (_format_operation_result fmt4 fmt6 Buy code amount cost r old
                (balance target_wallet') base (balance base_wallet)
                (balance base_wallet')),
           with_portfolios (_save_user_portfolio p' f1) s))
  ∧ well_formed p'
  ∧ get_base_wallet p' = Ok base_wallet'
  ∧ get_wallet code p' = Ok target_wallet'
  ∧ ∀ c, c ≠ code → c ≠ base →
         dict_get c (wallets p') = dict_get c (wallets p).
Proof.
  intros Huser Hamount Hreg Hload Hbase Hne Hrate Havail code base cost old
    base_wallet' target_wallet' p'.
  destruct (load_user_portfolio_cases settings_base_currency (u_user_id user)
              (portfolios_file s)) as (r0 & f0 & Hload' & Hwf & _).
  rewrite Hload in Hload'. injection Hload' as <- <-.
  destruct (Hwf p eq_refl) as [Hp _].
  pose proof (registry_code_ok currency Hreg) as Hcode.
  pose proof (well_formed_base_upper p Hp) as Hbu.
  unfold get_base_wallet, get_wallet in Hbase. rewrite Hbu in Hbase.
  destruct (dict_get (base_currency p) (wallets p)) as [bw|] eqn:Hbw;
    [|discriminate Hbase].
  injection Hbase as ->.
  apply String.eqb_neq in Hne.
  split.
  { unfold buy.
    rewrite (run_trade_loaded settings_base_currency (Some currency) amount _ s
               user p f1 Huser Hamount Hreg Hload).
    pose proof (buy_loaded_cases fmt4 fmt6 (py_upper currency) amount p
                  (rates_file s) base_wallet r Hp Hcode Hamount Hbw Hne Hrate
                  Havail) as Hcases.
    cbn zeta in Hcases. cbn beta. rewrite Hcases.
    fold code base cost old base_wallet' target_wallet' p'.
    destruct (PrimFloat.ltb (balance base_wallet) cost); [reflexivity|].
    destruct (PrimFloat.leb cost 0%float); reflexivity. }
  assert (Hp1 : well_formed (store_wallet base base_wallet' p))
    by exact (well_formed_store p base base_wallet _ Hp Hbw).
  apply String.eqb_neq in Hne.
  split; [|split; [|split]].
  - exact (well_formed_set (store_wallet base base_wallet' p) target_wallet'
             Hp1 Hcode).
  - unfold get_base_wallet, get_wallet.
    cbn [p' store_wallet base_currency wallets]. rewrite Hbu.
    rewrite dict_get_set_ne by exact Hne.
    by rewrite dict_get_set_eq.
  - unfold get_wallet.
    replace (py_upper code) with code by (symmetry; apply py_upper_idem).
    cbn [p' store_wallet wallets]. by rewrite dict_get_set_eq.
  - intros c Hc Hb. cbn [p' store_wallet wallets].
    rewrite !dict_get_set_ne; [reflexivity | by intros <- | by intros <-].
Qed.

Lemma buy_main_path_witness :
  ∃ message p',
    buy "USD" fmt_sample fmt_sample "btc" 0.0009765625 alice_session
    = (Returns message,
       with_portfolios
         (_save_user_portfolio p' (Stored [to_dict alice_portfolio]))
         alice_session)
    ∧ well_formed p'
    ∧ get_wallet "BTC" p'
      = Ok {| currency_code := "BTC";
              balance := PrimFloat.add 0.5 0.0009765625 |}.
Proof.
  destruct (buy_main_path "USD" fmt_sample fmt_sample "btc" 0.0009765625
              alice_session {| u_user_id := 1; u_username := "alice" |}
              {| user_id := 1;
                 base_currency := "USD";
                 wallets := [ ("USD", {| currency_code := "USD";
                                          balance := 100 |});
                              ("BTC", {| currency_code := "BTC";
                                          balance := 0.5 |}) ] |}
              (Stored [to_dict alice_portfolio])
              {| currency_code := "USD"; balance := 100 |}
              (PrimFloat.div 1 50000))
    as (Hbuy & Hwf & _ & Htarget & _);
    [reflexivity | reflexivity | reflexivity | vm_compute; reflexivity
    | reflexivity | discriminate | vm_compute; reflexivity | reflexivity |].
  match type of Hbuy with
  | context [if ?c then _ else _] =>
      assert (Hfunds : c = false) by (vm_compute; reflexivity);
      rewrite Hfunds in Hbuy
  end.
  match type of Hbuy with
  | context [if ?c then _ else _] =>
      assert (Hcost : c = false) by (vm_compute; reflexivity);
      rewrite Hcost in Hbuy
  end.
  eexists _, _. split; [exact Hbuy|]. split; [exact Hwf | exact Htarget].
Defined.

(** X21.  [sell] of a currency the user holds, other than the base
    currency.  If the wallet holds less than the amount,
    [InsufficientFundsError] is raised with the balance, the amount and
    the code, whatever the rates are.  Otherwise, with a rate that is
    available, the sale is saved unless the revenue (amount * rate) is not
    positive, which raises the [ValueError] of the wallet and saves
    nothing: the wallet of the currency has the amount less, the base
    wallet the revenue more, and every other wallet is as it was. *)
Theorem sell_main_path (settings_base_currency : string)
    (fmt4 fmt6 : float -> string) (currency : string) (amount : float)
    (s : Session) (user : User) (p : Portfolio)
    (f1 : File (list PortfolioData)) (base_wallet target : Wallet) :
  current_user s = Some user →
  PrimFloat.leb amount 0%float = false →
  string_in (py_upper currency) CURRENCY_REGISTRY = true →
  _load_user_portfolio settings_base_currency (u_user_id user)
                       (portfolios_file s) = (Ok p, f1) →
  get_base_wallet p = Ok base_wallet →
  get_wallet currency p = Ok target →
  py_upper currency ≠ base_currency p →
  let code := py_upper currency in
  let base := base_currency p in
  (PrimFloat.ltb (balance target) amount = true →
   sell settings_base_currency fmt4 fmt6 currency amount s
   = (Raises (InsufficientFundsError (balance target) amount code),
      with_portfolios f1 s))
  ∧ ∀ r,
      PrimFloat.ltb (balance target) amount = false →
      conversion_rate (rates_file s) code base = Some r →
      rate_unavailable (Some r) = false →
      let revenue := PrimFloat.mul amount r in
      let target_wallet' :=
        {| currency_code := code;
           balance := PrimFloat.sub (balance target) amount |} in
      let base_wallet' :=
        {| currency_code := base;
           balance := PrimFloat.add (balance base_wallet) revenue |} in
      let p' := store_wallet base base_wallet'
                  (store_wallet code target_wallet' p) in
      sell settings_base_currency fmt4 fmt6 currency amount s
      = (if PrimFloat.leb revenue 0%float
         then (Raises (Builtin (ValueError "Сумма должна быть > 0.")),
               with_portfolios f1 s)
         else (Returns
                 (_format_operation_result fmt4 fmt6 Sell code amount revenue
                    r (balance target) (balance target_wallet') base
                    (balance base_wallet) (balance base_wallet')),
               with_portfolios (_save_user_portfolio p' f1) s))
      ∧ well_formed p'
      ∧ get_base_wallet p' = Ok base_wallet'
      ∧ get_wallet code p' = Ok target_wallet'
      ∧ ∀ c, c ≠ code → c ≠ base →
             dict_get c (wallets p') = dict_get c (wallets p).
Proof.
  intros Huser Hamount Hreg Hload Hbase Htarget Hne code base.
  destruct (load_user_portfolio_cases settings_base_currency (u_user_id user)
              (portfolios_file s)) as (r0 & f0 & Hload' & Hwf & _).
  rewrite Hload in Hload'. injection Hload' as <- <-.
  destruct (Hwf p eq_refl) as [Hp _].
  pose proof (registry_code_ok currency Hreg) as Hcode.
  pose proof (well_formed_base_upper p Hp) as Hbu.
  unfold get_base_wallet, get_wallet in Hbase. rewrite Hbu in Hbase.
  destruct (dict_get (base_currency p) (wallets p)) as [bw|] eqn:Hbw;
    [|discriminate Hbase].
  injection Hbase as ->.
  unfold get_wallet in Htarget.
  destruct (dict_get (py_upper currency) (wallets p)) as [tw|] eqn:Htw;
    [|discriminate Htarget].
  injection Htarget as ->.
  apply String.eqb_neq in Hne.
  pose proof (run_trade_loaded settings_base_currency (Some currency) amount
                (fun portfolio =>
                   sell_loaded fmt4 fmt6 (py_upper currency) amount portfolio
                               (rates_file s))
                s user p f1 Huser Hamount Hreg Hload) as Hrun.
  cbn beta in Hrun.
  split.
  { intros Hfunds. unfold sell. rewrite Hrun.
    unfold sell_loaded. rewrite Hne, Htw. unfold get_wallet.
    destruct Hcode as [_ Hupper]. rewrite Hupper, Htw, Hfunds. reflexivity. }
  intros r Hfunds Hrate Havail revenue target_wallet' base_wallet' p'.
  split.
  { unfold sell. rewrite Hrun.
    pose proof (sell_loaded_cases fmt4 fmt6 (py_upper currency) amount p
                  (rates_file s) base_wallet target r Hp Hamount Hbw Htw Hne
                  Hfunds Hrate Havail) as Hcases.
    cbn zeta in Hcases. rewrite Hcases.
    fold code base revenue target_wallet' base_wallet' p'.
    destruct (PrimFloat.leb revenue 0%float); reflexivity. }
  assert (Hp1 : well_formed (store_wallet code target_wallet' p))
    by exact (well_formed_store p code target _ Hp Htw).
  apply String.eqb_neq in Hne.
  assert (Hbw1 : dict_get base (wallets (store_wallet code target_wallet' p))
                 = Some base_wallet).
  { cbn [store_wallet wallets]. by rewrite dict_get_set_ne. }
  split; [|split; [|split]].
  - exact (well_formed_store _ base base_wallet _ Hp1 Hbw1).
  - unfold get_base_wallet, get_wallet.
    cbn [p' store_wallet base_currency wallets]. rewrite Hbu.
    by rewrite dict_get_set_eq.
  - unfold get_wallet.
    replace (py_upper code) with code by (symmetry; apply py_upper_idem).
    cbn [p' store_wallet wallets].
    rewrite dict_get_set_ne by (intros Heq; by apply Hne).
    by rewrite dict_get_set_eq.
  - intros c Hc Hb. cbn [p' store_wallet wallets].
    rewrite !dict_get_set_ne; [reflexivity | by intros <- | by intros <-].
Qed.

Lemma sell_main_path_witness :
  ∃ message p',
    sell "USD" fmt_sample fmt_sample "btc" 0.25 alice_session
    = (Returns message,
       with_portfolios
         (_save_user_portfolio p' (Stored [to_dict alice_portfolio]))
         alice_session)
    ∧ well_formed p'
    ∧ get_wallet "BTC" p'
      = Ok {| currency_code := "BTC"; balance := PrimFloat.sub 0.5 0.25 |}
    ∧ get_base_wallet p'
      = Ok {| currency_code := "USD";
              balance := PrimFloat.add 100 (PrimFloat.mul 0.25 50000) |}.
Proof.
  destruct (sell_main_path "USD" fmt_sample fmt_sample "btc" 0.25
              alice_session {| u_user_id := 1; u_username := "alice" |}
              {| user_id := 1;
                 base_currency := "USD";
                 wallets := [ ("USD", {| currency_code := "USD";
                                          balance := 100 |});
                              ("BTC", {| currency_code := "BTC";
                                          balance := 0.5 |}) ] |}
              (Stored [to_dict alice_portfolio])
              {| currency_code := "USD"; balance := 100 |}
              {| currency_code := "BTC"; balance := 0.5 |})
    as [_ Hsale];
    [reflexivity | reflexivity | reflexivity | vm_compute; reflexivity
    | reflexivity | reflexivity | discriminate |].
  destruct (Hsale 50000%float) as (Hsell & Hwf & Hbase & Htarget & _);
    [reflexivity | vm_compute; reflexivity | reflexivity |].
  match type of Hsell with
  | context [if ?c then _ else _] =>
      assert (Hrevenue : c = false) by (vm_compute; reflexivity);
      rewrite Hrevenue in Hsell
  end.
  eexists _, _. split; [exact Hsell|]. split; [exact Hwf|].
  split; [exact Htarget | exact Hbase].
Defined.

(** X22.  [deposit] does not fail for a user who is logged in, with a
    positive amount and a portfolio that loads: the base wallet has the
    amount more, every other wallet is as it was, and the portfolio is
    saved. *)
Theorem deposit_goes_through (settings_base_currency : string)
    (fmt4 fmt6 : float -> string) (amount : float)
    (s : Session) (user : User) (p : Portfolio)
    (f1 : File (list PortfolioData)) :
  current_user s = Some user →
  PrimFloat.leb amount 0%float = false →
  _load_user_portfolio settings_base_currency (u_user_id user)
                       (portfolios_file s) = (Ok p, f1) →
  ∃ base_wallet message,
    get_base_wallet p = Ok base_wallet
    ∧ let base := base_currency p in
      let base_wallet' :=
        {| currency_code := base;
           balance := PrimFloat.add (balance base_wallet) amount |} in
      let p' := store_wallet base base_wallet' p in
      deposit settings_base_currency fmt4 amount s
      = (Returns message, with_portfolios (_save_user_portfolio p' f1) s)
      ∧ well_formed p'
      ∧ get_base_wallet p' = Ok base_wallet'
      ∧ ∀ c, c ≠ base → dict_get c (wallets p') = dict_get c (wallets p).
Proof.
  intros Huser Hamount Hload.
  destruct (load_user_portfolio_cases settings_base_currency (u_user_id user)
              (portfolios_file s)) as (r0 & f0 & Hload' & Hwf & _).
  rewrite Hload in Hload'. injection Hload' as <- <-.
  destruct (Hwf p eq_refl) as [Hp _].
  pose proof (well_formed_base_upper p Hp) as Hbu.
  destruct (well_formed_base p Hp) as [base_wallet Hbw].
  exists base_wallet. eexists.
  split; [unfold get_base_wallet, get_wallet; by rewrite Hbu, Hbw|].
  cbn zeta. split; [|split; [|split]].
  - unfold deposit.
    rewrite (run_trade_loaded settings_base_currency None amount _ s user p f1
               Huser Hamount I Hload).
    pose proof (deposit_loaded_cases fmt4 amount p base_wallet Hp Hamount Hbw)
      as Hcases.
    cbn zeta in Hcases. rewrite Hcases. reflexivity.
  - exact (well_formed_store p _ base_wallet _ Hp Hbw).
  - unfold get_base_wallet, get_wallet.
    cbn [store_wallet base_currency wallets]. rewrite Hbu.
    by rewrite dict_get_set_eq.
  - intros c Hc. cbn [store_wallet wallets].
    rewrite dict_get_set_ne; [reflexivity | by intros <-].
Qed.

Lemma deposit_goes_through_witness :
  ∃ base_wallet message,
    get_base_wallet alice_portfolio = Ok base_wallet
    ∧ deposit "USD" fmt_sample 25
        {| current_user := Some {| u_user_id := 1; u_username := "alice" |};
           portfolios_file := Missing;
           rates_file := Missing |}
      = (Returns message,
         {| current_user := Some {| u_user_id := 1; u_username := "alice" |};
            portfolios_file :=
              Stored [ {| pd_user_id := 1;
                          pd_base_currency := Some "USD";
                          pd_wallets :=
                            Some [("USD", {| wd_currency_code := "USD";
                                             wd_balance := 25 |})] |} ];
            rates_file := Missing |}).
Proof.
  destruct (deposit_goes_through "USD" fmt_sample fmt_sample 25
              {| current_user := Some {| u_user_id := 1;
                                         u_username := "alice" |};
                 portfolios_file := Missing;
                 rates_file := Missing |}
              {| u_user_id := 1; u_username := "alice" |}
              {| user_id := 1;
                 base_currency := "USD";
                 wallets := [("USD", {| currency_code := "USD";
                                        balance := 0 |})] |}
              (Stored [ {| pd_user_id := 1;
                           pd_base_currency := Some "USD";
                           pd_wallets := Some [] |} ]))
    as (base_wallet & message & Hbase & Hdeposit & _);
    [reflexivity | reflexivity | vm_compute; reflexivity |].
  exists {| currency_code := "USD"; balance := 100 |}, message.
  split; [reflexivity|].
  rewrite Hdeposit. injection Hbase as <-. vm_compute. reflexivity.
Defined.

Section TradeEffects.
Variable settings_base_currency : string.
Variables fmt4 fmt6 : float -> string.
Implicit Types (p : Portfolio) (s : Session) (amount : float)
  (f : File (list PortfolioData)).

Lemma add_currency_user_id code p p' :
  add_currency code p = Ok p' → user_id p' = user_id p.
Proof.
  unfold add_currency. destruct (dict_get (py_upper code) (wallets p)).
  - by intros [= <-].
  - destruct (Wallet_init (py_upper code) 0%float); cbn; [|discriminate].
    by intros [= <-].
Qed.

Lemma buy_loaded_user_id code amount p rates message p' :
  buy_loaded fmt4 fmt6 code amount p rates = Returns (message, Some p') →
  user_id p' = user_id p.
Proof.
  unfold buy_loaded. repeat case_match; try (by intros [=]).
  all: intros [= _ <-]; simplify_eq; cbn [store_wallet user_id].
  all: try (erewrite add_currency_user_id by eassumption); reflexivity.
Qed.

Lemma sell_loaded_user_id code amount p rates message p' :
  sell_loaded fmt4 fmt6 code amount p rates = Returns (message, Some p') →
  user_id p' = user_id p.
Proof.
  unfold sell_loaded. repeat case_match; try (by intros [=]).
  all: intros [= _ <-]; reflexivity.
Qed.

Lemma deposit_loaded_user_id amount p message p' :
  deposit_loaded fmt4 amount p = Returns (message, Some p') →
  user_id p' = user_id p.
Proof.
  unfold deposit_loaded. repeat case_match; try (by intros [=]).
  all: intros [= _ <-]; reflexivity.
Qed.

Lemma others_after_save p f :
  entries_of_others (user_id p) (_save_user_portfolio p f)
  = entries_of_others (user_id p) f.
Proof.
  unfold entries_of_others, _save_user_portfolio. cbn [load_portfolios].
  rewrite List.filter_app, filter_idem. cbn [List.filter to_dict pd_user_id].
  rewrite Z.eqb_refl. cbn [negb]. by rewrite app_nil_r.
Qed.

Lemma validate_trade_inv (currency : option string) amount s (user : User) :
  validate_trade currency amount s = Returns user →
  current_user s = Some user
  ∧ PrimFloat.leb amount 0%float = false
  ∧ match currency with
    | Some c => string_in (py_upper c) CURRENCY_REGISTRY = true
    | None => True
    end.
Proof.
  unfold validate_trade, _validate_user_logged_in, _validate_positive_amount.
  destruct (current_user s) as [u|]; [|discriminate].
  destruct (PrimFloat.leb amount 0%float); [discriminate|].
  destruct currency as [c|]; [|by intros [= ->]].
  unfold _validate_currency_code, get_currency. rewrite py_upper_idem.
  destruct (string_in (py_upper c) CURRENCY_REGISTRY); [|discriminate].
  by intros [= ->].
Qed.

Lemma validate_trade_raises (currency : option string) amount s e :
  validate_trade currency amount s = Raises e → trade_error e.
Proof.
  unfold validate_trade, _validate_user_logged_in, _validate_positive_amount.
  destruct (current_user s) as [u|]; [|intros [= <-]; by left].
  destruct (PrimFloat.leb amount 0%float);
    [intros [= <-]; right; by left|].
  destruct currency as [c|]; [|discriminate].
  unfold _validate_currency_code, get_currency.
  destruct (string_in (py_upper (py_upper c)) CURRENCY_REGISTRY);
    [discriminate|].
  intros [= <-]. right; right; left. by eexists.
Qed.

(** What every use case built with [run_trade] does to the session. *)
Lemma run_trade_effects (currency : option string) amount
    (loaded : Portfolio → outcome (string * option Portfolio)) s
    (r : outcome string) (s' : Session) :
  (∀ p message p',
     loaded p = Returns (message, Some p') → user_id p' = user_id p) →
  (∀ p e,
     well_formed p →
     PrimFloat.leb amount 0%float = false →
     match currency with
     | Some c => string_in (py_upper c) CURRENCY_REGISTRY = true
     | None => True
     end →
     loaded p = Raises e → trade_error e) →
  run_trade settings_base_currency currency amount loaded s = (r, s') →
  current_user s' = current_user s
  ∧ rates_file s' = rates_file s
  ∧ (current_user s = None → s' = s)
  ∧ (∀ user, current_user s = Some user →
       entries_of_others (u_user_id user) (portfolios_file s')
       = entries_of_others (u_user_id user) (portfolios_file s))
  ∧ ∀ e, r = Raises e → trade_error e.
Proof.
  intros Hid Hraises. unfold run_trade.
  destruct (validate_trade currency amount s) as [user|e] eqn:Hvalid.
  2: { intros [= <- <-]. repeat split; try done.
       intros e' [= <-]. exact (validate_trade_raises _ _ _ _ Hvalid). }
  destruct (validate_trade_inv _ _ _ _ Hvalid) as (Huser & Hamount & Hcode).
  destruct (load_user_portfolio_cases settings_base_currency (u_user_id user)
              (portfolios_file s))
    as (lr & f1 & -> & Hwf & Hlraise & Hfile).
  assert (Hothers : entries_of_others (u_user_id user) f1
                    = entries_of_others (u_user_id user) (portfolios_file s)).
  { destruct Hfile as [-> | (p0 & -> & -> & _)]; [reflexivity|].
    destruct (Hwf p0 eq_refl) as [_ <-]. apply others_after_save. }
  assert (Hshape : ∀ f, current_user (with_portfolios f s) = current_user s
                        ∧ rates_file (with_portfolios f s) = rates_file s)
    by (by intros f).
  destruct lr as [p|e].
  2: { intros [= <- <-]. split; [apply Hshape|]. split; [apply Hshape|].
       split; [congruence|]. split.
       - intros user' Huser'. rewrite Huser in Huser'.
         injection Huser' as <-. exact Hothers.
       - intros e' [= <-]. rewrite (Hlraise e eq_refl).
         right; right; right. by left. }
  destruct (Hwf p eq_refl) as [Hp Hpid].
  destruct (loaded p) as [[message [p'|]]|e] eqn:Hloaded;
    intros [= <- <-]; (split; [apply Hshape|]); (split; [apply Hshape|]);
    (split; [congruence|]); split.
  - intros user' Huser'. rewrite Huser in Huser'. injection Huser' as <-.
    cbn [with_portfolios portfolios_file]. rewrite <- Hothers.
    rewrite <- Hpid, <- (Hid _ _ _ Hloaded). apply others_after_save.
  - intros e [=].
  - intros user' Huser'. rewrite Huser in Huser'. injection Huser' as <-.
    exact Hothers.
  - intros e [=].
  - intros user' Huser'. rewrite Huser in Huser'. injection Huser' as <-.
    exact Hothers.
  - intros e' [= <-]. exact (Hraises p e Hp Hamount Hcode Hloaded).
Qed.

Lemma buy_loaded_raises currency amount p rates e :
  well_formed p →
  PrimFloat.leb amount 0%float = false →
  string_in (py_upper currency) CURRENCY_REGISTRY = true →
  buy_loaded fmt4 fmt6 (py_upper currency) amount p rates = Raises e →
  trade_error e.
Proof.
  intros Hp Hamount Hreg.
  pose proof (registry_code_ok currency Hreg) as Hcode.
  destruct (well_formed_base p Hp) as [base_wallet Hbw].
  destruct (String.eqb (py_upper currency) (base_currency p)) eqn:Hne.
  { unfold buy_loaded. rewrite Hne. discriminate. }
  destruct (conversion_rate rates (base_currency p) (py_upper currency))
    as [r|] eqn:Hrate.
  2: { unfold buy_loaded. rewrite Hne, Hrate. discriminate. }
  destruct (rate_unavailable (Some r)) eqn:Havail.
  { unfold buy_loaded. rewrite Hne, Hrate, Havail. discriminate. }
  pose proof (buy_loaded_cases fmt4 fmt6 (py_upper currency) amount p rates
                base_wallet r Hp Hcode Hamount Hbw Hne Hrate Havail) as Hcases.
  cbn zeta in Hcases. rewrite Hcases.
  destruct (PrimFloat.ltb (balance base_wallet) (PrimFloat.div amount r)).
  { intros [= <-]. do 4 right. left. by eexists _, _, _. }
  destruct (PrimFloat.leb (PrimFloat.div amount r) 0%float);
    [|discriminate].
  intros [= <-]. by do 5 right.
Qed.

Lemma sell_loaded_raises currency amount p rates e :
  well_formed p →
  PrimFloat.leb amount 0%float = false →
  string_in (py_upper currency) CURRENCY_REGISTRY = true →
  sell_loaded fmt4 fmt6 (py_upper currency) amount p rates = Raises e →
  trade_error e.
Proof.
  intros Hp Hamount Hreg.
  destruct (registry_code_ok currency Hreg) as [_ Hupper].
  destruct (well_formed_base p Hp) as [base_wallet Hbw].
  destruct (String.eqb (py_upper currency) (base_currency p)) eqn:Hne.
  { unfold sell_loaded. rewrite Hne. discriminate. }
  destruct (dict_get (py_upper currency) (wallets p)) as [target|] eqn:Htw.
  2: { unfold sell_loaded. rewrite Hne, Htw. discriminate. }
  destruct (PrimFloat.ltb (balance target) amount) eqn:Hfunds.
  { unfold sell_loaded. rewrite Hne, Htw. unfold get_wallet.
    rewrite Hupper, Htw, Hfunds. intros [= <-].
    do 4 right. left. by eexists _, _, _. }
  destruct (conversion_rate rates (py_upper currency) (base_currency p))
    as [r|] eqn:Hrate.
  2: { unfold sell_loaded. rewrite Hne, Htw. unfold get_wallet.
       rewrite Hupper, Htw, Hfunds, Hrate. discriminate. }
  destruct (rate_unavailable (Some r)) eqn:Havail.
  { unfold sell_loaded. rewrite Hne, Htw. unfold get_wallet.
    rewrite Hupper, Htw, Hfunds, Hrate, Havail. discriminate. }
  pose proof (sell_loaded_cases fmt4 fmt6 (py_upper currency) amount p rates
                base_wallet target r Hp Hamount Hbw Htw Hne Hfunds Hrate
                Havail) as Hcases.
  cbn zeta in Hcases. rewrite Hcases.
  destruct (PrimFloat.leb (PrimFloat.mul amount r) 0%float); [|discriminate].
  intros [= <-]. by do 5 right.
Qed.

Lemma deposit_loaded_raises amount p e :
  well_formed p →
  PrimFloat.leb amount 0%float = false →
  deposit_loaded fmt4 amount p = Raises e →
  trade_error e.
Proof.
  intros Hp Hamount.
  destruct (well_formed_base p Hp) as [base_wallet Hbw].
  pose proof (deposit_loaded_cases fmt4 amount p base_wallet Hp Hamount Hbw)
    as Hcases.
  cbn zeta in Hcases. rewrite Hcases. discriminate.
Qed.
End TradeEffects.

(** X23.  What [buy], [sell] and [deposit] never do, when each of the
    portfolios file and the rates file is missing or holds a document.
    Whatever they return or raise, the user logged in and the rates file are as before and so
    are the entries of all other users in the portfolios file, in their
    order; when nobody is logged in nothing changes at all.  The only
    exceptions they raise are those of [trade_error]: in particular a
    purchase or sale that cannot be paid raises [InsufficientFundsError],
    never the [ValueError] of [Wallet.withdraw] for lacking funds, and no
    wallet is ever reported as not found. *)
Theorem trades_are_contained (settings_base_currency : string)
    (fmt4 fmt6 : float -> string) (currency : string) (amount : float)
    (s s' : Session) (r : outcome string) :
  portfolios_file s ≠ Unparseable →
  rates_file s ≠ Unparseable →
  buy settings_base_currency fmt4 fmt6 currency amount s = (r, s')
  ∨ sell settings_base_currency fmt4 fmt6 currency amount s = (r, s')
  ∨ deposit settings_base_currency fmt4 amount s = (r, s') →
  current_user s' = current_user s
  ∧ rates_file s' = rates_file s
  ∧ (current_user s = None → s' = s)
  ∧ (∀ user, current_user s = Some user →
       entries_of_others (u_user_id user) (portfolios_file s')
       = entries_of_others (u_user_id user) (portfolios_file s))
  ∧ ∀ e, r = Raises e → trade_error e.
Proof.
  intros _ _ [Hrun | [Hrun | Hrun]].
  - apply (run_trade_effects settings_base_currency (Some currency) amount
             (fun portfolio =>
                buy_loaded fmt4 fmt6 (py_upper currency) amount portfolio
                           (rates_file s))
             s r s'); [| |exact Hrun].
    + intros p message p'. apply buy_loaded_user_id.
    + intros p e Hp Hamount Hreg. by apply buy_loaded_raises.
  - apply (run_trade_effects settings_base_currency (Some currency) amount
             (fun portfolio =>
                sell_loaded fmt4 fmt6 (py_upper currency) amount portfolio
                            (rates_file s))
             s r s'); [| |exact Hrun].
    + intros p message p'. apply sell_loaded_user_id.
    + intros p e Hp Hamount Hreg. by apply sell_loaded_raises.
  - apply (run_trade_effects settings_base_currency None amount
             (deposit_loaded fmt4 amount) s r s'); [| |exact Hrun].
    + intros p message p'. apply deposit_loaded_user_id.
    + intros p e Hp Hamount _. by apply deposit_loaded_raises.
Qed.

Lemma trades_are_contained_witness :
  rates_file (snd (buy "USD" fmt_sample fmt_sample "btc" 1 alice_session))
  = btc_usd_file
  ∧ trade_error
      (InsufficientFundsError 100 (PrimFloat.div 1 (PrimFloat.div 1 50000))
                              "USD").
Proof.
  destruct (trades_are_contained "USD" fmt_sample fmt_sample "btc" 1
              alice_session
              (snd (buy "USD" fmt_sample fmt_sample "btc" 1 alice_session))
              (fst (buy "USD" fmt_sample fmt_sample "btc" 1 alice_session)))
    as (_ & Hrates & _ & _ & Hraises).
  - discriminate.
  - discriminate.
  - left. by destruct (buy "USD" fmt_sample fmt_sample "btc" 1 alice_session).
  - split; [exact Hrates|]. apply Hraises. vm_compute. reflexivity.
Defined.

(** [conversion_rate] is what [_get_conversion_rate] returns, however many
    nested calls it is given room for beyond the one it needs. *)
Lemma conversion_rate_any_fuel (rates : File Snapshot) (a b : string)
    (n : nat) :
  _get_conversion_rate (S (S n)) rates a b = Some (conversion_rate rates a b).
Proof.
  destruct (two_calls_suffice rates a b n) as [-> [r Hr]].
  unfold conversion_rate. by rewrite Hr.
Qed.

(** X24.  [Portfolio.get_total_value] counts a wallet only when it is in
    the base currency or the rates hold a usable direct or reverse rate
    between its currency and the base currency; every other wallet is
    passed over without an error and without a conversion through a third
    currency: the total is that of the portfolio without those wallets. *)
Theorem total_value_skips_unpriced (p : Portfolio) (rates_data : Snapshot)
    (base : string) :
  get_total_value p rates_data base
  = get_total_value
      {| user_id := user_id p;
         base_currency := base_currency p;
         wallets := List.filter (priced (default ∅ (pairs rates_data))
                                        (py_upper base))
                                (wallets p) |}
      rates_data base.
Proof.
  unfold get_total_value. cbn [wallets].
  generalize 0%float. induction (wallets p) as [|[code wallet] l IH];
    intros total; [reflexivity|].
  cbn [fold_left List.filter]. unfold priced at 1. cbn [fst].
  destruct (String.eqb code (py_upper base)) eqn:Hbase; cbn [orb].
  { cbn [fold_left]. rewrite Hbase. apply IH. }
  destruct (usable_rate (default ∅ (pairs rates_data))
              (code +:+ "_" +:+ py_upper base)) as [r|] eqn:Hdirect.
  { rewrite bool_decide_true by (by eexists). cbn [orb fold_left].
    rewrite Hbase, Hdirect. apply IH. }
  rewrite (bool_decide_false (is_Some None)) by (by intros [? [=]]).
  cbn [orb].
  destruct (usable_rate (default ∅ (pairs rates_data))
              (py_upper base +:+ "_" +:+ code)) as [r|] eqn:Hreverse.
  { rewrite bool_decide_true by (by eexists). cbn [fold_left].
    rewrite Hbase, Hdirect, Hreverse. apply IH. }
  rewrite (bool_decide_false (is_Some None)) by (by intros [? [=]]).
  apply IH.
Qed.

Section StoredQuotes.
Variable float_of_str : string -> option float.
Variable strftime_now : nat -> string.
Variable isoformat_now : nat -> string.
Implicit Types (c : ParserConfig) (w : World) (batch : Batch).

(** The keys of a batch that CoinGecko returns are those of a dictionary. *)
Lemma coingecko_batch_nodup c ts status data (items : list (string * string))
    (res batch : Batch) :
  NoDup (dict_keys res) →
  for_each (coingecko_step float_of_str c ts status data) items res
  = Ok batch →
  NoDup (dict_keys batch).
Proof.
  revert res. induction items as [|item items IH]; intros res Hnd Hrun.
  - cbn in Hrun. by injection Hrun as <-.
  - cbn [for_each] in Hrun. rewrite coingecko_step_reads in Hrun.
    destruct (coingecko_price float_of_str c data item) as [[r|]|e];
      cbn [rbind] in Hrun; [| |discriminate Hrun].
    + apply (IH _ (dict_set_nodup _ _ _ (dict_set_nodup _ _ _ Hnd)) Hrun).
    + exact (IH _ Hnd Hrun).
Qed.

(** A run that asks CoinGecko alone and returns: the pairs a reader then
    sees are those of before, merged with the batch of the response. *)
Lemma coingecko_run_stores (u : RatesUpdater) (src : option string)
    (status : Z) (data : json) w w' (res : RefreshResult) :
  _select_clients_by_source u src
  = [CoinGeckoClient (HttpResponse status data)] →
  run_update float_of_str strftime_now isoformat_now u src w = (Ok res, w') →
  ∃ batch,
    coingecko_fetch_rates float_of_str strftime_now (cfg u)
      (HttpResponse status data) (ticks w) = Ok batch
    ∧ NoDup (dict_keys batch)
    ∧ file_pairs (snapshot_file w')
      = merge_batch (file_pairs (snapshot_file w)) batch.
Proof.
  intros Hselect Hrun. rewrite run_update_unfold in Hrun.
  unfold run_update_from in Hrun. rewrite Hselect in Hrun.
  cbn [run_clients fetch_rates] in Hrun.
  pose proof (coingecko_loop_reports_nothing float_of_str (cfg u)
                (strftime_now (ticks w)) status data) as Hquiet.
  destruct (coingecko_fetch_rates float_of_str strftime_now (cfg u)
              (HttpResponse status data) (ticks w)) as [batch|e] eqn:Hfetch.
  2: { cbn [coingecko_fetch_rates] in Hfetch. rewrite Hfetch in Hquiet.
       destruct e; try discriminate Hquiet; discriminate Hrun. }
  exists batch. split; [reflexivity|].
  split.
  { cbn [coingecko_fetch_rates] in Hfetch.
    apply (coingecko_batch_nodup (cfg u) (strftime_now (ticks w)) status data
             (CRYPTO_ID_MAP (cfg u)) [] batch); [constructor | exact Hfetch]. }
  assert (Hkeys : pair_keys batch).
  { apply (shipped_clients_return_pair_keys float_of_str strftime_now (cfg u)
             (HttpResponse status data) (ticks w)). by left. }
  destruct (process_pair_keys strftime_now batch
              (file_pairs (snapshot_file w)) (tick w) Hkeys)
    as (w2 & Hproc & Hfile).
  rewrite Hproc in Hrun. cbn [_build_result] in Hrun.
  injection Hrun as _ <-. cbn [tick snapshot_file].
  apply persisted_pairs. intros k Hk. rewrite Hfile in Hk. cbn in Hk.
  by apply merge_batch_keeps_keys.
Qed.
End StoredQuotes.

(** X25.  A price of zero travels from the provider to [get_rate] and makes
    it fail.  When a run that asks CoinGecko alone returns, and the
    response held a price of zero for a configured currency that had no
    entry before, the snapshot has the entry with rate 0.0; and where the
    freshness check passes, [get_rate] for that currency against USD
    raises the [TypeError] of formatting [None] instead of printing the
    rate, because the reverse rate of a zero rate is [None]. *)
Theorem zero_price_breaks_get_rate
    (float_of_str : string -> option float)
    (strftime_now isoformat_now : nat -> string)
    (fromisoformat : string -> string + datetime)
    (format_minutes : Z -> string) (fmt6 : float -> string)
    (u : RatesUpdater) (src : option string) (status : Z)
    (fields prices : list (string * json)) (code coin : string) (r : float)
    (w w' : World) (res : RefreshResult) (now rates_ttl : Z) :
  cfg u = default_config →
  _select_clients_by_source u src
  = [CoinGeckoClient (HttpResponse status (JObj fields))] →
  In (code, coin) (CRYPTO_ID_MAP default_config) →
  dict_get coin fields = Some (JObj prices) →
  dict_get "usd" prices = Some (JNum r) →
  float_truthy r = false →
  file_pairs (snapshot_file w) !! (code +:+ "_USD") = None →
  run_update float_of_str strftime_now isoformat_now u src w = (Ok res, w') →
  _check_data_freshness fromisoformat format_minutes
    (load_json (snapshot_file w')) now rates_ttl = Ok None →
  (∃ entry, file_pairs (snapshot_file w') !! (code +:+ "_USD") = Some entry
            ∧ rate entry = Some r)
  ∧ get_rate fromisoformat format_minutes fmt6 code "USD" (snapshot_file w')
             now rates_ttl
    = Raises (Builtin format_None).
Proof.
  intros Hcfg Hselect Hin Hid Hprice Hzero Hnew Hrun Hfresh.
  destruct (coingecko_run_stores float_of_str strftime_now isoformat_now u src
              status (JObj fields) w w' res Hselect Hrun)
    as (batch & Hfetch & Hnd & Hpairs).
  rewrite Hcfg in Hfetch. cbn [coingecko_fetch_rates] in Hfetch.
  pose proof (for_each_reported
    (coingecko_direct default_config) (coingecko_inverse default_config)
    (fun item x => make_quote x "CoinGecko" (strftime_now (ticks w))
                     {| raw_id := Some (snd item); status_code := status |})
    (coingecko_price float_of_str default_config (JObj fields))
    (coingecko_step float_of_str default_config (strftime_now (ticks w))
       status (JObj fields))
    (coingecko_step_reads float_of_str default_config
       (strftime_now (ticks w)) status (JObj fields))
    (CRYPTO_ID_MAP default_config) [] batch
    (proj1 default_config_keys_differ) Hfetch (code, coin) Hin) as Hrep.
  unfold coingecko_price, json_get, json_get_default in Hrep.
  cbn [snd fst coingecko_direct BASE_FIAT_CURRENCY default_config] in Hrep.
  rewrite Hid in Hrep. cbn [rbind] in Hrep.
  change (py_lower "USD") with "usd" in Hrep. rewrite Hprice in Hrep.
  cbn [is_None py_float rbind] in Hrep. destruct Hrep as [Hdirect _].
  unfold coingecko_direct in Hdirect.
  cbn [fst BASE_FIAT_CURRENCY default_config] in Hdirect.
  assert (Hentry : file_pairs (snapshot_file w') !! (code +:+ "_USD")
                   = Some {| rate := Some r;
                             updated_at := Some (strftime_now (ticks w));
                             source := Some "CoinGecko" |}).
  { rewrite Hpairs, (merge_batch_lookup batch _ _ Hnd).
    change (code +:+ "_USD") with (code +:+ "_" +:+ "USD").
    rewrite Hdirect. unfold _update_combined_pairs.
    change (code +:+ "_" +:+ "USD") with (code +:+ "_USD").
    rewrite Hnew. by rewrite lookup_insert_eq. }
  split; [by eexists|].
  assert (Hcode : py_upper code = code
                  ∧ string_in code CURRENCY_REGISTRY = true).
  { destruct Hin as [[= <- _] | [[= <- _] | [[= <- _] | []]]]; by split. }
  destruct Hcode as [Hupper Hreg].
  unfold get_rate. rewrite Hupper. change (py_upper "USD") with "USD".
  unfold _validate_currency_code, get_currency. rewrite Hupper, Hreg.
  change (string_in (py_upper "USD") CURRENCY_REGISTRY) with true.
  cbn iota. unfold file_pairs in Hentry.
  destruct (pairs (load_json (snapshot_file w'))) as [m|] eqn:Hm;
    cbn [from_option id] in Hentry;
    [|by rewrite lookup_empty in Hentry].
  destruct (size m) eqn:Hsize.
  { apply map_size_empty_iff in Hsize. subst m.
    by rewrite lookup_empty in Hentry. }
  rewrite Hfresh. cbn [from_option id negb String.eqb].
  change (code +:+ "_" +:+ "USD") with (code +:+ "_USD").
  rewrite Hentry. cbn [rate format_two reciprocal_or_None].
  by rewrite Hzero.
Qed.

Lemma zero_price_breaks_get_rate_witness :
  get_rate fromisoformat_sample format_minutes_sample fmt_sample "sol" "usd"
    (snapshot_file
       (snd (run_update no_float jan1 noon_iso
               (default_updater sample_response
                  (HttpRequestException "Read timed out."))
               (Some "coingecko") fresh_world)))
    1704067200000000 3600
  = Raises (Builtin format_None).
Proof.
  destruct (run_update no_float jan1 noon_iso
              (default_updater sample_response
                 (HttpRequestException "Read timed out."))
              (Some "coingecko") fresh_world) as [r w'] eqn:Hrun.
  destruct r as [res|e]; [|vm_compute in Hrun; discriminate Hrun].
  cbn [snd].
  refine (proj2 (zero_price_breaks_get_rate no_float jan1 noon_iso
                   fromisoformat_sample format_minutes_sample fmt_sample
                   (default_updater sample_response
                      (HttpRequestException "Read timed out."))
                   (Some "coingecko") 200
                   [ ("bitcoin", JObj [("usd", JNum 50000)]);
                     ("solana", JObj [("usd", JNum 0)]);
                     ("rates", JObj [("EUR", JNum 0.5); ("GBP", JStr "n/a")]) ]
                   [("usd", JNum 0)] "SOL" "solana" 0 fresh_world w' res
                   1704067200000000 3600 _ _ _ _ _ _ _ Hrun _));
    try reflexivity.
  - right; right; by left.
  - vm_compute in Hrun. injection Hrun as _ <-. vm_compute. reflexivity.
Defined.

Section AccountFacts.
Variable settings_base_currency : string.
Variable min_password_length : nat.
Variable sha256_hexdigest : string -> string.
Variable fromisoformat : string -> string + datetime.
Implicit Types (a : App) (users : list UserData) (username : string).

Lemma name_not_taken users username :
  existsb (fun u => String.eqb (ud_username u) username) users = false →
  ¬ In username (map ud_username users)
  ∧ List.find (fun u => String.eqb (ud_username u) username) users = None.
Proof.
  induction users as [|u users IH];
    [intros _; split; [intros [] | reflexivity]|].
  cbn.
  destruct (String.eqb_spec (ud_username u) username) as [-> | Hne];
    [discriminate|].
  cbn [orb]. intros Hrest. destruct (IH Hrest) as [Hin Hfind].
  split; [|exact Hfind]. intros [Heq | Hin']; [by apply Hne | by apply Hin].
Qed.

Lemma users_ok_snoc users (u : UserData) :
  users_ok users →
  ud_user_id u = Z.of_nat (length users + 1) →
  ¬ In (ud_username u) (map ud_username users) →
  users_ok (users ++ [u]).
Proof.
  intros [Hids Hnames] Hid Hnew. split.
  - rewrite length_app. cbn [length]. rewrite Nat.add_1_r, seq_S.
    rewrite !map_app, Hids. cbn [map]. rewrite Hid.
    by rewrite Nat.add_1_r.
  - rewrite map_app. apply NoDup_app. split; [exact Hnames|].
    split; [|apply NoDup_singleton].
    intros name Hin Hname. cbn in Hname.
    apply list_elem_of_In in Hname. destruct Hname as [<- | []].
    apply Hnew. by apply list_elem_of_In.
Qed.

Lemma nothing_appended users :
  ∃ new, users = users ++ new ∧ (length new ≤ 1)%nat.
Proof. exists []. split; [by rewrite app_nil_r | cbn; lia]. Qed.

Lemma ensure_data_dir_users a :
  load_users (users_file (ensure_data_dir a)) = load_users (users_file a).
Proof. cbn. by destruct (users_file a). Qed.
End AccountFacts.

(** X26.  [register] keeps the users file in order.  Whatever it returns or
    raises, the users that were there stay as they were, at most one user
    is appended, and if the ids counted up from 1 and the names were
    pairwise different before, they are so afterwards: a name is never
    registered twice and an id is never given twice. *)
Theorem register_keeps_users_ok (settings_base_currency : string)
    (min_password_length : nat) (sha256_hexdigest : string -> string)
    (username password salt now_iso : string) (a : App) :
  users_ok (load_users (users_file a)) →
  let a' := snd (register settings_base_currency min_password_length
                          sha256_hexdigest username password salt now_iso a) in
  users_ok (load_users (users_file a'))
  ∧ ∃ new, load_users (users_file a') = load_users (users_file a) ++ new
           ∧ (length new ≤ 1)%nat.
Proof.
  intros Hok. cbn zeta. unfold register.
  pose proof (ensure_data_dir_users a) as Hsame.
  destruct (existsb _ (load_users (users_file (ensure_data_dir a))))
    eqn:Htaken.
  { cbn [snd]. rewrite Hsame. split; [exact Hok|].
    apply nothing_appended. }
  destruct (py_len password <? min_password_length)%nat.
  { cbn [snd]. rewrite Hsame. split; [exact Hok|].
    apply nothing_appended. }
  destruct (User_init username password).
  2: { cbn [snd]. rewrite Hsame. split; [exact Hok|].
       apply nothing_appended. }
  rewrite Hsame in Htaken |- *.
  destruct (name_not_taken _ _ Htaken) as [Hnew _].
  assert (Hafter : ∀ a1,
    load_users (users_file a1)
    = load_users (users_file a)
      ++ [{| ud_user_id := Z.of_nat (length (load_users (users_file a)) + 1);
             ud_username := username;
             ud_hashed_password := sha256_hexdigest (password +:+ salt);
             ud_salt := salt;
             ud_registration_date := now_iso |}] →
    users_ok (load_users (users_file a1))
    ∧ ∃ new, load_users (users_file a1) = load_users (users_file a) ++ new
             ∧ (length new ≤ 1)%nat).
  { intros a1 ->. split; [by apply users_ok_snoc|].
    eexists. split; [reflexivity | cbn; lia]. }
  destruct (Portfolio_init _ settings_base_currency); cbn [snd];
    by apply Hafter.
Qed.

Lemma register_keeps_users_ok_witness :
  users_ok
    (load_users
       (users_file
          (snd (register "USD" 4 digest_sample "alice" "secret" "00ff"
                         "2024-01-01T00:00:00" empty_app)))).
Proof.
  apply (register_keeps_users_ok "USD" 4 digest_sample "alice" "secret" "00ff"
           "2024-01-01T00:00:00" empty_app).
  split; [reflexivity | constructor].
Defined.

(** X27.  Registration followed by login.  When each of the users file and
    the portfolios file is missing or holds a document, the name is not
    taken and not empty, the password has at least four characters (code
    points) and at least as many as the settings require, and the base
    currency of the settings is alphabetic, [register] succeeds; after it, [login] with the same name
    and password logs the new user in, with the id that follows the number
    of users there were, provided [fromisoformat] reads the date of
    registration; and the portfolio of the new user loads: it holds the
    wallet of the base currency, with balance 0.0, and nothing else. *)
Theorem register_then_login (settings_base_currency : string)
    (min_password_length : nat) (sha256_hexdigest : string -> string)
    (fromisoformat : string -> string + datetime)
    (username password salt now_iso : string) (a : App) (d : datetime) :
  users_file a ≠ Unparseable →
  portfolios_file (session a) ≠ Unparseable →
  existsb (fun u => String.eqb (ud_username u) username)
          (load_users (users_file a)) = false →
  username ≠ EmptyString →
  (min_password_length ≤ py_len password)%nat →
  (4 ≤ py_len password)%nat →
  py_isalpha settings_base_currency = true →
  fromisoformat now_iso = inr d →
  let uid := Z.of_nat (length (load_users (users_file a)) + 1) in
  ∃ message a1,
    register settings_base_currency min_password_length sha256_hexdigest
             username password salt now_iso a = (Returns message, a1)
    ∧ login sha256_hexdigest fromisoformat username password a1
      = (Returns ("Вы вошли как '" +:+ username +:+ "'."),
         {| session :=
              {| current_user := Some {| u_user_id := uid;
                                         u_username := username |};
                 portfolios_file := portfolios_file (session a1);
                 rates_file := rates_file (session a1) |};
            users_file := users_file a1 |})
    ∧ _load_user_portfolio settings_base_currency uid
                           (portfolios_file (session a1))
      = (Ok {| user_id := uid;
               base_currency := py_upper settings_base_currency;
               wallets := [(py_upper settings_base_currency,
                            {| currency_code := py_upper settings_base_currency;
                               balance := 0%float |})] |},
         portfolios_file (session a1)).
Proof.
  intros _ _ Hfree Hname Hmin Hfour Hbase Hdate uid.
  pose proof (ensure_data_dir_users a) as Hsame.
  destruct (name_not_taken _ _ Hfree) as [_ Hfind].
  apply String.eqb_neq in Hname.
  apply Nat.ltb_ge in Hmin, Hfour.
  pose proof (Portfolio_init_cases uid settings_base_currency) as Hinit.
  rewrite Hbase in Hinit.
  destruct Hinit as (p0 & Hp0 & Hwf & Huid & Hpbase & Hwallets).
  assert (Hp0' : p0 = {| user_id := uid;
                         base_currency := py_upper settings_base_currency;
                         wallets := [(py_upper settings_base_currency,
                                      {| currency_code :=
                                           py_upper settings_base_currency;
                                         balance := 0%float |})] |}).
  { destruct p0; cbn in *; by subst. }
  unfold register. rewrite Hsame, Hfree, Hmin.
  unfold User_init at 1. rewrite Hname, Hfour. fold uid. rewrite Hp0.
  eexists _, _. split; [reflexivity|]. split.
  - unfold login. cbn [users_file load_users].
    rewrite find_app_none by exact Hfind.
    cbn [List.find ud_username]. rewrite String.eqb_refl.
    cbn [ud_salt ud_hashed_password ud_registration_date ud_user_id].
    rewrite String.eqb_refl. cbn [negb]. rewrite Hdate.
    unfold User_init. cbn [ud_username]. rewrite Hname, Hfour. reflexivity.
  - cbn [session with_portfolios portfolios_file].
    unfold _load_user_portfolio, _save_user_portfolio.
    cbn [load_portfolios]. clear Hp0 Hwf Huid Hpbase Hwallets. subst p0.
    cbn [user_id].
    rewrite find_app_none by apply find_filter_self.
    cbn [List.find to_dict pd_user_id user_id]. rewrite Z.eqb_refl.
    f_equal. unfold from_dict, to_dict.
    cbn [pd_user_id pd_base_currency pd_wallets user_id base_currency wallets
         from_option List.filter map snd fst balance].
    change (float_nonzero 0) with false. cbn [map for_each].
    pose proof (Portfolio_init_cases uid (py_upper settings_base_currency))
      as Hinit'.
    rewrite py_isalpha_upper, Hbase in Hinit'.
    destruct Hinit' as (p1 & Hp1 & _ & Huid1 & Hbase1 & Hw1).
    unfold id. rewrite Hp1. cbn [rbind].
    rewrite py_upper_idem in Hbase1, Hw1.
    destruct p1; cbn in *; by subst.
Qed.

Lemma register_then_login_witness :
  ∃ message a1,
    register "USD" 4 digest_sample "alice" "secret" "00ff"
             "2024-01-01T00:00:00" empty_app = (Returns message, a1)
    ∧ fst (login digest_sample fromisoformat_sample "alice" "secret" a1)
      = Returns "Вы вошли как 'alice'."
    ∧ current_user
        (session (snd (login digest_sample fromisoformat_sample "alice"
                             "secret" a1)))
      = Some {| u_user_id := 1; u_username := "alice" |}.
Proof.
  destruct (register_then_login "USD" 4 digest_sample fromisoformat_sample
              "alice" "secret" "00ff" "2024-01-01T00:00:00" empty_app
              {| instant := 1704067200000000; aware := false |})
    as (message & a1 & Hregister & Hlogin & _);
    [discriminate | discriminate | reflexivity | discriminate
    | by apply Nat.leb_le | by apply Nat.leb_le | reflexivity
    | reflexivity |].
  exists message, a1. split; [exact Hregister|].
  rewrite Hlogin. by split.
Defined.
